(** * HEX web scraper: extraction, fetch policy and pagination

    A shallow embedding of [scraper/config_loader.py],
    [scraper/static_scraper.py], [scraper/async_scraper.py],
    [scraper/js_scraper.py], and of the transformations of
    [scraper/plugins.py] and the CSV and JSON Lines writers of
    [scraper/storage.py], followed by the properties of the extraction
    engine, the retry/delay pipeline, the pagination loop, the
    configuration loader, the transformations, the storage and the browser
    session.

    Conventions of the embedding.
    - A dict whose key order matters (a JSON object) is an association
      list; a scraped record is a [gmap], and the order of its keys is given
      from outside where the code depends on it ([_save_csv]).
    - The browser session of [JSScraper.scrape] has its own state, events
      and oracles (module [JS]); a file system is a map from paths to what
      the files hold.
    - Python exceptions are values of [exn]; a call that may raise returns a
      [result].
    - Floats are exact rationals ([Q]): rounding is not modelled.
    - The scrapers are followed on configurations of the types the code
      expects: [start_paths] and [user_agents] are lists of strings,
      [base_url] is a string, [selectors] is a schema of strings and
      dicts ([start_paths_are], [typed_selectors]). A delay, a
      [pagination], a next selector or a [selenium] section of another
      type raises as in the code.
    - The libraries the scrapers call (BeautifulSoup/soupsieve, urllib,
      Selenium, the network, the random generator) are interfaces: type
      classes for the pure ones, an [Env] record of oracles for the others.
      A small concrete instance of each is defined for the examples.
    - Side effects (sleeping, requests, log records) are recorded, in
      order, in the [trace] of the threaded [state]. *)

From Stdlib Require Import String Ascii List ZArith QArith Qminmax Bool Lia Lqa.
From stdpp Require Import base option list strings pretty gmap.

#[local] Set Warnings "-register-all".
Local Open Scope string_scope.
Local Open Scope list_scope.

(* ===================================================================== *)
(** * Python values *)
(* ===================================================================== *)

(** Exceptions raised by the scrapers and by the libraries they call. *)
Inductive exn : Type :=
| RequestException (detail : string)   (* requests.RequestException (ConnectionError, HTTPError, Timeout) *)
| ClientError (detail : string)        (* aiohttp.ClientError *)
| SelectorSyntaxError (selector : string) (* soupsieve, on a malformed CSS selector *)
| WebDriverException (detail : string) (* selenium *)
| TimeoutException                     (* selenium WebDriverWait *)
| TypeError
| ValueError
| AttributeError                       (* a method looked up on a value that has none of that name *)
| OverflowError                        (* a number too large for the C type it is converted to *)
| RetryError (last : exn).             (* tenacity, when the stop condition is met *)

Inductive result (A : Type) : Type :=
| Ok (a : A)
| Raise (e : exn).
Arguments Ok {A} a.
Arguments Raise {A} e.

#[global] Instance result_ret : MRet result := fun A a => Ok a.
#[global] Instance result_bind : MBind result := fun A B f m =>
  match m with
  | Ok a => f a
  | Raise e => Raise e
  end.

Definition is_ok {A} (r : result A) : bool :=
  match r with Ok _ => true | Raise _ => false end.

(** What a record field can hold: a string, a list of strings, or [None]
    (Selenium's [get_attribute] on an absent attribute). *)
Inductive value : Type :=
| VStr (s : string)
| VList (l : list string)
| VNone.

(** A scraped record, the Python dict [item_data]. *)
Abbreviation record := (gmap string value).

(** JSON documents as [json.load] returns them; a [JDict] keeps its keys in
    order, and lookup takes the first binding of a key. *)
Inductive json : Type :=
| JNull
| JBool (b : bool)
| JInt (z : Z)
| JFloat (q : Q)
| JStr (s : string)
| JList (l : list json)
| JDict (d : list (string * json)).

Fixpoint dict_lookup {A} (key : string) (d : list (string * A)) : option A :=
  match d with
  | [] => None
  | (k, v) :: rest => if String.eqb k key then Some v else dict_lookup key rest
  end.

(** Python truth value of a JSON value. *)
Definition truthy (v : json) : bool :=
  match v with
  | JNull => false
  | JBool b => b
  | JInt z => negb (z =? 0)%Z
  | JFloat q => negb (Qeq_bool q 0)
  | JStr s => negb (String.eqb s "")
  | JList l => match l with [] => false | _ => true end
  | JDict d => match d with [] => false | _ => true end
  end.

(** [a or b]. *)
Definition py_or (a b : json) : json := if truthy a then a else b.

(** The number a JSON value denotes where Python expects one ([bool] is a
    subclass of [int]). *)
Definition as_number (v : json) : option Q :=
  match v with
  | JInt z => Some (inject_Z z)
  | JFloat q => Some q
  | JBool b => Some (if b then 1%Q else 0%Q)
  | _ => None
  end.

Definition as_string (v : json) : option string :=
  match v with JStr s => Some s | _ => None end.

(** [v.get(key, default)] on a value read from the configuration: only a
    dict has the method. *)
Definition py_get (v : json) (key : string) (default_value : json) : result json :=
  match v with
  | JDict d => Ok (default default_value (dict_lookup key d))
  | _ => Raise AttributeError
  end.

(** The strings of a JSON list (entries that are not strings are left out). *)
Definition as_string_list (v : json) : list string :=
  match v with
  | JList l => omap as_string l
  | _ => []
  end.

(** [str.strip()] on strings of ASCII characters: the white space
    stripped is that of ASCII (Unicode has more, such as U+00A0). *)
Definition is_space (c : ascii) : bool :=
  let n := nat_of_ascii c in
  (((9 <=? n) && (n <=? 13)) || ((28 <=? n) && (n <=? 32)))%nat.

Fixpoint lstrip_list (l : list ascii) : list ascii :=
  match l with
  | c :: rest => if is_space c then lstrip_list rest else l
  | [] => []
  end.

Definition py_strip (s : string) : string :=
  string_of_list_ascii
    (rev (lstrip_list (rev (lstrip_list (list_ascii_of_string s))))).

(* ===================================================================== *)
(** * scraper/config_loader.py *)
(* ===================================================================== *)

Module ConfigLoader.

(** [ConfigLoader.config], the loaded dict. *)
Definition t := list (string * json).

(** [get(key, default)]. *)
Definition get (config : t) (key : string) (default : json) : json :=
  match dict_lookup key config with
  | Some v => v
  | None => default
  end.

(** [get_nested] on its keys: walk down the dicts, [None] as soon as a value
    is not a dict or lacks the key. *)
Fixpoint get_nested_from (value : json) (keys : list string) : json :=
  match keys with
  | [] => value
  | key :: rest =>
      match value with
      | JDict d =>
          match dict_lookup key d with
          | Some v => get_nested_from v rest
          | None => JNull
          end
      | _ => JNull
      end
  end.

Definition get_nested (config : t) (keys : list string) : json :=
  get_nested_from (JDict config) keys.

(** ** [load_config] *)

(** What [load_config] finds at [config_path]: no such path, something
    [open] refuses (a directory, a file without read permission), text
    [json.load] rejects, or a JSON document. *)
Inductive path_content : Type :=
| Absent
| Unreadable
| Malformed
| Document (j : json).

(** What [load_config] raises. *)
Inductive load_error : Type :=
| FileNotFoundError (path : string)
| OSError                       (* from [open] *)
| JSONDecodeError               (* from [json.load] *)
| MissingField (field : string) (* ValueError("Missing required configuration field: ...") *)
| NotIterable                   (* TypeError: [field not in config] on a number, a bool or null *)
| NoSetdefault.                 (* AttributeError: [config.setdefault] on a list or a string *)

Inductive loaded : Type :=
| Loaded (config : t)
| LoadError (e : load_error).

Definition required_fields : list string :=
  ["name"; "mode"; "base_url"; "start_paths"; "selectors"; "storage"].

(** [needle in hay] on strings. *)
Fixpoint is_substring (needle hay : string) : bool :=
  String.prefix needle hay
  || match hay with
     | String _ rest => is_substring needle rest
     | EmptyString => false
     end.

(** [field in config]: a key of a dict, an element of a list, a
    substring of a string; anything else is not iterable. *)
Definition contains (config : json) (field : string) : option bool :=
  match config with
  | JDict d => Some (match dict_lookup field d with
                     | Some _ => true
                     | None => false
                     end)
  | JList l => Some (existsb (fun x => match x with
                                      | JStr s => String.eqb s field
                                      | _ => false
                                      end) l)
  | JStr s => Some (is_substring field s)
  | _ => None
  end.

(** [for field in required_fields: if field not in config: raise ...]. *)
Fixpoint check_required (config : json) (fields : list string)
    : option load_error :=
  match fields with
  | [] => None
  | field :: rest =>
      match contains config field with
      | None => Some NotIterable
      | Some false => Some (MissingField field)
      | Some true => check_required config rest
      end
  end.

(** [config.setdefault(key, default)]. *)
Definition setdefault (key : string) (default : json) (config : t) : t :=
  match dict_lookup key config with
  | Some _ => config
  | None => config ++ [(key, default)]
  end.

(** [load_config()], on what the file system holds at each path. *)
Definition load_config (config_path : string) (fs : string -> path_content)
    : loaded :=
  match fs config_path with
  | Absent => LoadError (FileNotFoundError config_path)
  | Unreadable => LoadError OSError
  | Malformed => LoadError JSONDecodeError
  | Document config =>
      match check_required config required_fields with
      | Some e => LoadError e
      | None =>
          match config with
          | JDict config =>
              (* Set defaults for optional fields *)
              let config := setdefault "user_agents" (JList []) config in
              let config :=
                setdefault "rate_limit"
                  (JDict [("delay_seconds", JFloat 1); ("jitter", JBool false)])
                  config in
              let config :=
                setdefault "concurrency"
                  (JDict [("global", JInt 5); ("per_domain", JInt 2)]) config in
              let config :=
                setdefault "proxies"
                  (JDict [("enabled", JBool false); ("list", JList []);
                          ("validate", JBool true)]) config in
              let config :=
                setdefault "telegram"
                  (JDict [("enabled", JBool false); ("bot_token", JStr "");
                          ("chat_id", JStr "")]) config in
              let config :=
                setdefault "selenium"
                  (JDict [("remote_url", JStr ""); ("headless", JBool true);
                          ("screenshot_on_error", JBool true)]) config in
              Loaded config
          | _ => LoadError NoSetdefault
          end
      end
  end.

End ConfigLoader.

(* ===================================================================== *)
(** * The selector schema *)
(* ===================================================================== *)

(** A value of [selectors["fields"]]: a string, a dict with the optional
    keys ["attr"] and ["selector"], or anything else. *)
Inductive field_selector : Type :=
| Simple (css : string)
| Attributed (attr : option string) (css : option string)
| Unsupported.

(** The dict [selectors]; ["item"] and ["fields"] are optional. *)
Record selectors : Type := {
  item : option string;
  fields : list (string * field_selector);
}.

(** [selectors.get("item", "")]. *)
Definition item_selector (s : selectors) : string := default "" (item s).

(** Reading the schema off the configuration, for [selectors] of the
    types [extract_data] expects: a dict with a string under ["item"] and
    a dict under ["fields"], whose dict values hold strings under
    ["attr"] and ["selector"]. A value of another type where a string or
    a dict is expected is read as absent; the code hands it to the
    library or calls [.get] on it, and raises. *)
Definition field_selector_of_json (v : json) : field_selector :=
  match v with
  | JStr s => Simple s
  | JDict d =>
      Attributed (dict_lookup "attr" d ≫= as_string)
                 (dict_lookup "selector" d ≫= as_string)
  | _ => Unsupported
  end.

Definition selectors_of_json (v : json) : selectors :=
  match v with
  | JDict d =>
      {| item := dict_lookup "item" d ≫= as_string;
         fields := match dict_lookup "fields" d with
                   | Some (JDict fs) => prod_map id field_selector_of_json <$> fs
                   | _ => []
                   end |}
  | _ => {| item := None; fields := [] |}
  end.

(* ===================================================================== *)
(** * Library interfaces *)
(* ===================================================================== *)

(** BeautifulSoup: a parsed document and its tags are [node]s. *)
Class Bs4 (node : Type) : Type := {
  (** [tag.select(css)]: the descendants matching [css], in document order;
      raises on a selector the engine rejects. *)
  select : node -> string -> result (list node);
  (** [tag.get_text(strip=True)]. *)
  get_text : node -> string;
  (** [tag.attrs.get(name)]: a string, or a list for a multi-valued
      attribute such as [class]. *)
  attr_get : node -> string -> option value;
}.

(** A value handed to [select] or [select_one] as the selector. One that
    is not a string makes soupsieve raise before it parses anything: a
    list or a dict cannot be hashed for its cache of compiled selectors
    ([TypeError]), any other value has no [replace] ([AttributeError]). *)
Definition selector_argument (v : json) : result string :=
  match v with
  | JStr css => Ok css
  | JList _ | JDict _ => Raise TypeError
  | _ => Raise AttributeError
  end.

(** [tag.select_one(css)] is [select] limited to the first match. *)
Definition select_one `{Bs4 node} (n : node) (css : string) : result (option node) :=
  elements ← select n css; Ok (head elements).

(** [urllib.parse.urljoin]. *)
Class UrlLib : Type := {
  urljoin : string -> string -> string;
}.

(** Selenium: the page loaded in the driver, and its web elements. *)
Class WebDriver (page elem : Type) : Type := {
  (** [wait.until(EC.presence_of_element_located((By.CSS_SELECTOR, css)))]. *)
  wait_until_present : page -> string -> result unit;
  (** [driver.find_elements(By.CSS_SELECTOR, css)]. *)
  driver_find_elements : page -> string -> result (list elem);
  (** [element.find_elements(By.CSS_SELECTOR, css)]. *)
  find_elements : elem -> string -> result (list elem);
  (** [element.text]. *)
  elem_text : elem -> result string;
  (** [element.get_attribute(name)], [None] when the attribute is absent. *)
  get_attribute : elem -> string -> result (option string);
}.

(* ===================================================================== *)
(** * Observable effects *)
(* ===================================================================== *)

Inductive level : Type := INFO | WARNING | ERROR.

(** The log records the scrapers emit (the formatted message, by parts). *)
Inductive log_record : Type :=
| Scraping (url : string)                          (* "Scraping: {current_url}" *)
| ErrorFetching (url : string) (e : exn)           (* "Error fetching {url}: {e}" *)
| ErrorScraping (url : string) (e : exn)           (* "Error scraping {current_url}: {e}" *)
| UrlTemplateNotImplemented                        (* "URL template pagination not fully implemented" *)
| ItemSelectorNotFound (item_selector : string)    (* "Item selector '{item_selector}' not found on page" *)
| ErrorExtractingField (field_name : string) (e : exn). (* "Error extracting field '{field_name}': {e}" *)

(** Who sleeps: the scraper's own delay before a request, or tenacity's
    wait between two attempts. *)
Inductive sleeper : Type := RateLimit | Backoff.

Inductive event : Type :=
| EvSleep (who : sleeper) (seconds : Q)
| EvGet (url : string) (user_agent : option string)
| EvLog (lvl : level) (r : log_record).

(* ===================================================================== *)
(** * The effect monad *)
(* ===================================================================== *)

(** The mutable state a scraping session threads through its calls. *)
Record state : Type := mk_state {
  trace : list event;          (* the effects so far, oldest first *)
  requests : nat;              (* how many requests were issued *)
  draws : nat;                 (* how many random numbers were drawn *)
  session_ua : option string;  (* the User-Agent header of [self.session] *)
  all_data : list record;      (* the list [all_data] of [scrape] *)
}.

(** The outside world, as oracles: the [n]-th request of the session
    ([session.get], [raise_for_status] and the parse of the body, or the
    exception one of them raised), and the [n]-th draw of the generator. *)
Record Env (node : Type) : Type := {
  http_get : nat -> string -> option string -> result node;
  uniform : nat -> Q;          (* random.uniform(0, 1) *)
  choice : nat -> nat;         (* the index random.choice picks *)
  (** [random.uniform(0, 1)] is [0 + (1 - 0) * random()], in [[0, 1)]. *)
  uniform_range : forall n, (0 <= uniform n)%Q /\ (uniform n < 1)%Q;
}.
Arguments http_get {node} _ _ _ _.
Arguments uniform {node} _ _.
Arguments choice {node} _ _.
Arguments uniform_range {node} _ _.

Definition M (A : Type) : Type := state -> result A * state.

#[global] Instance M_ret : MRet M := fun A a st => (Ok a, st).
#[global] Instance M_bind : MBind M := fun A B f m st =>
  match m st with
  | (Ok a, st') => f a st'
  | (Raise e, st') => (Raise e, st')
  end.

Definition raise {A} (e : exn) : M A := fun st => (Raise e, st).

Definition lift {A} (r : result A) : M A := fun st => (r, st).

(** [try: body except <exceptions> as e: handler]. *)
Definition try_except {A} (body : M A) (catches : exn -> bool)
    (handler : exn -> M A) : M A :=
  fun st =>
    match body st with
    | (Ok a, st') => (Ok a, st')
    | (Raise e, st') => if catches e then handler e st' else (Raise e, st')
    end.

Definition emit (ev : event) : M unit := fun st =>
  (Ok tt, mk_state (trace st ++ [ev]) (requests st) (draws st)
                   (session_ua st) (all_data st)).

(** [logger.info], [logger.warning], [logger.error]. *)
Definition logger (lvl : level) (r : log_record) : M unit := emit (EvLog lvl r).

(** [time.sleep] converts its argument to a number of nanoseconds held in
    64 bits: these are the least and the greatest number of seconds that
    fit. *)
Definition sleep_min : Q := -9223372036854775808 # 1000000000.
Definition sleep_max : Q := 9223372036854775807 # 1000000000.

Definition fits_time_t (d : Q) : bool :=
  Qle_bool sleep_min d && Qle_bool d sleep_max.

(** [time.sleep(delay)]: a number is required ([TypeError]), one that
    fits the conversion ([OverflowError]), and not a negative one
    ([ValueError]), checked in this order. *)
Definition time_sleep (who : sleeper) (delay : json) : M unit :=
  match as_number delay with
  | None => raise TypeError
  | Some d =>
      if fits_time_t d
      then if Qle_bool 0 d then emit (EvSleep who d) else raise ValueError
      else raise OverflowError
  end.

(** [delay += r] for a float [r]. *)
Definition add_float (delay : json) (r : Q) : M json :=
  match as_number delay with
  | None => raise TypeError
  | Some d => mret (JFloat (d + r))
  end.

Section Oracles.
Context {node : Type} (env : Env node).

Definition random_uniform : M Q := fun st =>
  (Ok (uniform env (draws st)),
   mk_state (trace st) (requests st) (S (draws st)) (session_ua st) (all_data st)).

(** [random.choice(l)] on a non-empty list. *)
Definition random_choice (l : list string) : M string := fun st =>
  (Ok (nth (choice env (draws st) `mod` length l) l ""),
   mk_state (trace st) (requests st) (S (draws st)) (session_ua st) (all_data st)).

(** One request, with the given User-Agent header. *)
Definition request (url : string) (user_agent : option string) : M node := fun st =>
  (http_get env (requests st) url user_agent,
   mk_state (trace st ++ [EvGet url user_agent]) (S (requests st)) (draws st)
            (session_ua st) (all_data st)).

End Oracles.

(** [self.session.headers.update({"User-Agent": user_agent})]. *)
Definition set_session_ua (user_agent : string) : M unit := fun st =>
  (Ok tt, mk_state (trace st) (requests st) (draws st) (Some user_agent) (all_data st)).

(** [all_data.extend(data)]. *)
Definition extend_all_data (data : list record) : M unit := fun st =>
  (Ok tt, mk_state (trace st) (requests st) (draws st) (session_ua st)
                   (all_data st ++ data)).

Definition get_all_data : M (list record) := fun st => (Ok (all_data st), st).

Definition get_session_ua : M (option string) := fun st => (Ok (session_ua st), st).

Definition catch_all (e : exn) : bool := true.

Definition is_request_exception (e : exn) : bool :=
  match e with RequestException _ => true | _ => false end.

Definition is_client_error (e : exn) : bool :=
  match e with ClientError _ => true | _ => false end.

(* ===================================================================== *)
(** * tenacity *)
(* ===================================================================== *)

(** [wait_exponential(multiplier, min, max)] at the attempt that just
    failed, attempts being numbered from 1. *)
Definition wait_exponential (multiplier min max : Q) (attempt_number : nat) : Q :=
  let exp := (2 ^ Z.of_nat (attempt_number - 1))%Q in
  let result := (multiplier * exp)%Q in
  Qmax (Qmax 0 min) (Qmin result max).

(** The loop of [@retry(stop=stop_after_attempt(n), wait=...)]: run the
    body; when it raises, stop with [RetryError] if this was attempt [n],
    else sleep [wait attempt_number] and run it again. [remaining] is
    [n - attempt_number]. *)
Fixpoint retry_loop {A} (remaining attempt_number : nat) (wait : nat -> Q)
    (body : M A) : M A :=
  fun st =>
    match body st with
    | (Ok a, st') => (Ok a, st')
    | (Raise e, st') =>
        match remaining with
        | O => (Raise (RetryError e), st')
        | S remaining' =>
            match emit (EvSleep Backoff (wait attempt_number)) st' with
            | (_, st'') => retry_loop remaining' (S attempt_number) wait body st''
            end
        end
    end.

Definition retry {A} (stop_after_attempt : nat) (wait : nat -> Q) (body : M A) : M A :=
  retry_loop (stop_after_attempt - 1) 1 wait body.

(* ===================================================================== *)
(** * scraper/static_scraper.py *)
(* ===================================================================== *)

Module Static.

(** The attributes [__init__] sets. *)
Record t : Type := {
  config : ConfigLoader.t;
  user_agents : list string;
  delay_seconds : json;
  jitter : json;
  proxies : json;
  base_url : string;
}.

(** [StaticScraper.__init__(config)], for a configuration whose
    [user_agents] is a list of strings and whose [base_url] is a string:
    they are read as such. *)
Definition init (config : ConfigLoader.t) : t :=
  {| config := config;
     user_agents := as_string_list (ConfigLoader.get config "user_agents" (JList []));
     delay_seconds :=
       py_or (ConfigLoader.get_nested config ["rate_limit"; "delay_seconds"]) (JFloat 1);
     jitter :=
       py_or (ConfigLoader.get_nested config ["rate_limit"; "jitter"]) (JBool false);
     proxies := ConfigLoader.get config "proxies" (JDict []);
     base_url := default "" (as_string (ConfigLoader.get config "base_url" JNull)) |}.

(** The state of a fresh scraper: the session carries the first
    configured user agent, if any. *)
Definition initial_state (self : t) : state :=
  mk_state [] 0 0 (head (user_agents self)) [].

Section Scraper.
Context {node : Type} `{!Bs4 node}.

(** ** [extract_data] *)

(** The body of [for field_name, selector in field_selectors.items()]. *)
Definition extract_field (element : node) (field_name : string)
    (selector : field_selector) (item_data : record) : result record :=
  match selector with
  | Simple css =>
      elements ← select element css;
      match elements with
      | e0 :: _ =>
          if (1 <? length elements)%nat
          then Ok (<[field_name := VList (get_text <$> elements)]> item_data)
          else Ok (<[field_name := VStr (get_text e0)]> item_data)
      | [] => Ok (<[field_name := VStr ""]> item_data)
      end
  | Attributed attr css =>
      let attr := default "text" attr in
      let css_selector := default "" css in
      elements ← select element css_selector;
      match elements with
      | e0 :: _ =>
          if String.eqb attr "text"
          then Ok (<[field_name := VStr (get_text e0)]> item_data)
          else Ok (<[field_name := default (VStr "") (attr_get e0 attr)]> item_data)
      | [] => Ok (<[field_name := VStr ""]> item_data)
      end
  | Unsupported => Ok item_data
  end.

Fixpoint extract_fields (element : node)
    (field_selectors : list (string * field_selector))
    (item_data : record) : result record :=
  match field_selectors with
  | [] => Ok item_data
  | (field_name, selector) :: rest =>
      item_data ← extract_field element field_name selector item_data;
      extract_fields element rest item_data
  end.

(** The body of [for element in item_elements], [items] being the list
    appended to. *)
Fixpoint extract_items (item_elements : list node)
    (field_selectors : list (string * field_selector))
    (items : list record) : result (list record) :=
  match item_elements with
  | [] => Ok items
  | element :: rest =>
      item_data ← extract_fields element field_selectors ∅;
      extract_items rest field_selectors (items ++ [item_data])
  end.

Definition extract_data (soup : node) (selectors : selectors)
    : result (list record) :=
  let item_selector := item_selector selectors in
  let field_selectors := fields selectors in
  item_elements ← select soup item_selector;
  extract_items item_elements field_selectors [].

(** ** [fetch_page], [get_next_page_url], [scrape] *)

Context `{!UrlLib} (env : Env node).

(** The body of [fetch_page], one attempt. *)
Definition fetch_page_attempt (self : t) (url : string) : M node :=
  (* Rotate user agent if multiple are provided *)
  _ ← match user_agents self with
      | [] => mret tt
      | _ :: _ =>
          user_agent ← random_choice env (user_agents self);
          set_session_ua user_agent
      end;
  (* Add delay between requests *)
  let delay := delay_seconds self in
  delay ← (if truthy (jitter self)
           then r ← random_uniform env; add_float delay r
           else mret delay);
  _ ← time_sleep RateLimit delay;
  try_except
    (user_agent ← get_session_ua; request env url user_agent)
    is_request_exception
    (fun e => _ ← logger ERROR (ErrorFetching url e); raise e).

(** [@retry(stop=stop_after_attempt(3),
            wait=wait_exponential(multiplier=1, min=4, max=10))]. *)
Definition fetch_page (self : t) (url : string) : M node :=
  retry 3 (wait_exponential 1 4 10) (fetch_page_attempt self url).

(** Python truth value of an attribute value. *)
Definition truthy_value (v : option value) : bool :=
  match v with
  | Some (VStr s) => negb (String.eqb s "")
  | Some (VList l) => match l with [] => false | _ => true end
  | Some VNone | None => false
  end.

(** [pagination = self.config.get("pagination", {})]. *)
Definition pagination (self : t) : json :=
  ConfigLoader.get (config self) "pagination" (JDict []).

(** What [pagination.get("next_selector")] and
    [pagination.get("next_url_template")] return when [pagination] is a
    dict; [JNull] stands for an absent key, and here also for a
    [pagination] on which the call raises. *)
Definition next_selector (self : t) : json :=
  match py_get (pagination self) "next_selector" JNull with
  | Ok v => v
  | Raise _ => JNull
  end.

Definition next_url_template (self : t) : json :=
  match py_get (pagination self) "next_url_template" JNull with
  | Ok v => v
  | Raise _ => JNull
  end.

Definition get_next_page_url (self : t) (soup : node) (current_url : string)
    : M (option string) :=
  let pagination := pagination self in
  next_selector ← lift (py_get pagination "next_selector" JNull);
  next_url_template ← lift (py_get pagination "next_url_template" JNull);
  found ← (if truthy next_selector
           then
             css ← lift (selector_argument next_selector);
             next_element ← lift (select_one soup css);
             match next_element with
             | Some el =>
                 if truthy_value (attr_get el "href")
                 then match attr_get el "href" with
                      | Some (VStr href) => mret (Some (urljoin current_url href))
                      | _ => raise TypeError
                      end
                 else mret None
             | None => mret None
             end
           else mret None);
  match found with
  | Some next_url => mret (Some next_url)
  | None =>
      (* Fallback to URL pattern if specified *)
      _ ← (if truthy next_url_template
           then logger WARNING UrlTemplateNotImplemented
           else mret tt);
      mret None
  end.

(** How the [while current_url] loop of one start path ended: its
    condition became false ([Done]), the [except] clause ran [break]
    ([Failed]), or the model ran out of fuel with the loop still going
    ([Running]). *)
Inductive walk_status : Type := Done | Failed | Running.

(** [while current_url:] for one start path; [fuel] bounds the number of
    iterations. *)
Fixpoint walk (fuel : nat) (self : t) (selectors : selectors)
    (current_url : option string) : M walk_status :=
  match current_url with
  | None => mret Done
  | Some url =>
      if String.eqb url "" then mret Done else
      match fuel with
      | O => mret Running
      | S fuel' =>
          _ ← logger INFO (Scraping url);
          next ← try_except
                   (soup ← fetch_page self url;
                    data ← lift (extract_data soup selectors);
                    _ ← extend_all_data data;
                    (* Check for next page *)
                    next_url ← get_next_page_url self soup url;
                    mret (Some next_url))
                   catch_all
                   (fun e => _ ← logger ERROR (ErrorScraping url e); mret None);
          match next with
          | Some next_url => walk fuel' self selectors next_url
          | None => mret Failed (* break *)
          end
      end
  end.

(** [for path in start_paths:]; the status of each path walked is
    returned, and a path still [Running] ends the model's run. *)
Fixpoint for_paths (fuel : nat) (self : t) (selectors : selectors)
    (start_paths : list string) : M (list walk_status) :=
  match start_paths with
  | [] => mret []
  | path :: rest =>
      let current_url := urljoin (base_url self) path in
      status ← walk fuel self selectors (Some current_url);
      match status with
      | Running => mret [Running]
      | _ =>
          statuses ← for_paths fuel self selectors rest;
          mret (status :: statuses)
      end
  end.

(** [scrape()]: the list returned, with the status of each path. The
    code is followed on a configuration whose [start_paths] is a list of
    strings and whose [selectors] have the types [extract_data] expects:
    [start_paths] and [selectors] are read as such a list and such a
    schema. On a [start_paths] that cannot be iterated, or a path that is
    not a string, the code raises [TypeError] where it iterates or joins
    it, outside the [try]; the properties of [scrape] are stated for
    typed configurations. *)
Definition scrape (fuel : nat) (self : t)
    : M (list walk_status * list record) :=
  let start_paths :=
    as_string_list (ConfigLoader.get (config self) "start_paths" (JList [JStr "/"])) in
  let selectors :=
    selectors_of_json (ConfigLoader.get (config self) "selectors" (JDict [])) in
  statuses ← for_paths fuel self selectors start_paths;
  all_data ← get_all_data;
  mret (statuses, all_data).

End Scraper.
End Static.

(* ===================================================================== *)
(** * scraper/async_scraper.py *)
(* ===================================================================== *)

Module Async.

(** The attributes [__init__] sets ([semaphore] and [session] are created
    by [__aenter__]). *)
Record t : Type := {
  config : ConfigLoader.t;
  base_url : string;
  user_agents : list string;
  delay_seconds : json;
  jitter : json;
  concurrency : json;
  proxies : json;
}.

(** [AsyncScraper.__init__(config)], for a configuration whose
    [user_agents] is a list of strings and whose [base_url] is a string:
    they are read as such. *)
Definition init (config : ConfigLoader.t) : t :=
  {| config := config;
     base_url := default "" (as_string (ConfigLoader.get config "base_url" JNull));
     user_agents := as_string_list (ConfigLoader.get config "user_agents" (JList []));
     delay_seconds :=
       py_or (ConfigLoader.get_nested config ["rate_limit"; "delay_seconds"]) (JFloat 1);
     jitter :=
       py_or (ConfigLoader.get_nested config ["rate_limit"; "jitter"]) (JBool false);
     concurrency := ConfigLoader.get config "concurrency" (JDict []);
     proxies := ConfigLoader.get config "proxies" (JDict []) |}.

(** The state of one task of a fresh scraper. *)
Definition initial_state (self : t) : state :=
  mk_state [] 0 0 (head (user_agents self)) [].

Section Scraper.
Context {node : Type} `{!Bs4 node}.

(** ** [extract_data] *)

Definition extract_field (element : node) (field_name : string)
    (selector : field_selector) (item_data : record) : result record :=
  match selector with
  | Simple css =>
      elements ← select element css;
      match elements with
      | e0 :: _ =>
          if (1 <? length elements)%nat
          then Ok (<[field_name := VList (get_text <$> elements)]> item_data)
          else Ok (<[field_name := VStr (get_text e0)]> item_data)
      | [] => Ok (<[field_name := VStr ""]> item_data)
      end
  | Attributed attr css =>
      let attr := default "text" attr in
      let css_selector := default "" css in
      elements ← select element css_selector;
      match elements with
      | e0 :: _ =>
          if String.eqb attr "text"
          then Ok (<[field_name := VStr (get_text e0)]> item_data)
          else Ok (<[field_name := default (VStr "") (attr_get e0 attr)]> item_data)
      | [] => Ok (<[field_name := VStr ""]> item_data)
      end
  | Unsupported => Ok item_data
  end.

Fixpoint extract_fields (element : node)
    (field_selectors : list (string * field_selector))
    (item_data : record) : result record :=
  match field_selectors with
  | [] => Ok item_data
  | (field_name, selector) :: rest =>
      item_data ← extract_field element field_name selector item_data;
      extract_fields element rest item_data
  end.

Fixpoint extract_items (item_elements : list node)
    (field_selectors : list (string * field_selector))
    (items : list record) : result (list record) :=
  match item_elements with
  | [] => Ok items
  | element :: rest =>
      item_data ← extract_fields element field_selectors ∅;
      extract_items rest field_selectors (items ++ [item_data])
  end.

Definition extract_data (soup : node) (selectors : selectors)
    : result (list record) :=
  let item_selector := item_selector selectors in
  let field_selectors := fields selectors in
  item_elements ← select soup item_selector;
  extract_items item_elements field_selectors [].

(** ** [fetch_page], [scrape_single_page]

    One task is followed on its own: the trace holds the task's effects,
    and the oracles are indexed by the task's own requests and draws.
    The semaphore only delays the body and is not part of the trace. *)

Context (env : Env node).

(** [await asyncio.sleep(delay)]: a number is required. The event
    records the call; a delay of zero or less returns at once. *)
Definition asyncio_sleep (who : sleeper) (delay : json) : M unit :=
  match as_number delay with
  | None => raise TypeError
  | Some d => emit (EvSleep who d)
  end.

(** The body of [fetch_page], one attempt. *)
Definition fetch_page_attempt (self : t) (url : string) : M node :=
  (* Rotate user agent if multiple are provided *)
  headers ← match user_agents self with
            | [] => mret None
            | _ :: _ =>
                user_agent ← random_choice env (user_agents self);
                mret (Some user_agent)
            end;
  (* Add delay between requests *)
  let delay := delay_seconds self in
  delay ← (if truthy (jitter self)
           then r ← random_uniform env; add_float delay r
           else mret delay);
  _ ← asyncio_sleep RateLimit delay;
  try_except
    (request env url headers)
    is_client_error
    (fun e => _ ← logger ERROR (ErrorFetching url e); raise e).

(** [@retry(stop=stop_after_attempt(3),
            wait=wait_exponential(multiplier=1, min=4, max=10))]. *)
Definition fetch_page (self : t) (url : string) : M node :=
  retry 3 (wait_exponential 1 4 10) (fetch_page_attempt self url).


End Scraper.
End Async.

(* ===================================================================== *)
(** * scraper/js_scraper.py *)
(* ===================================================================== *)

Module JS.

(** The attributes [__init__] sets ([driver] and [wait] are created by
    [setup_driver]). *)
Record t : Type := {
  config : ConfigLoader.t;
  base_url : string;
  selenium_config : json;
  user_agents : list string;
  delay_seconds : json;
  jitter : json;
}.

(** [JSScraper.__init__(config)], for a configuration whose
    [user_agents] is a list of strings and whose [base_url] is a string:
    they are read as such. *)
Definition init (config : ConfigLoader.t) : t :=
  {| config := config;
     base_url := default "" (as_string (ConfigLoader.get config "base_url" JNull));
     selenium_config := ConfigLoader.get config "selenium" (JDict []);
     user_agents := as_string_list (ConfigLoader.get config "user_agents" (JList []));
     delay_seconds :=
       py_or (ConfigLoader.get_nested config ["rate_limit"; "delay_seconds"]) (JFloat 1);
     jitter :=
       py_or (ConfigLoader.get_nested config ["rate_limit"; "jitter"]) (JBool false) |}.

Section Scraper.
Context {page elem : Type} `{!WebDriver page elem}.

(** ** [extract_data] *)

(** [elem.text.strip()]. *)
Definition stripped_text (e : elem) : result string :=
  t ← elem_text e; Ok (py_strip t).

(** [[elem.text.strip() for elem in elements]]. *)
Fixpoint stripped_texts (elements : list elem) : result (list string) :=
  match elements with
  | [] => Ok []
  | e :: rest =>
      t ← stripped_text e;
      ts ← stripped_texts rest;
      Ok (t :: ts)
  end.

(** The body of the [try] of one field. *)
Definition try_field (element : elem) (field_name : string)
    (selector : field_selector) (item_data : record) : result record :=
  match selector with
  | Simple css =>
      elements ← find_elements element css;
      match elements with
      | e0 :: _ =>
          if (1 <? length elements)%nat
          then ts ← stripped_texts elements;
               Ok (<[field_name := VList ts]> item_data)
          else t ← stripped_text e0;
               Ok (<[field_name := VStr t]> item_data)
      | [] => Ok (<[field_name := VStr ""]> item_data)
      end
  | Attributed attr css =>
      let attr := default "text" attr in
      let css_selector := default "" css in
      elements ← find_elements element css_selector;
      match elements with
      | e0 :: _ =>
          if String.eqb attr "text"
          then t ← stripped_text e0;
               Ok (<[field_name := VStr t]> item_data)
          else a ← get_attribute e0 attr;
               Ok (<[field_name := from_option VStr VNone a]> item_data)
      | [] => Ok (<[field_name := VStr ""]> item_data)
      end
  | Unsupported => Ok item_data
  end.

(** [try: ... except Exception as e: logger.warning(...);
    item_data[field_name] = ""]. *)
Definition extract_field (element : elem) (field_name : string)
    (selector : field_selector) (st : record * list event)
    : record * list event :=
  let '(item_data, log) := st in
  match try_field element field_name selector item_data with
  | Ok item_data' => (item_data', log)
  | Raise e =>
      (<[field_name := VStr ""]> item_data,
       log ++ [EvLog WARNING (ErrorExtractingField field_name e)])
  end.

Fixpoint extract_fields (element : elem)
    (field_selectors : list (string * field_selector))
    (st : record * list event) : record * list event :=
  match field_selectors with
  | [] => st
  | (field_name, selector) :: rest =>
      extract_fields element rest (extract_field element field_name selector st)
  end.

Fixpoint extract_items (item_elements : list elem)
    (field_selectors : list (string * field_selector))
    (items : list record) (log : list event) : list record * list event :=
  match item_elements with
  | [] => (items, log)
  | element :: rest =>
      let '(item_data, log) := extract_fields element field_selectors (∅, log) in
      extract_items rest field_selectors (items ++ [item_data]) log
  end.

(** [extract_data(selectors)] on the page the driver shows; [log] holds
    the records emitted so far. *)
Definition extract_data (pg : page) (selectors : selectors)
    (log : list event) : result (list record) * list event :=
  let item_selector := item_selector selectors in
  let field_selectors := fields selectors in
  match wait_until_present pg item_selector with
  | Raise TimeoutException =>
      (Ok [], log ++ [EvLog WARNING (ItemSelectorNotFound item_selector)])
  | Raise e => (Raise e, log)
  | Ok _ =>
      match driver_find_elements pg item_selector with
      | Raise e => (Raise e, log)
      | Ok item_elements =>
          let '(items, log) := extract_items item_elements field_selectors [] log in
          (Ok items, log)
      end
  end.

End Scraper.
(** ** The browser session: [setup_driver], [get_next_page_url],
    [take_screenshot], [scrape] *)

(** What the session raises and logs: an exception of a library, or the
    [AttributeError] of [.get] on a configuration value that is not a
    dict. *)
Inductive failure : Type :=
| Lib (e : exn)
| AttributeError.

Inductive outcome (A : Type) : Type :=
| Returns (a : A)
| Raises (e : failure).
Arguments Returns {A} a.
Arguments Raises {A} e.

(** The calls that reach the browser and the disk. *)
Inductive browser_call : Type :=
| Remote (command_executor : json) (arguments : list string)  (* webdriver.Remote(...) *)
| Install                                                     (* ChromeDriverManager().install() *)
| Chrome (arguments : list string)                            (* webdriver.Chrome(...) *)
| Get (url : string)                                          (* driver.get(url) *)
| SaveScreenshot (path : string)                              (* os.makedirs; driver.save_screenshot(path) *)
| Quit.                                                       (* driver.quit() *)

Inductive session_log : Type :=
| FailedRemoteWebDriver (e : failure)        (* "Failed to connect to remote WebDriver: {e}" *)
| FailedLocalWebDriver (e : failure)         (* "Failed to set up local WebDriver: {e}" *)
| ScrapingPage (url : string)                (* "Scraping: {current_url}" *)
| ErrorScrapingPage (url : string) (e : failure) (* "Error scraping {current_url}: {e}" *)
| NextButtonNotFound                         (* "Next page button not found or not clickable" *)
| ScreenshotSaved (path : string)            (* "Screenshot saved to {screenshot_path}" *)
| FailedScreenshot (e : failure)             (* "Failed to take screenshot: {e}" *)
| ErrorSettingUpWebDriver (e : failure).     (* "Error setting up WebDriver: {e}" *)

Inductive session_event : Type :=
| Sleep (seconds : Q)                        (* time.sleep(delay) *)
| Call (c : browser_call)
| Log (lvl : level) (r : session_log)
| Extraction (ev : event).                   (* a record [extract_data] logged *)

(** The state of a session. *)
Record session : Type := mk_session {
  history : list session_event;  (* the effects so far, oldest first *)
  random_draws : nat;            (* how many random numbers were drawn *)
  navigations : nat;             (* how many times [driver.get] was called *)
  screenshots : nat;             (* how many screenshots were attempted *)
  clock_reads : nat;             (* how many times [time.time()] was read *)
  driver : bool;                 (* [self.driver] is set *)
  session_data : list record;    (* the list [all_data] of [scrape] *)
}.

(** The browser and the rest of the outside world, as oracles. *)
Record Browser (page elem : Type) : Type := {
  webdriver_remote : json -> list string -> result unit;
  driver_manager_install : result unit;
  webdriver_chrome : list string -> result unit;
  (** The [n]-th [driver.get(url)] of the session: the page the driver
      then shows, or the exception. *)
  driver_get : nat -> string -> result page;
  (** [wait.until(EC.element_to_be_clickable((By.CSS_SELECTOR, css)))]. *)
  wait_until_clickable : page -> json -> result elem;
  save_screenshot : nat -> string -> result unit;
  driver_quit : result unit;
  time_time : nat -> Z;          (* int(time.time()) *)
  uniform01 : nat -> Q;          (* random.uniform(0, 1) *)
  choice_index : nat -> nat;     (* the index random.choice picks *)
  uniform01_range : forall n, (0 <= uniform01 n)%Q /\ (uniform01 n < 1)%Q;
}.
Arguments webdriver_remote {page elem} _ _ _.
Arguments driver_manager_install {page elem} _.
Arguments webdriver_chrome {page elem} _ _.
Arguments driver_get {page elem} _ _ _.
Arguments wait_until_clickable {page elem} _ _ _.
Arguments save_screenshot {page elem} _ _ _.
Arguments driver_quit {page elem} _.
Arguments time_time {page elem} _ _.
Arguments uniform01 {page elem} _ _.
Arguments choice_index {page elem} _ _.
Arguments uniform01_range {page elem} _ _.

Definition B (A : Type) : Type := session -> outcome A * session.

#[global] Instance B_ret : MRet B := fun A a s => (Returns a, s).
#[global] Instance B_bind : MBind B := fun A B f m s =>
  match m s with
  | (Returns a, s') => f a s'
  | (Raises e, s') => (Raises e, s')
  end.

Definition throw {A} (e : failure) : B A := fun s => (Raises e, s).

Definition of_result {A} (r : result A) : B A := fun s =>
  (match r with Ok a => Returns a | Raise e => Raises (Lib e) end, s).

(** [try: body except Exception as e: handler]. *)
Definition try_catch {A} (body : B A) (handler : failure -> B A) : B A :=
  fun s =>
    match body s with
    | (Returns a, s') => (Returns a, s')
    | (Raises e, s') => handler e s'
    end.

(** [try: body finally: final]. *)
Definition try_finally {A} (body : B A) (final : B unit) : B A :=
  fun s =>
    match body s with
    | (r, s') =>
        match final s' with
        | (Returns _, s'') => (r, s'')
        | (Raises e, s'') => (Raises e, s'')
        end
    end.

Definition record_event (ev : session_event) : B unit := fun s =>
  (Returns tt,
   mk_session (history s ++ [ev]) (random_draws s) (navigations s)
     (screenshots s) (clock_reads s) (driver s) (session_data s)).

Definition log_session (lvl : level) (r : session_log) : B unit :=
  record_event (Log lvl r).

(** [d.get(key, default)] on a configuration value. *)
Definition dict_get (d : json) (key : string) (default : json) : B json :=
  match d with
  | JDict entries =>
      mret (match dict_lookup key entries with
            | Some v => v
            | None => default
            end)
  | _ => throw AttributeError
  end.

Section Session.
Context {page elem : Type} `{!WebDriver page elem} `{!UrlLib}
  (browser : Browser page elem).

Definition random_uniform : B Q := fun s =>
  (Returns (uniform01 browser (random_draws s)),
   mk_session (history s) (S (random_draws s)) (navigations s)
     (screenshots s) (clock_reads s) (driver s) (session_data s)).

(** [random.choice(l)] on a non-empty list. *)
Definition random_choice (l : list string) : B string := fun s =>
  (Returns (nth (choice_index browser (random_draws s) `mod` length l) l ""),
   mk_session (history s) (S (random_draws s)) (navigations s)
     (screenshots s) (clock_reads s) (driver s) (session_data s)).

(** [int(time.time())]. *)
Definition int_time : B Z := fun s =>
  (Returns (time_time browser (clock_reads s)),
   mk_session (history s) (random_draws s) (navigations s)
     (screenshots s) (S (clock_reads s)) (driver s) (session_data s)).

(** [self.driver = <constructor>(...)]: the attribute is set when the
    constructor returns. *)
Definition new_driver (c : browser_call) (r : result unit) : B unit := fun s =>
  match r with
  | Ok _ =>
      (Returns tt,
       mk_session (history s ++ [Call c]) (random_draws s) (navigations s)
         (screenshots s) (clock_reads s) true (session_data s))
  | Raise e =>
      (Raises (Lib e),
       mk_session (history s ++ [Call c]) (random_draws s) (navigations s)
         (screenshots s) (clock_reads s) (driver s) (session_data s))
  end.

(** [_get_chrome_options()]: the arguments added to the options. *)
Definition _get_chrome_options (self : t) : B (list string) :=
  let chrome_options := [] in
  headless ← dict_get (selenium_config self) "headless" (JBool true);
  let chrome_options :=
    if truthy headless then chrome_options ++ ["--headless"] else chrome_options in
  let chrome_options :=
    chrome_options ++ ["--no-sandbox"; "--disable-dev-shm-usage";
                       "--disable-gpu"; "--window-size=1920,1080"] in
  match user_agents self with
  | [] => mret chrome_options
  | _ :: _ =>
      user_agent ← random_choice (user_agents self);
      mret (chrome_options ++ [("user-agent=" ++ user_agent)%string])
  end.

(** [setup_driver()]. *)
Definition setup_driver (self : t) : B unit :=
  remote_url ← dict_get (selenium_config self) "remote_url" JNull;
  if truthy remote_url
  then
    (* Use remote WebDriver *)
    try_catch
      (options ← _get_chrome_options self;
       new_driver (Remote remote_url options)
         (webdriver_remote browser remote_url options))
      (fun e => _ ← log_session ERROR (FailedRemoteWebDriver e); throw e)
  else
    (* Use local WebDriver *)
    try_catch
      (_ ← record_event (Call Install);
       _ ← of_result (driver_manager_install browser);
       options ← _get_chrome_options self;
       new_driver (Chrome options) (webdriver_chrome browser options))
      (fun e => _ ← log_session ERROR (FailedLocalWebDriver e); throw e).

(** [time.sleep(delay)]: a number is required, one that fits the
    conversion to nanoseconds, and not a negative one. *)
Definition sleep (delay : json) : B unit :=
  match as_number delay with
  | None => throw (Lib TypeError)
  | Some d =>
      if fits_time_t d
      then if Qle_bool 0 d then record_event (Sleep d) else throw (Lib ValueError)
      else throw (Lib OverflowError)
  end.

(** [delay += r] for a float [r]. *)
Definition add_uniform (delay : json) (r : Q) : B json :=
  match as_number delay with
  | None => throw (Lib TypeError)
  | Some d => mret (JFloat (d + r))
  end.

(** [self.driver.get(current_url)]: the page the driver shows from then
    on. *)
Definition navigate (url : string) : B page := fun s =>
  (match driver_get browser (navigations s) url with
   | Ok pg => Returns pg
   | Raise e => Raises (Lib e)
   end,
   mk_session (history s ++ [Call (Get url)]) (random_draws s)
     (S (navigations s)) (screenshots s) (clock_reads s) (driver s)
     (session_data s)).

(** [self.extract_data(selectors)] on the page shown, its log records
    added to the history. *)
Definition extract (pg : page) (selectors : selectors) : B (list record) := fun s =>
  let '(r, log) := extract_data pg selectors [] in
  (match r with Ok data => Returns data | Raise e => Raises (Lib e) end,
   mk_session (history s ++ (Extraction <$> log)) (random_draws s)
     (navigations s) (screenshots s) (clock_reads s) (driver s)
     (session_data s)).

(** [all_data.extend(data)]. *)
Definition extend_all_data (data : list record) : B unit := fun s =>
  (Returns tt,
   mk_session (history s) (random_draws s) (navigations s) (screenshots s)
     (clock_reads s) (driver s) (session_data s ++ data)).

Definition get_session_data : B (list record) := fun s =>
  (Returns (session_data s), s).

(** [get_next_page_url(current_url)], on the page shown. *)
Definition get_next_page_url (self : t) (pg : page) (current_url : string)
    : B (option string) :=
  let pagination := ConfigLoader.get (config self) "pagination" (JDict []) in
  next_selector ← dict_get pagination "next_selector" JNull;
  if truthy next_selector
  then
    try_catch
      ((* Wait for next button to be clickable *)
       next_element ← of_result (wait_until_clickable browser pg next_selector);
       of_result (get_attribute next_element "href"))
      (fun e =>
         match e with
         | Lib TimeoutException =>
             _ ← log_session INFO NextButtonNotFound; mret None
         | _ => throw e
         end)
  else mret None.

(** [self.driver], as a truth value. *)
Definition get_driver : B bool := fun s => (Returns (driver s), s).

(** [os.makedirs(screenshot_dir, exist_ok=True);
    self.driver.save_screenshot(screenshot_path)]. *)
Definition driver_save_screenshot (screenshot_path : string) : B unit := fun s =>
  (match save_screenshot browser (screenshots s) screenshot_path with
   | Ok _ => Returns tt
   | Raise e => Raises (Lib e)
   end,
   mk_session (history s ++ [Call (SaveScreenshot screenshot_path)])
     (random_draws s) (navigations s) (S (screenshots s)) (clock_reads s)
     (driver s) (session_data s)).

(** [take_screenshot(filename)]. *)
Definition take_screenshot (self : t) (filename : string) : B unit :=
  driver ← get_driver;
  if (driver : bool)
  then
    on_error ← dict_get (selenium_config self) "screenshot_on_error" (JBool true);
    if truthy on_error
    then
      try_catch
        (let screenshot_dir := "logs/screenshots" in
         let screenshot_path := (screenshot_dir ++ "/" ++ filename)%string in
         _ ← driver_save_screenshot screenshot_path;
         log_session INFO (ScreenshotSaved screenshot_path))
        (fun e => log_session ERROR (FailedScreenshot e))
    else mret tt
  else mret tt.

(** [while current_url:] for one start path; [fuel] bounds the number of
    iterations. *)
Fixpoint walk (fuel : nat) (self : t) (selectors : selectors)
    (current_url : option string) : B Static.walk_status :=
  match current_url with
  | None => mret Static.Done
  | Some url =>
      if String.eqb url "" then mret Static.Done else
      match fuel with
      | O => mret Static.Running
      | S fuel' =>
          _ ← log_session INFO (ScrapingPage url);
          next ← try_catch
                   ((* Add delay between requests *)
                    let delay := delay_seconds self in
                    delay ← (if truthy (jitter self)
                             then r ← random_uniform; add_uniform delay r
                             else mret delay);
                    _ ← sleep delay;
                    pg ← navigate url;
                    (* Extract data from page *)
                    data ← extract pg selectors;
                    _ ← extend_all_data data;
                    (* Check for next page *)
                    next_url ← get_next_page_url self pg url;
                    mret (Some next_url))
                   (fun e =>
                      _ ← log_session ERROR (ErrorScrapingPage url e);
                      now ← int_time;
                      _ ← take_screenshot self ("error_" ++ pretty now ++ ".png")%string;
                      mret None);
          match next with
          | Some next_url => walk fuel' self selectors next_url
          | None => mret Static.Failed (* break *)
          end
      end
  end.

(** [for path in start_paths:]; a path still [Running] ends the model's
    run. *)
Fixpoint for_paths (fuel : nat) (self : t) (selectors : selectors)
    (start_paths : list string) : B (list Static.walk_status) :=
  match start_paths with
  | [] => mret []
  | path :: rest =>
      let current_url := urljoin (base_url self) path in
      status ← walk fuel self selectors (Some current_url);
      match status with
      | Static.Running => mret [Static.Running]
      | _ =>
          statuses ← for_paths fuel self selectors rest;
          mret (status :: statuses)
      end
  end.

(** [self.driver.quit()]. *)
Definition quit : B unit := fun s =>
  (match driver_quit browser with
   | Ok _ => Returns tt
   | Raise e => Raises (Lib e)
   end,
   mk_session (history s ++ [Call Quit]) (random_draws s) (navigations s)
     (screenshots s) (clock_reads s) (driver s) (session_data s)).

(** [scrape()]: the list returned, with the status of each path. As in
    the static scraper, [start_paths] is read as a list of strings and
    [selectors] as a typed schema. On a [start_paths] that cannot be
    iterated, or a path that is not a string, the code raises [TypeError]
    inside the outer [try], which logs it and raises it again; the
    properties of [scrape] that depend on it are stated for typed
    configurations. *)
Definition scrape (fuel : nat) (self : t)
    : B (list Static.walk_status * list record) :=
  let start_paths :=
    as_string_list (ConfigLoader.get (config self) "start_paths" (JList [JStr "/"])) in
  let selectors :=
    selectors_of_json (ConfigLoader.get (config self) "selectors" (JDict [])) in
  statuses ← try_finally
                (try_catch
                   (_ ← setup_driver self;
                    for_paths fuel self selectors start_paths)
                   (fun e =>
                      _ ← log_session ERROR (ErrorSettingUpWebDriver e);
                      throw e))
                (driver ← get_driver; if (driver : bool) then quit else mret tt);
  all_data ← get_session_data;
  mret (statuses, all_data).

End Session.

(** A fresh scraper: no driver yet. *)
Definition new_session : session := mk_session [] 0 0 0 0 false [].

End JS.

(* ===================================================================== *)
(** * scraper/plugins.py *)
(* ===================================================================== *)

Module Plugins.

(** [logger.error(f"Error applying transformation '{transformer_name}' to
    field '{field}': {e}")]. *)
Inductive log_record (E : Type) : Type :=
| ErrorApplyingTransformation (transformer_name field : string) (e : E).
Arguments ErrorApplyingTransformation {E} transformer_name field e.

Section PluginManager.
(** The values of the fields are whatever the transformers take and
    return, the exceptions whatever they raise. *)
Context {V E : Type}.

(** A registered function: it returns ([inr]) or raises ([inl]). *)
Definition transformer : Type := V -> E + V.

(** The body of the loop of [apply_transformations], for one entry of
    [transformations]. *)
Definition apply_transformation (transformers : gmap string transformer)
    (field transformer_name : string)
    (st : gmap string V * list (log_record E))
    : gmap string V * list (log_record E) :=
  let '(transformed_data, log) := st in
  match transformed_data !! field with
  | Some v =>
      match transformers !! transformer_name with
      | Some f =>
          match f v with
          | inr v' => (<[field := v']> transformed_data, log)
          | inl e =>
              (transformed_data,
               log ++ [ErrorApplyingTransformation transformer_name field e])
          end
      | None => st
      end
  | None => st
  end.

Fixpoint apply_all (transformers : gmap string transformer)
    (transformations : list (string * string))
    (st : gmap string V * list (log_record E))
    : gmap string V * list (log_record E) :=
  match transformations with
  | [] => st
  | (field, transformer_name) :: rest =>
      apply_all transformers rest
        (apply_transformation transformers field transformer_name st)
  end.

(** [PluginManager.apply_transformations(data, transformations)]: the
    transformed copy of [data] and the records logged. *)
Definition apply_transformations (transformers : gmap string transformer)
    (data : gmap string V) (transformations : list (string * string))
    : gmap string V * list (log_record E) :=
  let transformed_data := data in
  apply_all transformers transformations (transformed_data, []).

End PluginManager.

(** [AttributeError], what [value.strip()] raises on a value that is not a
    string. *)
Inductive attribute_error : Type := AttributeError.

(** [date_parser(value)]. *)
Definition date_parser (v : value) : attribute_error + value :=
  match v with
  | VStr s => inr (VStr (py_strip s))
  | _ => inl AttributeError
  end.

End Plugins.

(* ===================================================================== *)
(** * scraper/storage.py *)
(* ===================================================================== *)

Module Storage.

(** A line of an output file: a CSV row with its cells, as they are handed
    to [csv.writer] (the header is a row of field names), or the JSON text
    of an item. *)
Inductive line : Type :=
| CsvRow (cells : list value)
| JsonLine (item : record).

Inductive log_record : Type :=
| NoDataToSaveCsv                          (* logger.warning("No data to save to CSV") *)
| SavedCsv (items : nat) (path : string)   (* logger.info(f"Saved {len(data)} items to CSV: ...") *)
| SavedJsonl (items : nat) (path : string).

(** The files under the output directory, by path, and the log. *)
Record state : Type := mk_state {
  files : gmap string (list line);
  log : list log_record;
}.

(** The attributes of a [DataStorage]; [storage_path] is a string, or
    [__init__] has raised in [os.path.dirname]. *)
Record t : Type := {
  storage_type : json;
  storage_path : string;
  unique_key : json;
}.

Section DataStorage.
(** [list(item.keys())]: the keys of a dict in the order of their
    insertion, which a [record] does not keep. *)
Variable keys : record -> list string.

(** [DictWriter.writerow(item)]: [ValueError] on a key outside
    [fieldnames], the empty string for a field the item lacks. *)
Definition writerow (fieldnames : list string) (item : record)
    (csvfile : list line) : result (list line) :=
  if bool_decide (dom item ⊆ list_to_set fieldnames)
  then Ok (csvfile ++ [CsvRow ((fun key => default (VStr "") (item !! key))
                                 <$> fieldnames)])
  else Raise ValueError.

(** [for item in data: writer.writerow(item)]; the rows written before
    an exception stay in the file. *)
Fixpoint writerows (fieldnames : list string) (data : list record)
    (csvfile : list line) : result unit * list line :=
  match data with
  | [] => (Ok tt, csvfile)
  | item :: rest =>
      match writerow fieldnames item csvfile with
      | Ok csvfile' => writerows fieldnames rest csvfile'
      | Raise e => (Raise e, csvfile)
      end
  end.

(** [_save_csv(data)]. *)
Definition _save_csv (self : t) (data : list record) (st : state)
    : result unit * state :=
  match data with
  | [] => (Ok tt, mk_state (files st) (log st ++ [NoDataToSaveCsv]))
  | first :: _ =>
      (* Use the keys from the first item as fieldnames *)
      let fieldnames := keys first in
      (* Check if file exists to determine if we need to write headers *)
      let file_exists := bool_decide (is_Some (files st !! storage_path self)) in
      let csvfile := default [] (files st !! storage_path self) in
      (* Write header only if file doesn't exist *)
      let csvfile :=
        if file_exists then csvfile
        else csvfile ++ [CsvRow (VStr <$> fieldnames)] in
      (* Write data rows *)
      match writerows fieldnames data csvfile with
      | (Ok _, csvfile) =>
          (Ok tt,
           mk_state (<[storage_path self := csvfile]> (files st))
             (log st ++ [SavedCsv (length data) (storage_path self)]))
      | (Raise e, csvfile) =>
          (Raise e, mk_state (<[storage_path self := csvfile]> (files st)) (log st))
      end
  end.

(** [_save_jsonl(data)]. *)
Definition _save_jsonl (self : t) (data : list record) (st : state)
    : result unit * state :=
  let jsonl_file := default [] (files st !! storage_path self) in
  let jsonl_file := jsonl_file ++ (JsonLine <$> data) in
  (Ok tt,
   mk_state (<[storage_path self := jsonl_file]> (files st))
     (log st ++ [SavedJsonl (length data) (storage_path self)])).

End DataStorage.
End Storage.

(* ===================================================================== *)
(** * A small instance of the interfaces, for the examples *)
(* ===================================================================== *)

Module Sample.

(** An element: name, classes, other attributes, own text, children. *)
Inductive tag : Type :=
| Tag (name : string) (classes : list string) (attrs : list (string * string))
      (text : string) (children : list tag).

Definition tag_name (t : tag) : string := let 'Tag n _ _ _ _ := t in n.
Definition tag_classes (t : tag) : list string := let 'Tag _ c _ _ _ := t in c.
Definition tag_attrs (t : tag) : list (string * string) := let 'Tag _ _ a _ _ := t in a.

(** The descendants of an element, in document order. *)
Fixpoint descendants (t : tag) : list tag :=
  match t with
  | Tag _ _ _ _ children => flat_map (fun c => c :: descendants c) children
  end.

Fixpoint text_of (t : tag) : string :=
  match t with
  | Tag _ _ _ text children =>
      py_strip text ++ String.concat "" (map text_of children)
  end.

Definition is_letter (c : ascii) : bool :=
  let n := nat_of_ascii c in
  (((65 <=? n) && (n <=? 90)) || ((97 <=? n) && (n <=? 122)))%nat.

(** The selectors this engine accepts: [.class] and [name]. *)
Inductive simple_css : Type := ByClass (c : string) | ByName (n : string).

Definition parse_css (css : string) : option simple_css :=
  match css with
  | String "."%char rest =>
      if forallb is_letter (list_ascii_of_string rest) && negb (String.eqb rest "")
      then Some (ByClass rest) else None
  | String _ _ =>
      if forallb is_letter (list_ascii_of_string css)
      then Some (ByName css) else None
  | EmptyString => None
  end.

Definition matches (s : simple_css) (t : tag) : bool :=
  match s with
  | ByClass c => existsb (String.eqb c) (tag_classes t)
  | ByName n => String.eqb n (tag_name t)
  end.

Definition sample_select (t : tag) (css : string) : result (list tag) :=
  match parse_css css with
  | Some s => Ok (List.filter (matches s) (descendants t))
  | None => Raise (SelectorSyntaxError css)
  end.

Definition sample_attr (t : tag) (name : string) : option value :=
  if String.eqb name "class"
  then match tag_classes t with [] => None | cs => Some (VList cs) end
  else VStr <$> dict_lookup name (tag_attrs t).

#[global] Instance sample_bs4 : Bs4 tag :=
  {| select := sample_select; get_text := text_of; attr_get := sample_attr |}.

(** Joining a path to the one site of the examples. *)
Definition sample_urljoin (base url : string) : string :=
  if String.eqb url "" then base
  else if String.prefix "http" url then url
  else "https://example.com" ++ url.

#[global] Instance sample_url : UrlLib := {| urljoin := sample_urljoin |}.

(** The same documents seen through a browser. *)
#[global] Instance sample_driver : WebDriver tag tag :=
  {| wait_until_present pg css :=
       match sample_select pg css with
       | Ok [] => Raise TimeoutException
       | Ok _ => Ok tt
       | Raise _ => Raise (WebDriverException "invalid selector")
       end;
     driver_find_elements pg css :=
       match sample_select pg css with
       | Ok l => Ok l
       | Raise _ => Raise (WebDriverException "invalid selector")
       end;
     find_elements e css :=
       match sample_select e css with
       | Ok l => Ok l
       | Raise _ => Raise (WebDriverException "invalid selector")
       end;
     elem_text e := Ok (text_of e);
     get_attribute e name :=
       Ok (match sample_attr e name with
           | Some (VStr s) => Some s
           | Some (VList l) => Some (String.concat " " l)
           | _ => None
           end) |}.

(** ** Documents *)

Definition div (classes : list string) (text : string) (children : list tag) : tag :=
  Tag "div" classes [] text children.

Definition root (children : list tag) : tag := Tag "html" [] [] "" children.

(** [<div class="item"><div class="title">Test Title</div></div>]. *)
Definition one_item : tag :=
  root [div ["item"] "  " [div ["title"] "Test Title" []]].

(** Two items, the first with two [.tag] children, the second with none. *)
Definition two_items : tag :=
  root [div ["item"] "" [div ["tag"] " a " []; div ["tag"] "b" []];
        div ["item"] "" []].

(** An item whose link has an [href], and one whose link has none. *)
Definition links : tag :=
  root [div ["item"] "" [Tag "a" ["more"] [("href", "/detail/1")] "first" []];
        div ["item"] "" [Tag "a" ["more"] [] "second" []]].

(** No [.item] at all. *)
Definition no_items : tag := root [div ["banner"] "hello" []].

(** A first page linking to a second, which has no next link. *)
Definition page1 : tag :=
  root [div ["item"] "" [div ["title"] "One" []];
        Tag "a" ["next"] [("href", "/page2")] "next" []].

Definition page2 : tag :=
  root [div ["item"] "" [div ["title"] "Two" []]].

(** A page whose next link leads back to the page itself. *)
Definition loop_page : tag :=
  root [div ["item"] "" [div ["title"] "Again" []];
        Tag "a" ["next"] [("href", "/loop")] "next" []].

(** A page whose next link carries an empty [href]. *)
Definition empty_href_page : tag :=
  root [Tag "a" ["next"] [("href", "")] "next" []].

(** ** Schemas *)

Definition title_schema : selectors :=
  {| item := Some ".item"; fields := [("title", Simple ".title")] |}.

Definition tag_schema : selectors :=
  {| item := Some ".item"; fields := [("tag", Simple ".tag")] |}.

Definition link_schema : selectors :=
  {| item := Some ".item";
     fields := [("url", Attributed (Some "href") (Some ".more"));
                ("label", Attributed None (Some ".more"))] |}.

(** A schema whose first field selector the engine rejects. *)
Definition broken_schema : selectors :=
  {| item := Some ".item";
     fields := [("price", Simple "span["); ("title", Simple ".title")] |}.

(** ** A site *)

Definition down : exn := RequestException "503 Server Error".

(** The site: [/], [/page2] and [/links] are served, [/loop] links to
    itself, [/flaky] fails on the first two requests of the session,
    [/slow] on the first three, and anything else is down. *)
Definition site (n : nat) (url : string) (user_agent : option string)
    : result tag :=
  if String.eqb url "https://example.com/" then Ok page1
  else if String.eqb url "https://example.com/page2" then Ok page2
  else if String.eqb url "https://example.com/loop" then Ok loop_page
  else if String.eqb url "https://example.com/links" then Ok links
  else if String.eqb url "https://example.com/flaky"
       then (if (n <? 2)%nat then Raise down else Ok page2)
  else if String.eqb url "https://example.com/slow"
       then (if (n <? 3)%nat then Raise down else Ok page2)
  else Raise down.

Definition half_in_range : (0 <= 1 # 2)%Q /\ (1 # 2 < 1)%Q.
Proof. split; [discriminate | reflexivity]. Defined.

Definition world : Env tag :=
  {| http_get := site; uniform := fun _ => (1 # 2)%Q; choice := fun n => n;
     uniform_range := fun _ => half_in_range |}.

(** A site without the self-linking page: [/] links to [/page2], which
    links nowhere. *)
Definition acyclic_site (n : nat) (url : string) (user_agent : option string)
    : result tag :=
  if String.eqb url "https://example.com/" then Ok page1
  else if String.eqb url "https://example.com/page2" then Ok page2
  else Raise down.

Definition acyclic_world : Env tag :=
  {| http_get := acyclic_site; uniform := fun _ => (1 # 2)%Q; choice := fun n => n;
     uniform_range := fun _ => half_in_range |}.

(** The number of pages after a URL of the acyclic site. *)
Definition pages_after (url : string) : nat :=
  if String.eqb url "https://example.com/" then 1 else 0.

(** ** Configurations *)

Definition sample_config (start_paths : list string) (selectors rate_limit : json)
    (extra : list (string * json)) : ConfigLoader.t :=
  [("name", JStr "sample"); ("mode", JStr "static");
   ("base_url", JStr "https://example.com");
   ("start_paths", JList (JStr <$> start_paths));
   ("selectors", selectors);
   ("storage", JDict [("type", JStr "csv")]);
   ("user_agents", JList []);
   ("rate_limit", rate_limit);
   ("pagination", JDict [("next_selector", JStr ".next")])] ++ extra.

Definition title_selectors : json :=
  JDict [("item", JStr ".item"); ("fields", JDict [("title", JStr ".title")])].

Definition link_selectors : json :=
  JDict [("item", JStr ".item");
         ("fields",
          JDict [("url", JDict [("selector", JStr ".more"); ("attr", JStr "href")]);
                 ("label", JDict [("selector", JStr ".more")])])].

Definition default_rate_limit : json :=
  JDict [("delay_seconds", JFloat 1); ("jitter", JBool false)].

(** A static scraper on the given start paths, and a run of [scrape]
    from its fresh state. *)
Definition scraper (start_paths : list string) (selectors : json) : Static.t :=
  Static.init (sample_config start_paths selectors default_rate_limit []).

Definition run_scrape (fuel : nat) (self : Static.t)
    : result (list Static.walk_status * list record) * state :=
  Static.scrape world fuel self (Static.initial_state self).

End Sample.

(* ===================================================================== *)
(** * Vocabulary of the statements *)
(* ===================================================================== *)

(** The CSS selector a field selector is evaluated with, if any. *)
Definition selector_css (selector : field_selector) : option string :=
  match selector with
  | Simple css => Some css
  | Attributed _ css => Some (default "" css)
  | Unsupported => None
  end.

(** The URLs requested in a trace, in order. *)
Definition gets (t : list event) : list string :=
  omap (fun ev => match ev with EvGet url _ => Some url | _ => None end) t.

(** The waits of tenacity in a trace, in order. *)
Definition backoffs (t : list event) : list Q :=
  omap (fun ev => match ev with EvSleep Backoff d => Some d | _ => None end) t.

(** The error records of a trace. *)
Definition errors (t : list event) : list log_record :=
  omap (fun ev => match ev with EvLog ERROR r => Some r | _ => None end) t.

(** The URLs of the pages the pagination loop set out to fetch, one per
    iteration (its "Scraping: ..." records). *)
Definition fetched (t : list event) : list string :=
  omap (fun ev => match ev with EvLog INFO (Scraping url) => Some url | _ => None end) t.

(** [d] is the configured delay plus, when jitter is on, one draw of
    [random.uniform(0, 1)]. *)
Definition is_request_delay {node} (env : Env node) (delay_seconds jitter : json)
    (d : Q) : Prop :=
  exists base, as_number delay_seconds = Some base /\
    if truthy jitter
    then exists n, d = (base + uniform env n)%Q
                   /\ (0 <= uniform env n)%Q /\ (uniform env n < 1)%Q
    else d = base.


(** [time.sleep] takes [d]: the number fits the conversion and is not
    negative. *)
Definition sleep_accepts (d : Q) : bool := fits_time_t d && Qle_bool 0 d.

(** The configured delay is a number [base] that [time.sleep] takes,
    also with the addend of the jitter, which is less than 1. *)
Definition accepted_delay (delay_seconds jitter : json) (base : Q) : Prop :=
  as_number delay_seconds = Some base
  /\ (0 <= base)%Q
  /\ ((if truthy jitter then base + 1 else base) <= sleep_max)%Q.

Definition is_log (ev : event) : bool :=
  match ev with EvLog _ _ => true | _ => false end.




(** The configuration gives [start_paths] as a list of strings, or not at
    all. *)
Definition start_paths_are (config : ConfigLoader.t) (paths : list string) : Prop :=
  ConfigLoader.get config "start_paths" (JList [JStr "/"]) = JList (JStr <$> paths).

(** The exceptions the pagination loop caught, with the URL at hand (its
    "Error scraping ..." records). *)
Definition scrape_errors (t : list event) : list (string * exn) :=
  omap (fun ev => match ev with
                  | EvLog ERROR (ErrorScraping url e) => Some (url, e)
                  | _ => None
                  end) t.

(** Events that are not the pagination loop's own: no "Scraping" and no
    "Error scraping" record among them. *)
Definition inner_events (t : list event) : Prop :=
  fetched t = [] /\ scrape_errors t = [].

(** The state after a log record is emitted. *)
Definition logged (lvl : level) (r : log_record) (st : state) : state :=
  (logger lvl r st).2.

(** The warnings of a trace. *)
Definition warnings (t : list event) : list log_record :=
  omap (fun ev => match ev with EvLog WARNING r => Some r | _ => None end) t.

(** Every field selector of the schema evaluates, under [element], without
    the engine raising. *)
Definition fields_evaluate `{Bs4 node} (field_selectors : list (string * field_selector))
    (element : node) : Prop :=
  Forall (fun f => match selector_css f.2 with
                   | Some css => is_ok (select element css) = true
                   | None => True
                   end) field_selectors.

(* ===================================================================== *)
(** * Vocabulary of the further properties *)
(* ===================================================================== *)

(** The value under a key of the schema is a string, or the key is
    absent. *)
Definition string_or_absent (v : option json) : bool :=
  match v with
  | None | Some (JStr _) => true
  | Some _ => false
  end.

(** The configured [selectors] have the types [extract_data] expects: a
    dict whose ["item"], if given, is a string and whose ["fields"], if
    given, is a dict, in which a field selector that is a dict holds
    strings under ["attr"] and ["selector"], if anything. *)
Definition typed_field_selector (v : json) : bool :=
  match v with
  | JDict d =>
      string_or_absent (dict_lookup "attr" d)
      && string_or_absent (dict_lookup "selector" d)
  | _ => true
  end.

Definition typed_selectors (v : json) : bool :=
  match v with
  | JDict d =>
      string_or_absent (dict_lookup "item" d)
      && match dict_lookup "fields" d with
         | None => true
         | Some (JDict field_selectors) =>
             forallb (fun f => typed_field_selector f.2) field_selectors
         | Some _ => false
         end
  | _ => false
  end.

(** The field names of a schema whose selector is a string or a dict: the
    keys [extract_data] writes. *)
Definition written_fields (field_selectors : list (string * field_selector))
    : list string :=
  omap (fun f => match selector_css f.2 with
                 | Some _ => Some f.1
                 | None => None
                 end) field_selectors.

(** The requests of a trace, each with its User-Agent header. *)
Definition requests_of (t : list event) : list (string * option string) :=
  omap (fun ev => match ev with
                  | EvGet url user_agent => Some (url, user_agent)
                  | _ => None
                  end) t.

(** The row of an item under the given field names, and the header. *)
Definition csv_row (fieldnames : list string) (item : record) : Storage.line :=
  Storage.CsvRow ((fun key => default (VStr "") (item !! key)) <$> fieldnames).

Definition csv_header (fieldnames : list string) : Storage.line :=
  Storage.CsvRow (VStr <$> fieldnames).

(** What a CSV file holds when the rows of a save are appended: what it
    held before, or the header if it did not exist. *)
Definition csv_start (fieldnames : list string) (file : option (list Storage.line))
    : list Storage.line :=
  match file with
  | Some lines => lines
  | None => [csv_header fieldnames]
  end.

(** The keys of a dict, in some order. *)
Definition keys_of_dict (keys : record -> list string) : Prop :=
  forall (r : record) (k : string), k ∈ keys r <-> k ∈ dom r.

(** The calls of a history that reached the browser, and the URLs it was
    sent to. *)
Definition browser_calls (h : list JS.session_event) : list JS.browser_call :=
  omap (fun ev => match ev with JS.Call c => Some c | _ => None end) h.

Definition navigated (h : list JS.session_event) : list string :=
  omap (fun ev => match ev with JS.Call (JS.Get url) => Some url | _ => None end) h.

(** The delay of a navigation: the configured number, plus a draw of
    [random.uniform(0, 1)] when jitter is on. *)
Definition is_navigation_delay {page elem} (browser : JS.Browser page elem)
    (delay_seconds jitter : json) (d : Q) : Prop :=
  exists base, as_number delay_seconds = Some base /\
    if truthy jitter
    then exists n, d = (base + JS.uniform01 browser n)%Q
                   /\ (0 <= JS.uniform01 browser n)%Q
                   /\ (JS.uniform01 browser n < 1)%Q
    else d = base.

(** Every navigation of the history comes right after a sleep of an
    admissible duration. *)
Definition sleep_before_each_navigation (admissible : Q -> Prop)
    (h : list JS.session_event) : Prop :=
  forall pre url post,
    h = pre ++ JS.Call (JS.Get url) :: post ->
    exists pre' d, pre = pre' ++ [JS.Sleep d] /\ admissible d.

(** A step of the session that adds events with the property [P] to the
    history and leaves [self.driver] as it is. *)
Definition extends_history {A} (P : list JS.session_event -> Prop) (m : JS.B A)
    : Prop :=
  forall s, exists new,
    JS.history (m s).2 = JS.history s ++ new
    /\ P new
    /\ JS.driver (m s).2 = JS.driver s.

(** The events of [setup_driver]: the creation of the driver and the
    record of its failure. *)
Definition is_setup_event (ev : JS.session_event) : bool :=
  match ev with
  | JS.Call (JS.Remote _ _) | JS.Call JS.Install | JS.Call (JS.Chrome _) => true
  | JS.Log ERROR (JS.FailedRemoteWebDriver _)
  | JS.Log ERROR (JS.FailedLocalWebDriver _) => true
  | _ => false
  end.

(** A step of the session that never raises. *)
Definition always_returns {A} (m : JS.B A) : Prop :=
  forall s, exists a, (m s).1 = JS.Returns a.

(** The state in which [scrape] leaves the session when [setup_driver]
    has raised [e]: the error is logged once more. *)
Definition after_setup_error (e : JS.failure) (s : JS.session) : JS.session :=
  JS.mk_session
    (JS.history s ++ [JS.Log ERROR (JS.ErrorSettingUpWebDriver e)])
    (JS.random_draws s) (JS.navigations s) (JS.screenshots s)
    (JS.clock_reads s) (JS.driver s) (JS.session_data s).

(* ===================================================================== *)
(** * Further instances, for the examples *)
(* ===================================================================== *)

(** Further configurations for the examples. *)
Module Cases.

(** A scraper whose next selector the engine rejects. *)
Definition bad_next_scraper : Static.t :=
  Static.init [("base_url", JStr "https://example.com");
               ("pagination", JDict [("next_selector", JStr "a[")])].


End Cases.

(** Configuration files for the examples. *)
Module Files.

(** A configuration with the required fields only. *)
Definition minimal_config : ConfigLoader.t :=
  [("name", JStr "sample"); ("mode", JStr "static");
   ("base_url", JStr "https://example.com");
   ("start_paths", JList [JStr "/"]);
   ("selectors", Sample.title_selectors);
   ("storage", JDict [("type", JStr "csv"); ("path", JStr "data/out.csv")])].

(** What [load_config] makes of it. *)
Definition minimal_loaded : ConfigLoader.t :=
  minimal_config ++
  [("user_agents", JList []);
   ("rate_limit", JDict [("delay_seconds", JFloat 1); ("jitter", JBool false)]);
   ("concurrency", JDict [("global", JInt 5); ("per_domain", JInt 2)]);
   ("proxies", JDict [("enabled", JBool false); ("list", JList []);
                      ("validate", JBool true)]);
   ("telegram", JDict [("enabled", JBool false); ("bot_token", JStr "");
                       ("chat_id", JStr "")]);
   ("selenium", JDict [("remote_url", JStr ""); ("headless", JBool true);
                       ("screenshot_on_error", JBool true)])].

(** [config.json] holds the minimal configuration, [no_mode.json] an
    object without [mode] and [storage], [names.json] the list of the
    required names, [broken.json] no JSON at all. *)
Definition files (path : string) : ConfigLoader.path_content :=
  if String.eqb path "config.json"
  then ConfigLoader.Document (JDict minimal_config)
  else if String.eqb path "no_mode.json"
  then ConfigLoader.Document
         (JDict [("name", JStr "sample"); ("base_url", JStr "https://example.com");
                 ("start_paths", JList [JStr "/"]);
                 ("selectors", Sample.title_selectors)])
  else if String.eqb path "names.json"
  then ConfigLoader.Document (JList (JStr <$> ConfigLoader.required_fields))
  else if String.eqb path "broken.json" then ConfigLoader.Malformed
  else ConfigLoader.Absent.

End Files.

(** A registry for the examples: [date_parser], and a function that always
    raises. *)
Module Registry.

Definition failing (v : value) : Plugins.attribute_error + value :=
  inl Plugins.AttributeError.

Definition transformers : gmap string (@Plugins.transformer value Plugins.attribute_error) :=
  {[ "date_parser" := Plugins.date_parser; "failing" := failing ]}.

Definition scraped : record :=
  {[ "title" := VStr "A title"; "date" := VStr "  2024-01-05 ";
     "tags" := VList ["a"; "b"] ]}.

End Registry.

(** An output directory for the examples. *)
Module Disk.

(** The keys in the order of the map. *)
Definition sorted_keys (r : record) : list string := (map_to_list r).*1.

Definition csv_storage : Storage.t :=
  {| Storage.storage_type := JStr "csv";
     Storage.storage_path := "data/out.csv";
     Storage.unique_key := JNull |}.

Definition empty : Storage.state := Storage.mk_state ∅ [].

End Disk.

(** A browser for the examples: the pages of the sample site, whose next
    link is clickable when it is there. *)
Module Chrome.

Definition clickable (pg : Sample.tag) (selector : json) : result Sample.tag :=
  match as_string selector with
  | Some css =>
      match Sample.sample_select pg css with
      | Ok (e :: _) => Ok e
      | Ok [] => Raise TimeoutException
      | Raise _ => Raise (WebDriverException "invalid selector")
      end
  | None => Raise (WebDriverException "invalid argument")
  end.

(** A first page whose next link is absolute, as the browser reports it. *)
Definition first_page : Sample.tag :=
  Sample.root
    [Sample.div ["item"] "" [Sample.div ["title"] "One" []];
     Sample.Tag "a" ["next"] [("href", "https://example.com/page2")] "next" []].

Definition pages (n : nat) (url : string) : result Sample.tag :=
  if String.eqb url "https://example.com/" then Ok first_page
  else Sample.site n url None.

Definition browser : JS.Browser Sample.tag Sample.tag :=
  {| JS.webdriver_remote := fun _ _ => Ok tt;
     JS.driver_manager_install := Ok tt;
     JS.webdriver_chrome := fun _ => Ok tt;
     JS.driver_get := pages;
     JS.wait_until_clickable := clickable;
     JS.save_screenshot := fun _ _ => Ok tt;
     JS.driver_quit := Ok tt;
     JS.time_time := fun _ => 1700000000%Z;
     JS.uniform01 := fun _ => (1 # 2)%Q;
     JS.choice_index := fun n => n;
     JS.uniform01_range := fun _ => Sample.half_in_range |}.

(** A machine on which Chrome does not start. *)
Definition no_chrome : JS.Browser Sample.tag Sample.tag :=
  {| JS.webdriver_remote := fun _ _ => Ok tt;
     JS.driver_manager_install := Ok tt;
     JS.webdriver_chrome := fun _ => Raise (WebDriverException "chrome not found");
     JS.driver_get := pages;
     JS.wait_until_clickable := clickable;
     JS.save_screenshot := fun _ _ => Ok tt;
     JS.driver_quit := Ok tt;
     JS.time_time := fun _ => 1700000000%Z;
     JS.uniform01 := fun _ => (1 # 2)%Q;
     JS.choice_index := fun n => n;
     JS.uniform01_range := fun _ => Sample.half_in_range |}.

Definition scraper (start_paths : list string) : JS.t :=
  JS.init (Sample.sample_config start_paths Sample.title_selectors
             Sample.default_rate_limit []).

End Chrome.

(* ===================================================================== *)
(** * Tactics *)
(* ===================================================================== *)

(** Run the primitives of one attempt of [fetch_page] on the state at
    hand. *)
Ltac run_attempt :=
  cbv [mbind M_bind mret M_ret random_choice set_session_ua random_uniform
       add_float time_sleep Async.asyncio_sleep emit try_except
       get_session_ua request logger raise];
  cbn [trace requests draws session_ua all_data].

(** Close a goal [is_request_delay], once unfolded, from the delay in the
    context. *)
Ltac delay_found :=
  eexists; split; [first [eassumption|reflexivity]|]; simpl;
  first [ reflexivity
        | eexists; split; [reflexivity|apply uniform_range] ].

(* ===================================================================== *)
(** * Properties of the extraction engine *)
(* ===================================================================== *)

Section ExtractionFacts.
Context {node : Type} `{!Bs4 node}.
Implicit Types (element : node) (d : record)
  (fs : list (string * field_selector)).

Lemma result_bind_ok {A B} (m : result A) (f : A -> result B) b :
  m ≫= f = Ok b -> exists a, m = Ok a /\ f a = Ok b.
Proof. destruct m as [a|e]; [eauto | discriminate]. Qed.

(** A field only writes its own key. *)
Lemma static_extract_field_frame element name sel d d' other :
  Static.extract_field element name sel d = Ok d' ->
  other <> name -> d' !! other = d !! other.
Proof.
  intros Hrun Hne. destruct sel as [css|attr css|]; simpl in Hrun.
  - apply result_bind_ok in Hrun as (els & _ & Hrun).
    destruct els as [|e0 rest]; [|destruct (1 <? _)%nat];
      injection Hrun as <-; by rewrite lookup_insert_ne.
  - apply result_bind_ok in Hrun as (els & _ & Hrun).
    destruct els as [|e0 rest]; [|destruct (String.eqb _ _)];
      injection Hrun as <-; by rewrite lookup_insert_ne.
  - by injection Hrun as <-.
Qed.

Lemma static_extract_fields_frame element fs : forall d d' other,
  Static.extract_fields element fs d = Ok d' ->
  other ∉ fs.*1 -> d' !! other = d !! other.
Proof.
  induction fs as [|[name sel] fs IH]; intros d d' other Hrun Hnotin.
  - by injection Hrun as <-.
  - simpl in Hrun. apply result_bind_ok in Hrun as (d1 & H1 & Hrest).
    rewrite fmap_cons, not_elem_of_cons in Hnotin. destruct Hnotin as [Hne Hnotin].
    rewrite (IH _ _ _ Hrest Hnotin).
    eapply static_extract_field_frame; eauto.
Qed.

(** With distinct keys, the value of a key is the one its own selector
    wrote. *)
Lemma static_extract_fields_lookup element fs : forall d d' name sel,
  NoDup fs.*1 ->
  Static.extract_fields element fs d = Ok d' ->
  (name, sel) ∈ fs ->
  exists d0 d1, Static.extract_field element name sel d0 = Ok d1
                /\ d' !! name = d1 !! name
                /\ d0 !! name = d !! name.
Proof.
  induction fs as [|[n0 s0] fs IH]; intros d d' name sel Hnd Hrun Hin.
  - by apply elem_of_nil in Hin.
  - simpl in Hrun. apply result_bind_ok in Hrun as (d1 & H1 & Hrest).
    rewrite fmap_cons in Hnd. apply NoDup_cons in Hnd as [Hfresh Hnd].
    apply elem_of_cons in Hin as [Heq|Hin].
    + injection Heq as -> ->. exists d, d1. split_and!; [done| |done].
      eapply static_extract_fields_frame; eauto.
    + destruct (IH _ _ _ _ Hnd Hrest Hin) as (d0 & d2 & Hf & Hl & Hd0).
      exists d0, d2. split_and!; [done..|].
      rewrite Hd0. eapply static_extract_field_frame; [done|].
      intros ->. apply Hfresh. by apply (list_elem_of_fmap_2 fst _ (n0, sel)).
Qed.

Lemma static_extract_field_total element name sel d :
  match selector_css sel with
  | Some css => is_ok (select element css) = true
  | None => True
  end ->
  exists d', Static.extract_field element name sel d = Ok d'.
Proof.
  destruct sel as [css|attr css|]; simpl; intros Hok; [| |eauto].
  - destruct (select element css) as [els|e]; [|discriminate]. simpl.
    destruct els as [|e0 rest]; [|destruct (1 <? _)%nat]; eauto.
  - destruct (select element (default "" css)) as [els|e]; [|discriminate]. simpl.
    destruct els as [|e0 rest]; [|destruct (String.eqb _ _)]; eauto.
Qed.

Lemma static_extract_fields_total element fs : forall d,
  fields_evaluate fs element ->
  exists d', Static.extract_fields element fs d = Ok d'.
Proof.
  induction fs as [|[name sel] fs IH]; intros d Hall; [by eexists|].
  apply Forall_cons in Hall as [Hhd Htl].
  destruct (static_extract_field_total element name sel d Hhd) as (d1 & H1).
  destruct (IH d1 Htl) as (d' & H'). exists d'. simpl. by rewrite H1.
Qed.

(** The item loop yields one record per item element, in order, after
    the records it started with. *)
Lemma static_extract_items_spec fs : forall elements items,
  Forall (fields_evaluate fs) elements ->
  exists news,
    Static.extract_items elements fs items = Ok (items ++ news)
    /\ Forall2 (fun element r => Static.extract_fields element fs ∅ = Ok r)
               elements news.
Proof.
  induction elements as [|element elements IH]; intros items Hall.
  - exists []. by rewrite app_nil_r.
  - apply Forall_cons in Hall as [Hhd Htl].
    destruct (static_extract_fields_total element fs ∅ Hhd) as (r & Hr).
    destruct (IH (items ++ [r]) Htl) as (news & Hrun & Hall2).
    exists (r :: news). split.
    + simpl. rewrite Hr. simpl. by rewrite Hrun, <- app_assoc.
    + by constructor.
Qed.

(** C1. [StaticScraper.extract_data] evaluates every field selector under
    the matched item root and returns one record per item. A string
    selector gives the stripped text of its single match, the list of the
    stripped texts when it matches several elements, and the empty string
    when it matches none. A dict selector gives the named attribute of the
    first match, its stripped text when the attribute is "text" (the
    default), and the empty string when nothing matches or the attribute
    is absent. The keys of the schema are those of a dict (distinct), and
    the selector engine accepts the selectors. *)
Theorem static_extract_data_fields soup (schema : selectors) item_elements :
  select soup (item_selector schema) = Ok item_elements ->
  NoDup (fields schema).*1 ->
  Forall (fields_evaluate (fields schema)) item_elements ->
  exists records,
    Static.extract_data soup schema = Ok records
    /\ length records = length item_elements
    /\ forall i element (r : record) name sel,
         item_elements !! i = Some element ->
         records !! i = Some r ->
         (name, sel) ∈ fields schema ->
         match sel with
         | Simple css =>
             forall matched, select element css = Ok matched ->
               match matched with
               | [] => r !! name = Some (VStr "")
               | [e] => r !! name = Some (VStr (get_text e))
               | _ :: _ :: _ => r !! name = Some (VList (get_text <$> matched))
               end
         | Attributed attr css =>
             forall matched, select element (default "" css) = Ok matched ->
               match matched with
               | [] => r !! name = Some (VStr "")
               | e :: _ =>
                   if decide (default "text" attr = "text")
                   then r !! name = Some (VStr (get_text e))
                   else match attr_get e (default "text" attr) with
                        | Some v => r !! name = Some v
                        | None => r !! name = Some (VStr "")
                        end
               end
         | Unsupported => r !! name = None
         end.
Proof.
  intros Hitems Hnd Hall.
  destruct (static_extract_items_spec (fields schema) item_elements [] Hall)
    as (records & Hrun & Hrecs).
  exists records. split_and!.
  - unfold Static.extract_data. rewrite Hitems. exact Hrun.
  - symmetry. eapply Forall2_length, Hrecs.
  - intros i element r name sel Hi Hr Hin.
    pose proof (Forall2_lookup_lr _ _ _ _ _ _ Hrecs Hi Hr) as Hfields.
    destruct (static_extract_fields_lookup _ _ _ _ _ _ Hnd Hfields Hin)
      as (d0 & d1 & Hfield & -> & Hd0).
    destruct sel as [css|attr css|]; simpl in Hfield.
    + intros matched Hsel. rewrite Hsel in Hfield. simpl in Hfield.
      destruct matched as [|e0 [|e1 rest]]; simpl in Hfield;
        injection Hfield as <-; by rewrite lookup_insert_eq.
    + intros matched Hsel. rewrite Hsel in Hfield. simpl in Hfield.
      destruct matched as [|e0 rest]; simpl in Hfield.
      { injection Hfield as <-. by rewrite lookup_insert_eq. }
      destruct (String.eqb_spec (default "text" attr) "text") as [Heq|Hne].
      * rewrite decide_True by done. injection Hfield as <-.
        by rewrite lookup_insert_eq.
      * rewrite decide_False by done. injection Hfield as <-.
        rewrite lookup_insert_eq. by destruct (attr_get e0 _).
    + injection Hfield as <-. by rewrite Hd0, lookup_empty.
Qed.

(** C5. When the item selector matches no element, [extract_data]
    returns the empty list and raises nothing, in the static and in the
    concurrent scraper. *)
Theorem extract_data_no_items soup (schema : selectors) :
  select soup (item_selector schema) = Ok [] ->
  Static.extract_data soup schema = Ok []
  /\ Async.extract_data soup schema = Ok [].
Proof.
  intros Hnone. unfold Static.extract_data, Async.extract_data.
  by rewrite Hnone.
Qed.

(** C9. [StaticScraper.extract_data] and [AsyncScraper.extract_data] are
    one function: they return the same result on every document and
    every schema. *)
Theorem static_async_extract_data_agree soup (schema : selectors) :
  Static.extract_data soup schema = Async.extract_data soup schema.
Proof.
  unfold Static.extract_data, Async.extract_data.
  destruct (select soup (item_selector schema)) as [item_elements|e]; [|done].
  simpl. generalize (@nil record) as items.
  induction item_elements as [|element rest IH]; intros items; [done|].
  simpl.
  assert (Hfields : forall fs d,
    Static.extract_fields element fs d = Async.extract_fields element fs d).
  { induction fs as [|[name sel] fs IHfs]; intros d; [done|]. simpl.
    change (Async.extract_field element name sel d)
      with (Static.extract_field element name sel d).
    destruct (Static.extract_field element name sel d); simpl; [apply IHfs|done]. }
  rewrite Hfields. destruct (Async.extract_fields _ _ _); simpl; [apply IH|done].
Qed.

End ExtractionFacts.

(** The scenarios of the specification. *)
Example extract_one_item :
  Static.extract_data Sample.one_item Sample.title_schema
  = Ok [ {[ "title" := VStr "Test Title" ]} ].
Proof. reflexivity. Qed.

Example extract_two_items :
  Static.extract_data Sample.two_items Sample.tag_schema
  = Ok [ {[ "tag" := VList ["a"; "b"] ]}; {[ "tag" := VStr "" ]} ].
Proof. reflexivity. Qed.

Example extract_links :
  Static.extract_data Sample.links Sample.link_schema
  = Ok [ {[ "url" := VStr "/detail/1"; "label" := VStr "first" ]};
         {[ "url" := VStr ""; "label" := VStr "second" ]} ].
Proof. reflexivity. Qed.

Lemma static_extract_data_fields_witness :
  exists records,
    Static.extract_data Sample.two_items Sample.tag_schema = Ok records
    /\ length records = 2.
Proof.
  destruct (static_extract_data_fields Sample.two_items Sample.tag_schema
              [Sample.div ["item"] "" [Sample.div ["tag"] " a " [];
                                       Sample.div ["tag"] "b" []];
               Sample.div ["item"] "" []])
    as (records & Hrun & Hlen & _).
  - reflexivity.
  - apply NoDup_singleton.
  - repeat constructor.
  - exists records. split; [exact Hrun | exact Hlen].
Defined.

Lemma extract_data_no_items_witness :
  Static.extract_data Sample.no_items Sample.title_schema = Ok []
  /\ Async.extract_data Sample.no_items Sample.title_schema = Ok [].
Proof. apply extract_data_no_items. reflexivity. Defined.

(* ===================================================================== *)
(** * Field failures *)
(* ===================================================================== *)

Section JsExtractionFacts.
Context {page elem : Type} `{!WebDriver page elem}.
Implicit Types (element : elem) (d : record) (log : list event)
  (fs : list (string * field_selector)).
#[local] Arguments JS.extract_field : simpl never.

Lemma js_try_field_frame element name sel d d' other :
  JS.try_field element name sel d = Ok d' ->
  other <> name -> d' !! other = d !! other.
Proof.
  intros Hrun Hne. destruct sel as [css|attr css|]; simpl in Hrun.
  - apply result_bind_ok in Hrun as (els & _ & Hrun).
    destruct els as [|e0 rest]; [|destruct (1 <? _)%nat].
    + injection Hrun as <-. by rewrite lookup_insert_ne.
    + apply result_bind_ok in Hrun as (ts & _ & Hrun).
      injection Hrun as <-. by rewrite lookup_insert_ne.
    + apply result_bind_ok in Hrun as (ts & _ & Hrun).
      injection Hrun as <-. by rewrite lookup_insert_ne.
  - apply result_bind_ok in Hrun as (els & _ & Hrun).
    destruct els as [|e0 rest]; [|destruct (String.eqb _ _)].
    + injection Hrun as <-. by rewrite lookup_insert_ne.
    + apply result_bind_ok in Hrun as (ts & _ & Hrun).
      injection Hrun as <-. by rewrite lookup_insert_ne.
    + apply result_bind_ok in Hrun as (ts & _ & Hrun).
      injection Hrun as <-. by rewrite lookup_insert_ne.
  - by injection Hrun as <-.
Qed.

(** One field: the log only grows, and no other key is written. *)
Lemma js_extract_field_frame element name sel d log d' log' :
  JS.extract_field element name sel (d, log) = (d', log') ->
  (exists more, log' = log ++ more)
  /\ forall other, other <> name -> d' !! other = d !! other.
Proof.
  unfold JS.extract_field. intros Hrun.
  destruct (JS.try_field element name sel d) as [d1|e] eqn:Htry;
    injection Hrun as <- <-.
  - split; [exists []; by rewrite app_nil_r|].
    intros other Hne. eapply js_try_field_frame; eauto.
  - split; [by eexists|]. intros other Hne. by rewrite lookup_insert_ne.
Qed.

Lemma js_extract_fields_frame element fs : forall d log d' log',
  JS.extract_fields element fs (d, log) = (d', log') ->
  (exists more, log' = log ++ more)
  /\ forall other, other ∉ fs.*1 -> d' !! other = d !! other.
Proof.
  induction fs as [|[name sel] fs IH]; intros d log d' log' Hrun.
  - injection Hrun as <- <-. split; [exists []; by rewrite app_nil_r|done].
  - simpl in Hrun.
    destruct (JS.extract_field element name sel (d, log)) as [d1 log1] eqn:H1.
    apply js_extract_field_frame in H1 as [[more1 ->] Hframe1].
    apply IH in Hrun as [[more ->] Hframe]. split.
    + exists (more1 ++ more). by rewrite app_assoc.
    + intros other Hnotin. rewrite fmap_cons, not_elem_of_cons in Hnotin.
      destruct Hnotin as [Hne Hnotin]. rewrite Hframe by done. by apply Hframe1.
Qed.

(** With distinct keys, a field holds what its own [try] block gave: the
    value written, or the empty string and a warning when it raised. *)
Lemma js_extract_fields_lookup element fs : forall d log d' log' name sel,
  NoDup fs.*1 ->
  JS.extract_fields element fs (d, log) = (d', log') ->
  (name, sel) ∈ fs ->
  exists d0,
    d0 !! name = d !! name /\
    match JS.try_field element name sel d0 with
    | Ok d1 => d' !! name = d1 !! name
    | Raise e =>
        d' !! name = Some (VStr "")
        /\ EvLog WARNING (ErrorExtractingField name e) ∈ log'
    end.
Proof.
  induction fs as [|[n0 s0] fs IH]; intros d log d' log' name sel Hnd Hrun Hin.
  - by apply elem_of_nil in Hin.
  - simpl in Hrun.
    destruct (JS.extract_field element n0 s0 (d, log)) as [d1 log1] eqn:H1.
    rewrite fmap_cons in Hnd. apply NoDup_cons in Hnd as [Hfresh Hnd].
    simpl in Hfresh.
    apply elem_of_cons in Hin as [Heq|Hin].
    + injection Heq as -> ->. exists d. split; [done|].
      apply js_extract_fields_frame in Hrun as [[more ->] Hframe].
      rewrite (Hframe _ Hfresh). unfold JS.extract_field in H1.
      destruct (JS.try_field element n0 s0 d) as [d2|e];
        injection H1 as <- <-; [done|].
      rewrite lookup_insert_eq. split; [done|]. set_solver.
    + destruct (IH _ _ _ _ _ _ Hnd Hrun Hin) as (d0 & Hd0 & Hres).
      exists d0. split; [|done]. rewrite Hd0.
      apply js_extract_field_frame in H1 as [_ Hframe1]. apply Hframe1.
      intros ->. apply Hfresh. by apply (list_elem_of_fmap_2 fst _ (n0, sel)).
Qed.

(** The item loop never raises: one record per item element, each the
    outcome of the field loop on that element, and every log record
    emitted on the way is in the final log. *)
Lemma js_extract_items_spec fs : forall elements items log,
  exists news log',
    JS.extract_items elements fs items log = (items ++ news, log')
    /\ (exists more, log' = log ++ more)
    /\ Forall2 (fun element r => exists l0 l1 more,
                  JS.extract_fields element fs (∅, l0) = (r, l1)
                  /\ log' = l1 ++ more)
               elements news.
Proof.
  induction elements as [|element elements IH]; intros items log.
  - exists [], log. rewrite app_nil_r. split_and!; [done| |constructor].
    exists []. by rewrite app_nil_r.
  - simpl.
    destruct (JS.extract_fields element fs (∅, log)) as [r log1] eqn:Hr.
    destruct (IH (items ++ [r]) log1) as (news & log' & Hrun & [more ->] & Hall).
    exists (r :: news), (log1 ++ more). split_and!.
    + by rewrite Hrun, <- app_assoc.
    + apply js_extract_fields_frame in Hr as [[more1 ->] _].
      exists (more1 ++ more). by rewrite app_assoc.
    + constructor; [|done]. by exists log, log1, more.
Qed.

End JsExtractionFacts.

Section FieldFailures.
Context {node page elem : Type} `{!Bs4 node} `{!WebDriver page elem}.

(** C2, as the code has it. In [JSScraper.extract_data] a field whose
    evaluation raises (a selector the engine rejects, a stale element)
    aborts neither its item nor the following ones: the field holds the
    empty string, a warning naming the field and the exception is in the
    log, and the method returns one record per matched item element, the
    other fields holding what their own evaluation gave. A missing
    attribute is no failure and emits nothing: in
    [StaticScraper.extract_data], a pure function, the field of a dict
    selector whose attribute is absent on the first match holds the
    empty string. *)
Theorem field_failures_contained (pg : page) (schema : selectors)
    (item_elements : list elem) (log : list event) :
  wait_until_present pg (item_selector schema) = Ok tt ->
  driver_find_elements pg (item_selector schema) = Ok item_elements ->
  NoDup (fields schema).*1 ->
  (exists records log',
     JS.extract_data pg schema log = (Ok records, log')
     /\ length records = length item_elements
     /\ (exists more, log' = log ++ more)
     /\ forall i element (r : record) name sel,
          item_elements !! i = Some element ->
          records !! i = Some r ->
          (name, sel) ∈ fields schema ->
          exists d0 : record,
            d0 !! name = None /\
            match JS.try_field element name sel d0 with
            | Ok d1 => r !! name = d1 !! name
            | Raise e =>
                r !! name = Some (VStr "")
                /\ EvLog WARNING (ErrorExtractingField name e) ∈ log'
            end)
  /\ (forall (element e0 : node) rest name attr css (d : record),
        select element (default "" css) = Ok (e0 :: rest) ->
        attr <> "text" ->
        attr_get e0 attr = None ->
        Static.extract_field element name (Attributed (Some attr) css) d
        = Ok (<[name := VStr ""]> d)).
Proof.
  intros Hwait Hitems Hnd. split.
  - destruct (js_extract_items_spec (fields schema) item_elements [] log)
      as (records & log' & Hrun & Hmore & Hrecs).
    exists records, log'. split_and!.
    + unfold JS.extract_data. rewrite Hwait, Hitems. by rewrite Hrun.
    + symmetry. eapply Forall2_length, Hrecs.
    + exact Hmore.
    + intros i element r name sel Hi Hr Hin.
      destruct (Forall2_lookup_lr _ _ _ _ _ _ Hrecs Hi Hr)
        as (l0 & l1 & more & Hfields & Hlog).
      destruct (js_extract_fields_lookup _ _ _ _ _ _ _ _ Hnd Hfields Hin)
        as (d0 & Hd0 & Hres).
      exists d0. split; [by rewrite Hd0, lookup_empty|].
      destruct (JS.try_field element name sel d0); [done|].
      destruct Hres as [Hval Hwarn]. split; [done|].
      rewrite Hlog. apply elem_of_app. by left.
  - intros element e0 rest name attr css d Hsel Htext Habsent. simpl.
    rewrite Hsel. simpl.
    destruct (String.eqb_spec attr "text") as [->|_]; [done|].
    by rewrite Habsent.
Qed.

End FieldFailures.

Lemma field_failures_contained_witness :
  exists records log',
    JS.extract_data Sample.one_item Sample.broken_schema [] = (Ok records, log')
    /\ length records = 1.
Proof.
  destruct (field_failures_contained (node := Sample.tag)
              Sample.one_item Sample.broken_schema
              [Sample.div ["item"] "  " [Sample.div ["title"] "Test Title" []]] [])
    as [(records & log' & Hrun & Hlen & _ & _) _].
  - reflexivity.
  - reflexivity.
  - apply (bool_decide_unpack _). vm_compute. exact I.
  - exists records, log'. split; [exact Hrun | exact Hlen].
Defined.

(** The browser scraper on the schema with a rejected selector: the record
    is kept, and the failing field is empty. *)
Example js_broken_schema :
  JS.extract_data Sample.one_item Sample.broken_schema []
  = (Ok [ {[ "price" := VStr ""; "title" := VStr "Test Title" ]} ],
     [EvLog WARNING (ErrorExtractingField "price"
                       (WebDriverException "invalid selector"))]).
Proof. reflexivity. Qed.

(** C2 does not hold as stated. In the static scraper a missing attribute
    gives the empty string with no warning anywhere in the run, and a field
    selector the engine rejects makes [extract_data] raise: no record is
    returned for the page, though one item element matches. *)
Lemma field_failures_counterexample :
  (let run := Sample.run_scrape 3 (Sample.scraper ["/links"] Sample.link_selectors) in
   run.1 = Ok ([Static.Done],
               [ {[ "url" := VStr "/detail/1"; "label" := VStr "first" ]};
                 {[ "url" := VStr ""; "label" := VStr "second" ]} ])
   /\ warnings (trace run.2) = [])
  /\ select Sample.one_item (item_selector Sample.broken_schema)
     = Ok [Sample.div ["item"] "  " [Sample.div ["title"] "Test Title" []]]
  /\ Static.extract_data Sample.one_item Sample.broken_schema
     = Raise (SelectorSyntaxError "span[").
Proof. cbv zeta. split_and!; reflexivity. Qed.

(* ===================================================================== *)
(** * Fetching: delay, retry, backoff *)
(* ===================================================================== *)

Lemma gets_app t1 t2 : gets (t1 ++ t2) = gets t1 ++ gets t2.
Proof. apply omap_app. Qed.

Lemma backoffs_app t1 t2 : backoffs (t1 ++ t2) = backoffs t1 ++ backoffs t2.
Proof. apply omap_app. Qed.

Lemma errors_app t1 t2 : errors (t1 ++ t2) = errors t1 ++ errors t2.
Proof. apply omap_app. Qed.

Lemma fetched_app t1 t2 : fetched (t1 ++ t2) = fetched t1 ++ fetched t2.
Proof. apply omap_app. Qed.

Lemma gets_attempt d url ua tail :
  gets (EvSleep RateLimit d :: EvGet url ua :: tail) = url :: gets tail.
Proof. reflexivity. Qed.

Lemma backoffs_attempt d url ua tail :
  backoffs (EvSleep RateLimit d :: EvGet url ua :: tail) = backoffs tail.
Proof. reflexivity. Qed.

Section SleepBeforeRequest.
Variable admissible : Q -> Prop.




End SleepBeforeRequest.

Section Retrying.
Context {node : Type} (env : Env node).
Variables (url : string) (wait : nat -> Q) (body : M node).

(** The retry loop adds only its own waits to what the attempts do. *)
Lemma retry_loop_trace (P : list event -> Prop) :
  P [] ->
  (forall t1 t2, P t1 -> P t2 -> P (t1 ++ t2)) ->
  (forall d, P [EvSleep Backoff d]) ->
  (forall st, exists new, trace (body st).2 = trace st ++ new /\ P new) ->
  forall remaining n st,
    exists new,
      trace (retry_loop remaining n wait body st).2 = trace st ++ new /\ P new.
Proof.
  intros Hnil Happ Hwait Hbody.
  induction remaining as [|remaining IH]; intros n st; simpl;
    destruct (Hbody st) as (new & Hnew & HP);
    destruct (body st) as [[soup|e] st1]; simpl in *; eauto.
  match goal with
  | |- context [retry_loop remaining ?m wait body ?s] =>
      destruct (IH m s) as (new' & Hnew' & HP')
  end.
  exists (new ++ [EvSleep Backoff (wait n)] ++ new'). split.
  - rewrite Hnew'. simpl. rewrite Hnew. by rewrite <- !app_assoc.
  - auto.
Qed.

(** An attempt whose sleep goes through: the sleep, the request, then
    at most log records; the outcome is the transport's. *)
Hypothesis body_attempts : forall st, exists st' ua d tail,
  body st = (http_get env (requests st) url ua, st')
  /\ requests st' = S (requests st)
  /\ trace st' = trace st ++ EvSleep RateLimit d :: EvGet url ua :: tail
  /\ gets tail = [] /\ backoffs tail = [].

(** The transport fails on the [remaining + 1] requests to come: the
    loop makes them all, waits in between, and raises [RetryError]. *)
Lemma retry_loop_exhausted : forall remaining n st,
  (forall i ua, i <= remaining ->
     is_ok (http_get env (requests st + i) url ua) = false) ->
  exists e ua st' new,
    retry_loop remaining n wait body st = (Raise (RetryError e), st')
    /\ http_get env (requests st + remaining) url ua = Raise e
    /\ requests st' = requests st + S remaining
    /\ trace st' = trace st ++ new
    /\ gets new = replicate (S remaining) url
    /\ backoffs new = wait <$> seq n remaining.
Proof.
  induction remaining as [|remaining IH]; intros n st Hfail; simpl;
    destruct (body_attempts st) as (st1 & ua & d & tail & -> & Hreq & Htr & Hg & Hb);
    pose proof (Hfail 0 ua ltac:(lia)) as Hfirst;
    rewrite Nat.add_0_r in Hfirst;
    destruct (http_get env (requests st) url ua) as [soup|e] eqn:Hget;
    try discriminate.
  - exists e, ua, st1, (EvSleep RateLimit d :: EvGet url ua :: tail).
    rewrite Nat.add_0_r. split_and!; [done|done|lia|done| |].
    + by rewrite gets_attempt, Hg.
    + by rewrite backoffs_attempt, Hb.
  - match goal with
    | |- context [retry_loop remaining ?m wait body ?s] =>
        destruct (IH m s) as (e' & ua' & st' & new & -> & Hlast & Hreq' & Htr' & Hg' & Hb')
    end.
    { intros i ua' Hi. simpl. rewrite Hreq.
      replace (S (requests st) + i) with (requests st + S i) by lia.
      apply Hfail. lia. }
    simpl in Hlast, Hreq', Htr'. rewrite Hreq in Hlast, Hreq'.
    exists e', ua', st',
      (EvSleep RateLimit d :: EvGet url ua :: tail
         ++ [EvSleep Backoff (wait n)] ++ new).
    split_and!; [done| |lia| | |].
    + by replace (requests st + S remaining) with (S (requests st) + remaining) by lia.
    + rewrite Htr', Htr. by rewrite <- !app_assoc.
    + by rewrite gets_attempt, !gets_app, Hg, Hg'.
    + by rewrite backoffs_attempt, !backoffs_app, Hb, Hb'.
Qed.

(** The transport fails [k] times and then succeeds, [k] being within
    the attempts left: the loop returns the document of request [k]. *)
Lemma retry_loop_recovers soup : forall k remaining n st,
  k <= remaining ->
  (forall i ua, i < k ->
     is_ok (http_get env (requests st + i) url ua) = false) ->
  (forall ua, http_get env (requests st + k) url ua = Ok soup) ->
  exists st' new,
    retry_loop remaining n wait body st = (Ok soup, st')
    /\ requests st' = requests st + S k
    /\ trace st' = trace st ++ new
    /\ gets new = replicate (S k) url
    /\ backoffs new = wait <$> seq n k.
Proof.
  induction k as [|k IH]; intros remaining n st Hk Hfail Hok;
    destruct (body_attempts st) as (st1 & ua & d & tail & Hrun & Hreq & Htr & Hg & Hb).
  - rewrite Nat.add_0_r in Hok. rewrite Hok in Hrun.
    exists st1, (EvSleep RateLimit d :: EvGet url ua :: tail).
    split_and!; [|lia|done| |].
    + destruct remaining; simpl; by rewrite Hrun.
    + by rewrite gets_attempt, Hg.
    + by rewrite backoffs_attempt, Hb.
  - destruct remaining as [|remaining]; [lia|]. simpl. rewrite Hrun.
    pose proof (Hfail 0 ua ltac:(lia)) as Hfirst.
    rewrite Nat.add_0_r in Hfirst.
    destruct (http_get env (requests st) url ua) as [?|e]; [discriminate|].
    match goal with
    | |- context [retry_loop remaining ?m wait body ?s] =>
        destruct (IH remaining m s) as (st' & new & -> & Hreq' & Htr' & Hg' & Hb')
    end.
    { lia. }
    { intros i ua' Hi. simpl. rewrite Hreq.
      replace (S (requests st) + i) with (requests st + S i) by lia.
      apply Hfail. lia. }
    { intros ua'. simpl. rewrite Hreq.
      replace (S (requests st) + k) with (requests st + S k) by lia.
      apply Hok. }
    simpl in Hreq', Htr'. rewrite Hreq in Hreq'.
    exists st',
      (EvSleep RateLimit d :: EvGet url ua :: tail
         ++ [EvSleep Backoff (wait n)] ++ new).
    split_and!; [done|lia| | |].
    + rewrite Htr', Htr. by rewrite <- !app_assoc.
    + by rewrite gets_attempt, !gets_app, Hg, Hg'.
    + by rewrite backoffs_attempt, !backoffs_app, Hb, Hb'.
Qed.

End Retrying.

Section Fetching.
Context {node : Type} `{!Bs4 node} `{!UrlLib} (env : Env node).

Lemma sleep_rejects_unfit d : fits_time_t d = false -> sleep_accepts d = false.
Proof. unfold sleep_accepts. by intros ->. Qed.

Lemma sleep_rejects_negative d : Qle_bool 0 d = false -> sleep_accepts d = false.
Proof. unfold sleep_accepts. intros ->. apply andb_false_r. Qed.

Lemma sleep_accepts_intro d :
  fits_time_t d = true -> Qle_bool 0 d = true -> sleep_accepts d = true.
Proof. unfold sleep_accepts. by intros -> ->. Qed.

(** A number between 0 and [sleep_max] is one [time.sleep] takes. *)
Lemma sleep_accepts_range d :
  (0 <= d)%Q -> (d <= sleep_max)%Q -> sleep_accepts d = true.
Proof.
  intros Hlo Hhi. unfold sleep_accepts, fits_time_t.
  rewrite !andb_true_iff, !Qle_bool_iff. split_and!; [|done..].
  unfold sleep_min. eapply Qle_trans; [|exact Hlo]. discriminate.
Qed.

(** Every delay of a scraper whose configured delay is accepted is one
    [time.sleep] takes. *)
Lemma accepted_delay_sleeps delay_seconds jitter base d :
  accepted_delay delay_seconds jitter base ->
  is_request_delay env delay_seconds jitter d ->
  sleep_accepts d = true.
Proof.
  intros (Hnum & Hlo & Hhi) (base' & Hnum' & Hd).
  rewrite Hnum in Hnum'. injection Hnum' as <-.
  destruct (truthy jitter).
  - destruct Hd as (n & -> & Hu0 & Hu1).
    apply sleep_accepts_range; lra.
  - subst d. by apply sleep_accepts_range.
Qed.

(** One attempt of [StaticScraper.fetch_page]: either [time.sleep]
    raises and nothing is done, or the sleep and the request happen, in
    that order, and the outcome of the attempt is the transport's. *)
Lemma static_attempt_cases self url st :
  (exists e st',
      Static.fetch_page_attempt env self url st = (Raise e, st')
      /\ requests st' = requests st
      /\ all_data st' = all_data st
      /\ trace st' = trace st
      /\ (as_number (Static.delay_seconds self) = None
          \/ exists d, is_request_delay env (Static.delay_seconds self)
                         (Static.jitter self) d
                       /\ sleep_accepts d = false))
  \/ (exists st' ua d tail,
      Static.fetch_page_attempt env self url st
      = (http_get env (requests st) url ua, st')
      /\ requests st' = S (requests st)
      /\ all_data st' = all_data st
      /\ trace st' = trace st ++ EvSleep RateLimit d :: EvGet url ua :: tail
      /\ gets tail = [] /\ backoffs tail = []
      /\ inner_events tail
      /\ is_request_delay env (Static.delay_seconds self) (Static.jitter self) d
      /\ sleep_accepts d = true
      /\ forallb is_log tail = true).
Proof.
  unfold Static.fetch_page_attempt, is_request_delay.
  destruct (Static.user_agents self) as [|ua0 uas];
    destruct (truthy (Static.jitter self)) eqn:Hjit;
    destruct (as_number (Static.delay_seconds self)) as [base|] eqn:Hnum;
    run_attempt; rewrite ?Hnum; cbv beta iota delta [as_number];
    try (left; eexists _, _; split_and!; [reflexivity..|by left]).
  all: match goal with
       | |- context [fits_time_t ?d] => destruct (fits_time_t d) eqn:Hfits
       end; run_attempt.
  all: try (left; eexists _, _; split_and!;
            [reflexivity..
            |right; eexists; split;
             [|apply sleep_rejects_unfit; eassumption]; delay_found]).
  all: match goal with
       | |- context [Qle_bool 0 ?d] => destruct (Qle_bool 0 d) eqn:Hsleep
       end; run_attempt.
  all: try (left; eexists _, _; split_and!;
            [reflexivity..
            |right; eexists; split;
             [|apply sleep_rejects_negative; eassumption]; delay_found]).
  all: match goal with
       | |- context [http_get _ ?n ?u ?ua] =>
           destruct (http_get env n u ua) as [soup|e] eqn:Hget;
           [|destruct (is_request_exception e)];
           right; eexists _, ua, _, _; rewrite Hget
       end; run_attempt.
  all: split_and!;
    first [ reflexivity | by rewrite <- ?app_assoc | by split
          | by apply sleep_accepts_intro | delay_found ].
Qed.

(** The same for [AsyncScraper.fetch_page]; [asyncio.sleep] accepts any
    number. *)
Lemma async_attempt_cases self url st :
  (exists e st',
      Async.fetch_page_attempt env self url st = (Raise e, st')
      /\ requests st' = requests st
      /\ trace st' = trace st
      /\ as_number (Async.delay_seconds self) = None)
  \/ (exists st' ua d tail,
      Async.fetch_page_attempt env self url st
      = (http_get env (requests st) url ua, st')
      /\ requests st' = S (requests st)
      /\ trace st' = trace st ++ EvSleep RateLimit d :: EvGet url ua :: tail
      /\ gets tail = [] /\ backoffs tail = []
      /\ is_request_delay env (Async.delay_seconds self) (Async.jitter self) d
      /\ forallb is_log tail = true).
Proof.
  unfold Async.fetch_page_attempt, is_request_delay.
  destruct (Async.user_agents self) as [|ua0 uas];
    destruct (truthy (Async.jitter self)) eqn:Hjit;
    destruct (as_number (Async.delay_seconds self)) as [base|] eqn:Hnum;
    run_attempt; rewrite ?Hnum; cbv beta iota delta [as_number]; run_attempt;
    try (left; eexists _, _; split_and!; reflexivity).
  all: match goal with
       | |- context [http_get _ ?n ?u ?ua] =>
           destruct (http_get env n u ua) as [soup|e] eqn:Hget;
           [|destruct (is_client_error e)];
           right; eexists _, ua, _, _; rewrite Hget
       end; run_attempt.
  all: split_and!;
    first [ reflexivity | by rewrite <- ?app_assoc | delay_found ].
Qed.

(** With a delay that [time.sleep] takes, the sleep goes through. *)
Lemma static_attempt_valid self url base st :
  accepted_delay (Static.delay_seconds self) (Static.jitter self) base ->
  exists st' ua d tail,
    Static.fetch_page_attempt env self url st
    = (http_get env (requests st) url ua, st')
    /\ requests st' = S (requests st)
    /\ trace st' = trace st ++ EvSleep RateLimit d :: EvGet url ua :: tail
    /\ gets tail = [] /\ backoffs tail = []
    /\ is_request_delay env (Static.delay_seconds self) (Static.jitter self) d
    /\ forallb is_log tail = true.
Proof.
  intros Hdelay.
  destruct (static_attempt_cases self url st)
    as [(e & st' & _ & _ & _ & _ & Hbad)|(st' & ua & d & tail & Hshape)].
  - exfalso. destruct Hbad as [Hnone|(d & Hd & Hrejected)].
    + destruct Hdelay as [Hnum _]. congruence.
    + rewrite (accepted_delay_sleeps _ _ _ _ Hdelay Hd) in Hrejected.
      discriminate.
  - exists st', ua, d, tail. tauto.
Qed.


End Fetching.

Section FetchEvents.
Context {node : Type} (wait : nat -> Q) (body : M node).
Variables (admissible : Q -> Prop) (url : string).


End FetchEvents.

Section FetchPolicy.
Context {node : Type} `{!Bs4 node} `{!UrlLib} (env : Env node).

(** C3, as the code has it. [StaticScraper.fetch_page] makes at most
    three attempts, whatever the configuration holds: the number is the
    literal of the decorator. Between two attempts it waits
    multiplier x 2^attempt clamped to [[min, max]], with multiplier 1,
    min 4 and max 10 and the attempts counted from 0, which is 4 seconds
    both times. If the transport fails exactly [k < 3] times and then
    succeeds, the parsed document is returned and nothing is raised;
    if it fails three times, [RetryError] is raised to the caller. This
    is so when the configured delay, with the addend of the jitter, is a
    number [time.sleep] takes: not negative and within the range of its
    conversion to nanoseconds. *)
Theorem fetch_page_retries (self : Static.t) url st base :
  accepted_delay (Static.delay_seconds self) (Static.jitter self) base ->
  (forall i, wait_exponential 1 4 10 (S i)
             = Qmax 4 (Qmin (1 * 2 ^ Z.of_nat i) 10))
  /\ (forall k soup,
        k < 3 ->
        (forall i ua, i < k ->
           is_ok (http_get env (requests st + i) url ua) = false) ->
        (forall ua, http_get env (requests st + k) url ua = Ok soup) ->
        exists st' new,
          Static.fetch_page env self url st = (Ok soup, st')
          /\ trace st' = trace st ++ new
          /\ gets new = replicate (S k) url
          /\ backoffs new = wait_exponential 1 4 10 <$> seq 1 k
          /\ backoffs new = replicate k 4%Q)
  /\ ((forall i ua, i < 3 ->
         is_ok (http_get env (requests st + i) url ua) = false) ->
      exists e ua st' new,
        Static.fetch_page env self url st = (Raise (RetryError e), st')
        /\ http_get env (requests st + 2) url ua = Raise e
        /\ trace st' = trace st ++ new
        /\ gets new = replicate 3 url
        /\ backoffs new = [4; 4]%Q).
Proof.
  intros Hdelay.
  assert (Hbody : forall st0, exists st' ua d tail,
            Static.fetch_page_attempt env self url st0
            = (http_get env (requests st0) url ua, st')
            /\ requests st' = S (requests st0)
            /\ trace st' = trace st0 ++ EvSleep RateLimit d :: EvGet url ua :: tail
            /\ gets tail = [] /\ backoffs tail = []).
  { intros st0.
    destruct (static_attempt_valid env self url base st0 Hdelay)
      as (st' & ua & d & tail & H1 & H2 & H3 & H4 & H5 & _).
    by exists st', ua, d, tail. }
  split_and!.
  - intros i. unfold wait_exponential.
    by replace (S i - 1) with i by lia.
  - intros k soup Hk Hfail Hok.
    destruct (retry_loop_recovers env url (wait_exponential 1 4 10)
                (Static.fetch_page_attempt env self url) Hbody soup
                k 2 1 st ltac:(lia) Hfail Hok)
      as (st' & new & Hrun & _ & Htr & Hg & Hb).
    exists st', new. split_and!; [done..|].
    rewrite Hb. by destruct k as [|[|[|k]]]; [..|lia].
  - intros Hfail.
    destruct (retry_loop_exhausted env url (wait_exponential 1 4 10)
                (Static.fetch_page_attempt env self url) Hbody 2 1 st)
      as (e & ua & st' & new & Hrun & Hlast & _ & Htr & Hg & Hb).
    { intros i ua Hi. apply Hfail. lia. }
    by exists e, ua, st', new.
Qed.


End FetchPolicy.

(** A fetch that recovers at the third attempt, on the sample site. *)
Example fetch_flaky :
  let self := Sample.scraper ["/flaky"] Sample.title_selectors in
  let run := Static.fetch_page Sample.world self "https://example.com/flaky"
               (Static.initial_state self) in
  run.1 = Ok Sample.page2
  /\ trace run.2
     = [EvSleep RateLimit 1; EvGet "https://example.com/flaky" None;
        EvLog ERROR (ErrorFetching "https://example.com/flaky" Sample.down);
        EvSleep Backoff 4;
        EvSleep RateLimit 1; EvGet "https://example.com/flaky" None;
        EvLog ERROR (ErrorFetching "https://example.com/flaky" Sample.down);
        EvSleep Backoff 4;
        EvSleep RateLimit 1; EvGet "https://example.com/flaky" None].
Proof. cbv zeta. split; reflexivity. Qed.

Lemma fetch_page_retries_witness :
  let self := Sample.scraper ["/flaky"] Sample.title_selectors in
  exists st' new,
    Static.fetch_page Sample.world self "https://example.com/flaky"
      (Static.initial_state self) = (Ok Sample.page2, st')
    /\ trace st' = new
    /\ gets new = replicate 3 "https://example.com/flaky"
    /\ backoffs new = [4; 4]%Q.
Proof.
  cbv zeta.
  destruct (fetch_page_retries Sample.world
              (Sample.scraper ["/flaky"] Sample.title_selectors)
              "https://example.com/flaky"
              (Static.initial_state (Sample.scraper ["/flaky"] Sample.title_selectors))
              1%Q)
    as (_ & Hrecover & _).
  { split_and!; [reflexivity|discriminate|discriminate]. }
  destruct (Hrecover 2 Sample.page2) as (st' & new & Hrun & Htr & Hg & _ & Hb).
  - lia.
  - intros i ua Hi. destruct i as [|[|i]]; [reflexivity..|lia].
  - reflexivity.
  - exists st', new. split_and!; [exact Hrun|exact Htr|exact Hg|exact Hb].
Defined.

(** C3 does not hold as stated: the number of attempts is not
    configurable. With [retry_attempts] set to 5 in the configuration and
    a transport that fails exactly three times (fewer than 5) and then
    succeeds, [fetch_page] stops after the third attempt and raises. *)
Lemma fetch_page_retries_counterexample :
  let config := Sample.sample_config ["/slow"] Sample.title_selectors
                  Sample.default_rate_limit [("retry_attempts", JInt 5)] in
  let self := Static.init config in
  let url := "https://example.com/slow" in
  let run := Static.fetch_page Sample.world self url (Static.initial_state self) in
  ConfigLoader.get config "retry_attempts" JNull = JInt 5
  /\ (forall ua, http_get Sample.world 0 url ua = Raise Sample.down)
  /\ (forall ua, http_get Sample.world 1 url ua = Raise Sample.down)
  /\ (forall ua, http_get Sample.world 2 url ua = Raise Sample.down)
  /\ (forall ua, http_get Sample.world 3 url ua = Ok Sample.page2)
  /\ run.1 = Raise (RetryError Sample.down)
  /\ gets (trace run.2) = [url; url; url].
Proof. cbv zeta. split_and!; reflexivity. Qed.



(* ===================================================================== *)
(** * Pagination and sessions *)
(* ===================================================================== *)

Lemma inner_events_nil : inner_events [].
Proof. by split. Qed.

Lemma inner_events_app t1 t2 :
  inner_events t1 -> inner_events t2 -> inner_events (t1 ++ t2).
Proof.
  intros [Hf1 He1] [Hf2 He2]. split.
  - by rewrite fetched_app, Hf1, Hf2.
  - unfold scrape_errors in *. by rewrite omap_app, He1, He2.
Qed.

Lemma scrape_errors_app t1 t2 :
  scrape_errors (t1 ++ t2) = scrape_errors t1 ++ scrape_errors t2.
Proof. apply omap_app. Qed.

Section RetryFrame.
Context {node : Type} (wait : nat -> Q) (body : M node).

Lemma retry_loop_all_data :
  (forall st, all_data (body st).2 = all_data st) ->
  forall remaining n st,
    all_data (retry_loop remaining n wait body st).2 = all_data st.
Proof.
  intros Hbody. induction remaining as [|remaining IH]; intros n st; simpl;
    pose proof (Hbody st) as Hst;
    destruct (body st) as [[soup|e] st1]; simpl in *; try done.
  by rewrite IH.
Qed.

(** A document the loop returns is one an attempt returned. *)
Lemma retry_loop_served (served : node -> Prop) :
  (forall st soup st', body st = (Ok soup, st') -> served soup) ->
  forall remaining n st soup st',
    retry_loop remaining n wait body st = (Ok soup, st') -> served soup.
Proof.
  intros Hbody. induction remaining as [|remaining IH];
    intros n st soup st' Hrun; simpl in Hrun;
    destruct (body st) as [[soup1|e] st1] eqn:Hst; simplify_eq; eauto.
Qed.

End RetryFrame.

Section Pagination.
Context {node : Type} `{!Bs4 node} `{!UrlLib} (env : Env node).
Implicit Types (self : Static.t) (sels : selectors) (st : state).

Lemma logged_trace lvl r st : trace (logged lvl r st) = trace st ++ [EvLog lvl r].
Proof. reflexivity. Qed.

Lemma logged_all_data lvl r st : all_data (logged lvl r st) = all_data st.
Proof. reflexivity. Qed.

(** [fetch_page] leaves [all_data] alone and logs nothing in the name of
    the pagination loop. *)
Lemma static_fetch_page_frame self url st :
  all_data (Static.fetch_page env self url st).2 = all_data st
  /\ exists new,
       trace (Static.fetch_page env self url st).2 = trace st ++ new
       /\ inner_events new.
Proof.
  split.
  - apply retry_loop_all_data. intros st0.
    destruct (static_attempt_cases env self url st0)
      as [(e & st' & -> & _ & Hd & _)|(st' & ua & d & tail & -> & _ & Hd & _)];
      done.
  - apply retry_loop_trace.
    + apply inner_events_nil.
    + apply inner_events_app.
    + by split.
    + intros st0.
      destruct (static_attempt_cases env self url st0)
        as [(e & st' & Hrun & _ & _ & Htr & _)
           |(st' & ua & d & tail & Hrun & _ & _ & Htr & _ & _ & [Hf He] & _)];
        rewrite Hrun; simpl; rewrite Htr.
      * exists []. split; [by rewrite app_nil_r|apply inner_events_nil].
      * eexists. split; [done|]. by split.
Qed.

(** A document [fetch_page] returns was served for that URL. *)
Lemma static_fetch_page_served self url st soup st' :
  Static.fetch_page env self url st = (Ok soup, st') ->
  exists n ua, http_get env n url ua = Ok soup.
Proof.
  apply (retry_loop_served _ _ (fun soup => exists n ua, http_get env n url ua = Ok soup)).
  intros st0 soup0 st0' Hrun.
  destruct (static_attempt_cases env self url st0)
    as [(e & st1 & Hrun' & _)|(st1 & ua & d & tail & Hrun' & _)];
    rewrite Hrun in Hrun'; simplify_eq; eauto.
Qed.

(** [get_next_page_url] leaves [all_data] alone; it logs at most the
    warning about URL templates. *)
Lemma get_next_page_url_frame self soup url st :
  all_data (Static.get_next_page_url self soup url st).2 = all_data st
  /\ exists new,
       trace (Static.get_next_page_url self soup url st).2 = trace st ++ new
       /\ inner_events new.
Proof.
  unfold Static.get_next_page_url.
  cbv [mbind M_bind mret M_ret lift raise logger emit].
  repeat case_match; simplify_eq/=.
  all: split; [reflexivity|].
  all: eexists; split;
    [first [reflexivity | symmetry; apply app_nil_r]|by split].
Qed.

(** What [pagination.get] returns on a dict. *)
Lemma pagination_get_dict self d :
  Static.pagination self = JDict d ->
  py_get (Static.pagination self) "next_selector" JNull
  = Ok (Static.next_selector self)
  /\ py_get (Static.pagination self) "next_url_template" JNull
     = Ok (Static.next_url_template self).
Proof.
  unfold Static.next_selector, Static.next_url_template. by intros ->.
Qed.

(** [pagination] is a dict, or [pagination.get] raises. *)
Lemma pagination_cases self :
  (exists d, Static.pagination self = JDict d)
  \/ (py_get (Static.pagination self) "next_selector" JNull = Raise AttributeError
      /\ Static.next_selector self = JNull).
Proof.
  unfold Static.next_selector.
  destruct (Static.pagination self); eauto.
Qed.

(** On a [pagination] that is not a dict, [get_next_page_url] raises
    [AttributeError] at once. *)
Lemma get_next_page_url_no_dict self soup url st :
  (forall d, Static.pagination self <> JDict d) ->
  Static.get_next_page_url self soup url st = (Raise AttributeError, st).
Proof.
  intros Hno. unfold Static.get_next_page_url.
  cbv [mbind M_bind mret M_ret lift].
  destruct (pagination_cases self) as [[d Hd]|[-> _]]; [|done].
  by destruct (Hno d).
Qed.

Lemma selector_argument_string v css :
  as_string v = Some css -> selector_argument v = Ok css.
Proof. destruct v; intros [= <-]. done. Qed.

(** A next selector that is a string comes from a [pagination] that is a
    dict. *)
Lemma next_selector_string self css :
  as_string (Static.next_selector self) = Some css ->
  exists d, Static.pagination self = JDict d.
Proof.
  intros Hcss.
  destruct (pagination_cases self) as [?|[_ Hnull]]; [done|].
  by rewrite Hnull in Hcss.
Qed.


(** The first match of the next selector has a non-empty [href]: the
    next URL is that [href] joined to the current URL. *)
Lemma get_next_page_url_href self soup url st css el rest href :
  truthy (Static.next_selector self) = true ->
  as_string (Static.next_selector self) = Some css ->
  select soup css = Ok (el :: rest) ->
  attr_get el "href" = Some (VStr href) ->
  href <> "" ->
  Static.get_next_page_url self soup url st = (Ok (Some (urljoin url href)), st).
Proof.
  intros Htruthy Hcss Hsel Hhref Hne.
  destruct (next_selector_string self css Hcss) as [d Hd].
  destruct (pagination_get_dict self d Hd) as [Hget Htpl].
  unfold Static.get_next_page_url.
  cbv [mbind M_bind mret M_ret lift raise logger emit select_one].
  rewrite Hget, Htpl, Htruthy, (selector_argument_string _ _ Hcss).
  rewrite Hsel. simpl. rewrite Hhref. simpl.
  by destruct (String.eqb_spec href "").
Qed.

(** One iteration of [while current_url:], by cases on what the [try]
    block does. *)
Lemma walk_step fuel self sels url st :
  url <> "" ->
  Static.walk env (S fuel) self sels (Some url) st =
    match Static.fetch_page env self url (logged INFO (Scraping url) st) with
    | (Raise e, st1) => (Ok Static.Failed, logged ERROR (ErrorScraping url e) st1)
    | (Ok soup, st1) =>
        match Static.extract_data soup sels with
        | Raise e => (Ok Static.Failed, logged ERROR (ErrorScraping url e) st1)
        | Ok data =>
            match Static.get_next_page_url self soup url
                    (extend_all_data data st1).2 with
            | (Raise e, st3) =>
                (Ok Static.Failed, logged ERROR (ErrorScraping url e) st3)
            | (Ok next, st3) => Static.walk env fuel self sels next st3
            end
        end
    end.
Proof.
  intros Hurl. simpl.
  destruct (String.eqb_spec url "") as [|_]; [done|].
  cbv [mbind M_bind mret M_ret try_except lift catch_all logged].
  cbn [logger emit fst snd].
  destruct (Static.fetch_page env self url _) as [[soup|e] st1]; [|done].
  destruct (Static.extract_data soup sels) as [data|e]; [|done].
  cbn [extend_all_data snd].
  by destruct (Static.get_next_page_url self soup url _) as [[next|e] st3].
Qed.

Lemma walk_stops fuel self sels url st :
  url = None \/ url = Some "" ->
  Static.walk env fuel self sels url st = (Ok Static.Done, st).
Proof. intros [->| ->]; by destruct fuel. Qed.

End Pagination.
Section Walking.
Context {node : Type} `{!Bs4 node} `{!UrlLib} (env : Env node).
Implicit Types (self : Static.t) (sels : selectors) (st : state).

(** One iteration, seen from outside: either it ends the walk in
    [Failed], having logged the exception, or a served page gave the next
    URL and the walk goes on from there. Either way the iteration starts
    with its "Scraping" record, and [all_data] only grows. *)
Lemma walk_iteration fuel self sels url st :
  url <> "" ->
  (exists e st' mid,
      Static.walk env (S fuel) self sels (Some url) st = (Ok Static.Failed, st')
      /\ trace st' = trace st ++ EvLog INFO (Scraping url) :: mid
                       ++ [EvLog ERROR (ErrorScraping url e)]
      /\ inner_events mid
      /\ exists more, all_data st' = all_data st ++ more)
  \/ (exists soup n ua next st2 st3 mid,
      http_get env n url ua = Ok soup
      /\ Static.get_next_page_url self soup url st2 = (Ok next, st3)
      /\ Static.walk env (S fuel) self sels (Some url) st
         = Static.walk env fuel self sels next st3
      /\ trace st3 = trace st ++ EvLog INFO (Scraping url) :: mid
      /\ inner_events mid
      /\ exists more, all_data st3 = all_data st ++ more).
Proof.
  intros Hurl. rewrite walk_step by done.
  destruct (static_fetch_page_frame env self url (logged INFO (Scraping url) st))
    as [Hd1 (new1 & Htr1 & Hin1)].
  destruct (Static.fetch_page env self url _) as [[soup|e] st1] eqn:Hfetch;
    cbn [snd] in Hd1, Htr1; rewrite logged_trace in Htr1;
    rewrite logged_all_data in Hd1.
  2: { left. eexists e, _, new1. split_and!; [done| |done|].
       - rewrite logged_trace, Htr1. by rewrite <- !app_assoc.
       - exists []. by rewrite logged_all_data, Hd1, app_nil_r. }
  destruct (Static.extract_data soup sels) as [data|e].
  2: { left. eexists e, _, new1. split_and!; [done| |done|].
       - rewrite logged_trace, Htr1. by rewrite <- !app_assoc.
       - exists []. by rewrite logged_all_data, Hd1, app_nil_r. }
  destruct (get_next_page_url_frame self soup url (extend_all_data data st1).2)
    as [Hd2 (new2 & Htr2 & Hin2)].
  destruct (Static.get_next_page_url self soup url _) as [[next|e] st3] eqn:Hnext;
    cbn [snd] in Hd2, Htr2;
    change (trace (extend_all_data data st1).2) with (trace st1) in Htr2;
    change (all_data (extend_all_data data st1).2) with (all_data st1 ++ data) in Hd2;
    rewrite Htr1 in Htr2; rewrite Hd1 in Hd2.
  - right. apply static_fetch_page_served in Hfetch as (n & ua & Hserved).
    eexists soup, n, ua, next, _, st3, (new1 ++ new2).
    split_and!; [done..| | |by eexists].
    + rewrite Htr2. by rewrite <- !app_assoc.
    + by apply inner_events_app.
  - left. eexists e, _, (new1 ++ new2). split_and!; [done| | |].
    + rewrite logged_trace, Htr2. by rewrite <- !app_assoc.
    + by apply inner_events_app.
    + exists data. by rewrite logged_all_data.
Qed.

(** The walk of a path never raises; it starts with the path's own
    "Scraping" record, and [all_data] only grows. *)
Lemma walk_total self sels : forall fuel url st,
  exists status st' new,
    Static.walk env fuel self sels url st = (Ok status, st')
    /\ trace st' = trace st ++ new
    /\ (exists more, all_data st' = all_data st ++ more)
    /\ (forall u, url = Some u -> u <> "" -> 0 < fuel ->
          exists new', new = EvLog INFO (Scraping u) :: new').
Proof.
  induction fuel as [|fuel IH]; intros url st.
  all: destruct url as [u|]; [destruct (decide (u = "")) as [->|Hne]|].
  all: try (exists Static.Done, st, []; split_and!;
            [by apply walk_stops; auto|by rewrite app_nil_r
            |exists []; by rewrite app_nil_r|intros; simplify_eq]).
  - exists Static.Running, st, []. split_and!.
    + simpl. by destruct (String.eqb_spec u "").
    + by rewrite app_nil_r.
    + exists []. by rewrite app_nil_r.
    + intros; lia.
  - destruct (walk_iteration fuel self sels u st Hne)
      as [(e & st' & mid & Hrun & Htr & _ & Hdata)
         |(soup & n & ua & next & st2 & st3 & mid & _ & _ & Hrun & Htr & _ & [more Hdata])].
    + eexists Static.Failed, st', _. split_and!; [done..|].
      intros u' [= <-] _ _. by eexists.
    + destruct (IH next st3) as (status & st' & new & Hrun' & Htr' & [more' Hdata'] & _).
      exists status, st', (EvLog INFO (Scraping u) :: mid ++ new). split_and!.
      * by rewrite Hrun.
      * rewrite Htr', Htr. by rewrite <- app_assoc.
      * exists (more ++ more'). by rewrite Hdata', Hdata, app_assoc.
      * intros u' [= <-] _ _. by eexists.
Qed.


End Walking.

(* ===================================================================== *)
(** * The pagination walk and the session *)
(* ===================================================================== *)

Section Sessions.
Context {node : Type} `{!Bs4 node} `{!UrlLib} (env : Env node).
Implicit Types (self : Static.t) (sels : selectors) (st : state).

Lemma fetched_scraping u t : fetched (EvLog INFO (Scraping u) :: t) = u :: fetched t.
Proof. reflexivity. Qed.

Lemma scrape_errors_scraping u t :
  scrape_errors (EvLog INFO (Scraping u) :: t) = scrape_errors t.
Proof. reflexivity. Qed.

Lemma walk_acyclic_aux self sels (rank : string -> nat) :
  (forall n url ua soup st next st',
      http_get env n url ua = Ok soup ->
      Static.get_next_page_url self soup url st = (Ok (Some next), st') ->
      rank next < rank url) ->
  forall fuel url st,
    match url with Some u => rank u < fuel | None => True end ->
    exists status st' new,
      Static.walk env fuel self sels url st = (Ok status, st')
      /\ trace st' = trace st ++ new
      /\ NoDup (fetched new)
      /\ Forall (fun u' => exists u, url = Some u /\ rank u' <= rank u) (fetched new)
      /\ ((status = Static.Done /\ scrape_errors new = [])
          \/ (status = Static.Failed /\ exists u e, scrape_errors new = [(u, e)])).
Proof.
  intros Hrank. induction fuel as [|fuel IH]; intros url st Hfuel.
  all: destruct url as [u|]; [destruct (decide (u = "")) as [->|Hne]|].
  all: try (exists Static.Done, st, []; split_and!;
            [by apply walk_stops; auto|by rewrite app_nil_r
            |constructor|constructor|by left]).
  { lia. }
  destruct (walk_iteration env fuel self sels u st Hne)
    as [(e & st' & mid & Hrun & Htr & [Hf He] & _)
       |(soup & n & ua & next & st2 & st3 & mid & Hget & Hnext & Hrun & Htr & [Hf He] & _)].
  - exists Static.Failed, st',
      (EvLog INFO (Scraping u) :: mid ++ [EvLog ERROR (ErrorScraping u e)]).
    split_and!; [done..| | |].
    + rewrite fetched_scraping, fetched_app, Hf. simpl. apply NoDup_singleton.
    + rewrite fetched_scraping, fetched_app, Hf. simpl.
      constructor; [|constructor]. by exists u.
    + right. split; [done|]. exists u, e.
      by rewrite scrape_errors_scraping, scrape_errors_app, He.
  - destruct (IH next st3) as (status & st' & new & Hrun' & Htr' & Hnd & Hall & Hstatus).
    { destruct next as [u'|]; [|done].
      specialize (Hrank _ _ _ _ _ _ _ Hget Hnext). lia. }
    exists status, st', (EvLog INFO (Scraping u) :: mid ++ new). split_and!.
    + by rewrite Hrun.
    + rewrite Htr', Htr. by rewrite <- app_assoc.
    + rewrite fetched_scraping, fetched_app, Hf. simpl.
      apply NoDup_cons. split; [|done].
      intros Hin. rewrite Forall_forall in Hall.
      destruct (Hall _ Hin) as (u' & -> & Hle).
      specialize (Hrank _ _ _ _ _ _ _ Hget Hnext). lia.
    + rewrite fetched_scraping, fetched_app, Hf. simpl.
      constructor; [by exists u|].
      eapply Forall_impl; [exact Hall|]. simpl.
      intros u1 (u' & -> & Hle). exists u. split; [done|].
      specialize (Hrank _ _ _ _ _ _ _ Hget Hnext). lia.
    + by rewrite scrape_errors_scraping, scrape_errors_app, He.
Qed.

(** C4, as the code has it. The loop has no cycle detection: it follows
    the next links as the pages give them. When the links are acyclic
    (some rank of the URL decreases along every next link a served page
    yields), a run of enough iterations fetches no URL twice and
    terminates; it ends in [Done], when the derived next URL is absent or
    empty, with no exception caught, or in [Failed], when the fetch, the
    extraction or the next-link lookup of a page raised, with that one
    exception logged. *)
Theorem walk_acyclic_no_revisit self sels (rank : string -> nat) :
  (forall n url ua soup st next st',
      http_get env n url ua = Ok soup ->
      Static.get_next_page_url self soup url st = (Ok (Some next), st') ->
      rank next < rank url) ->
  forall fuel url st,
    rank url < fuel ->
    exists status st' new,
      Static.walk env fuel self sels (Some url) st = (Ok status, st')
      /\ trace st' = trace st ++ new
      /\ NoDup (fetched new)
      /\ ((status = Static.Done /\ scrape_errors new = [])
          \/ (status = Static.Failed
              /\ exists u e, scrape_errors new = [(u, e)])).
Proof.
  intros Hrank fuel url st Hfuel.
  destruct (walk_acyclic_aux self sels rank Hrank fuel (Some url) st Hfuel)
    as (status & st' & new & Hrun & Htr & Hnd & _ & Hstatus).
  by exists status, st', new.
Qed.






End Sessions.

(** C10. When [rate_limit.delay_seconds] is 0, or any other value Python
    takes for false, or is missing, the scraper's delay is the default
    1.0, in all three scrapers; and whatever the configuration, the delay
    of a scraper is never a value Python takes for false, so never 0. *)
Theorem falsy_delay_defaults_to_one (config : ConfigLoader.t) :
  truthy (ConfigLoader.get_nested config ["rate_limit"; "delay_seconds"]) = false ->
  (Static.delay_seconds (Static.init config) = JFloat 1
   /\ Async.delay_seconds (Async.init config) = JFloat 1
   /\ JS.delay_seconds (JS.init config) = JFloat 1)
  /\ (forall config' : ConfigLoader.t,
        truthy (Static.delay_seconds (Static.init config')) = true
        /\ truthy (Async.delay_seconds (Async.init config')) = true
        /\ truthy (JS.delay_seconds (JS.init config')) = true).
Proof.
  intros Hfalsy. split.
  - simpl. unfold py_or. by rewrite Hfalsy.
  - intros config'. simpl. unfold py_or.
    by destruct (truthy (ConfigLoader.get_nested config' _)) eqn:Htruthy.
Qed.

Lemma falsy_delay_defaults_to_one_witness :
  let config := Sample.sample_config ["/"] Sample.title_selectors
                  (JDict [("delay_seconds", JInt 0); ("jitter", JBool false)]) [] in
  as_number (ConfigLoader.get_nested config ["rate_limit"; "delay_seconds"]) = Some 0%Q
  /\ Static.delay_seconds (Static.init config) = JFloat 1
  /\ Async.delay_seconds (Async.init config) = JFloat 1
  /\ JS.delay_seconds (JS.init config) = JFloat 1.
Proof.
  cbv zeta. split; [reflexivity|].
  apply (falsy_delay_defaults_to_one
           (Sample.sample_config ["/"] Sample.title_selectors
              (JDict [("delay_seconds", JInt 0); ("jitter", JBool false)]) [])).
  reflexivity.
Defined.

(** Other values Python takes for false, and a missing key. *)
Example delay_of_falsy_values :
  Forall (fun v => Static.delay_seconds
                     (Static.init (Sample.sample_config ["/"] Sample.title_selectors
                                     (JDict [("delay_seconds", v)]) []))
                   = JFloat 1)
         [JInt 0; JFloat 0; JNull; JBool false; JStr ""; JList []; JDict []]
  /\ Static.delay_seconds
       (Static.init (Sample.sample_config ["/"] Sample.title_selectors (JDict []) []))
     = JFloat 1
  /\ Static.delay_seconds
       (Static.init (Sample.sample_config ["/"] Sample.title_selectors
                       (JDict [("delay_seconds", JFloat (1 # 4))]) []))
     = JFloat (1 # 4).
Proof. split_and!; [repeat constructor|reflexivity..]. Qed.

(** A run over the acyclic site: two pages, each fetched once. *)
Example walk_two_pages :
  let self := Sample.scraper ["/"] Sample.title_selectors in
  let run := Static.scrape Sample.acyclic_world 5 self (Static.initial_state self) in
  run.1 = Ok ([Static.Done],
              [ {[ "title" := VStr "One" ]}; {[ "title" := VStr "Two" ]} ])
  /\ fetched (trace run.2) = ["https://example.com/"; "https://example.com/page2"].
Proof. cbv zeta. split; reflexivity. Qed.

Lemma walk_acyclic_no_revisit_witness :
  let self := Sample.scraper ["/"] Sample.title_selectors in
  exists status st' new,
    Static.walk Sample.acyclic_world 2 self Sample.title_schema
      (Some "https://example.com/") (Static.initial_state self) = (Ok status, st')
    /\ trace st' = trace (Static.initial_state self) ++ new
    /\ NoDup (fetched new)
    /\ ((status = Static.Done /\ scrape_errors new = [])
        \/ (status = Static.Failed /\ exists u e, scrape_errors new = [(u, e)])).
Proof.
  cbv zeta.
  apply (walk_acyclic_no_revisit Sample.acyclic_world
           (Sample.scraper ["/"] Sample.title_selectors) Sample.title_schema
           Sample.pages_after).
  - intros n url ua soup st next st' Hget Hnext.
    change (Sample.acyclic_site n url ua = Ok soup) in Hget.
    unfold Sample.acyclic_site in Hget.
    destruct (String.eqb_spec url "https://example.com/") as [->|_].
    + injection Hget as <-. vm_compute in Hnext. injection Hnext as <- _.
      vm_compute. lia.
    + destruct (String.eqb_spec url "https://example.com/page2") as [->|_];
        [|discriminate].
      injection Hget as <-. vm_compute in Hnext. discriminate.
  - vm_compute. lia.
Defined.

(** C4 does not hold as stated. A page whose next link leads back to
    itself is fetched again on every iteration, for as long as the loop is
    let run; and the loop of a path whose fetch fails ends at once, in
    [Failed], no next URL having been derived. *)
Lemma walk_revisits_counterexample :
  (let self := Sample.scraper ["/loop"] Sample.title_selectors in
   let run := Sample.run_scrape 3 self in
   run.1 = Ok ([Static.Running],
               [ {[ "title" := VStr "Again" ]}; {[ "title" := VStr "Again" ]};
                 {[ "title" := VStr "Again" ]} ])
   /\ fetched (trace run.2)
      = ["https://example.com/loop"; "https://example.com/loop";
         "https://example.com/loop"]
   /\ gets (trace run.2)
      = ["https://example.com/loop"; "https://example.com/loop";
         "https://example.com/loop"])
  /\ (let self := Sample.scraper ["/down"] Sample.title_selectors in
      let run := Sample.run_scrape 3 self in
      run.1 = Ok ([Static.Failed], [])
      /\ fetched (trace run.2) = ["https://example.com/down"]).
Proof. cbv zeta. split_and!; vm_compute; reflexivity. Qed.

(** However long the loop is let run on the self-linking page, it is still
    running, and every iteration fetched the same URL. *)
Lemma walk_loop_never_ends fuel st :
  let self := Sample.scraper ["/loop"] Sample.title_selectors in
  exists st' new,
    Static.walk Sample.world fuel self Sample.title_schema
      (Some "https://example.com/loop") st = (Ok Static.Running, st')
    /\ trace st' = trace st ++ new
    /\ fetched new = replicate fuel "https://example.com/loop".
Proof.
  cbv zeta. revert st. induction fuel as [|fuel IH]; intros st.
  - exists st, []. by rewrite app_nil_r.
  - set (self := Sample.scraper ["/loop"] Sample.title_selectors) in *.
    set (url := "https://example.com/loop") in *.
    assert (Hfetch : (Static.fetch_page Sample.world self url
                        (logged INFO (Scraping url) st)).1 = Ok Sample.loop_page)
      by reflexivity.
    assert (Hdata : Static.extract_data Sample.loop_page Sample.title_schema
                    = Ok [ {[ "title" := VStr "Again" ]} ]) by reflexivity.
    destruct (static_fetch_page_frame Sample.world self url
                (logged INFO (Scraping url) st))
      as [_ (new1 & Htr1 & [Hf1 _])].
    rewrite walk_step by done.
    destruct (Static.fetch_page Sample.world self url _) as [r st1].
    simpl in Hfetch. subst r. rewrite Hdata.
    rewrite (get_next_page_url_href self Sample.loop_page url _ ".next"
               (Sample.Tag "a" ["next"] [("href", "/loop")] "next" []) [] "/loop")
      by done.
    change (urljoin url "/loop") with url.
    match goal with
    | |- context [Static.walk _ fuel self _ _ ?s] =>
        destruct (IH s) as (st' & new & Hrun & Htr & Hfetched)
    end.
    exists st', (EvLog INFO (Scraping url) :: new1 ++ new).
    split_and!; [done| |].
    + rewrite Htr. cbn [extend_all_data snd trace] in *. rewrite Htr1, logged_trace.
      by rewrite <- !app_assoc.
    + by rewrite fetched_scraping, fetched_app, Hf1, Hfetched.
Qed.



(** A delay too large for [time.sleep]: every attempt raises
    [OverflowError] at the sleep, and no request is made. *)
Example fetch_with_a_huge_delay :
  let config := Sample.sample_config ["/"] Sample.title_selectors
                  (JDict [("delay_seconds", JInt (10 ^ 30))]) [] in
  let self := Static.init config in
  let run := Static.fetch_page Sample.world self "https://example.com/"
               (Static.initial_state self) in
  run.1 = Raise (RetryError OverflowError)
  /\ trace run.2 = [EvSleep Backoff 4; EvSleep Backoff 4].
Proof. cbv zeta. split; vm_compute; reflexivity. Qed.

(** A [pagination] that is not a dict: the page is fetched and its
    records are kept, [pagination.get] raises, and the walk ends in
    [Failed]. *)
Example walk_with_a_null_pagination :
  let config := [("base_url", JStr "https://example.com");
                 ("start_paths", JList [JStr "/page2"]);
                 ("selectors", Sample.title_selectors);
                 ("pagination", JNull)] in
  let run := Sample.run_scrape 3 (Static.init config) in
  run.1 = Ok ([Static.Failed], [ {[ "title" := VStr "Two" ]} ])
  /\ scrape_errors (trace run.2)
     = [("https://example.com/page2", AttributeError)].
Proof. cbv zeta. split; vm_compute; reflexivity. Qed.

(** The next link of the first page, joined to the page's URL. *)
Example next_url_of_page1 :
  Static.get_next_page_url (Sample.scraper ["/"] Sample.title_selectors)
    Sample.page1 "https://example.com/" (mk_state [] 0 0 None [])
  = (Ok (Some "https://example.com/page2"), mk_state [] 0 0 None []).
Proof. reflexivity. Qed.

(** A next link with an empty [href] counts as no next link. *)
Example next_url_of_empty_href :
  Static.get_next_page_url (Sample.scraper ["/"] Sample.title_selectors)
    Sample.empty_href_page "https://example.com/" (mk_state [] 0 0 None [])
  = (Ok None, mk_state [] 0 0 None []).
Proof. reflexivity. Qed.


(** The session of the witness, run: the failed path costs nothing but
    itself. *)
Example scrape_with_a_failed_path :
  let self := Sample.scraper ["/down"; "/page2"] Sample.title_selectors in
  let run := Sample.run_scrape 3 self in
  run.1 = Ok ([Static.Failed; Static.Done], [ {[ "title" := VStr "Two" ]} ])
  /\ scrape_errors (trace run.2)
     = [("https://example.com/down", RetryError Sample.down)].
Proof. cbv zeta. split; reflexivity. Qed.

(* ===================================================================== *)
(** * Further properties of the scrapers *)
(* ===================================================================== *)

#[local] Set Warnings "-clear-no-such-hyp".

Section RecordKeys.
Context {node : Type} `{!Bs4 node}.
Implicit Types (element : node) (d : record)
  (fs : list (string * field_selector)).

Lemma static_extract_field_dom element name sel d d' :
  Static.extract_field element name sel d = Ok d' ->
  dom d' = dom d ∪ list_to_set (written_fields [(name, sel)]).
Proof.
  intros Hrun. destruct sel as [css|attr css|]; simpl in Hrun.
  - apply result_bind_ok in Hrun as (els & _ & Hrun).
    destruct els as [|e0 rest]; [|destruct (1 <? _)%nat];
      injection Hrun as <-; rewrite dom_insert_L; set_solver.
  - apply result_bind_ok in Hrun as (els & _ & Hrun).
    destruct els as [|e0 rest]; [|destruct (String.eqb _ _)];
      injection Hrun as <-; rewrite dom_insert_L; set_solver.
  - injection Hrun as <-. set_solver.
Qed.

Lemma written_fields_cons name sel fs :
  written_fields ((name, sel) :: fs)
  = written_fields [(name, sel)] ++ written_fields fs.
Proof. unfold written_fields. simpl. by destruct (selector_css sel). Qed.

Lemma static_extract_fields_dom element fs : forall d d',
  Static.extract_fields element fs d = Ok d' ->
  dom d' = dom d ∪ list_to_set (written_fields fs).
Proof.
  induction fs as [|[name sel] fs IH]; intros d d' Hrun.
  - injection Hrun as <-. set_solver.
  - simpl in Hrun. apply result_bind_ok in Hrun as (d1 & H1 & Hrest).
    rewrite (IH _ _ Hrest), (static_extract_field_dom _ _ _ _ _ H1).
    rewrite (written_fields_cons name sel fs), list_to_set_app_L.
    by rewrite (assoc_L (∪)).
Qed.

Lemma static_extract_items_dom fs : forall elements items records,
  Static.extract_items elements fs items = Ok records ->
  Forall (fun r : record => dom r = list_to_set (written_fields fs)) items ->
  Forall (fun r : record => dom r = list_to_set (written_fields fs)) records.
Proof.
  induction elements as [|element elements IH]; intros items records Hrun Hitems.
  - by injection Hrun as <-.
  - simpl in Hrun. apply result_bind_ok in Hrun as (r & Hr & Hrest).
    apply (IH _ _ Hrest). apply Forall_app. split; [done|].
    constructor; [|done].
    rewrite (static_extract_fields_dom _ _ _ _ Hr). set_solver.
Qed.

(** X1. The keys of every record [StaticScraper.extract_data] returns
    are the names of the schema's string and dict selectors, whatever the
    page holds: all the records of a schema have the same keys. *)
Theorem static_record_keys soup (schema : selectors) records :
  Static.extract_data soup schema = Ok records ->
  Forall (fun r : record =>
            dom r = list_to_set (written_fields (fields schema))) records.
Proof.
  unfold Static.extract_data. intros Hrun.
  apply result_bind_ok in Hrun as (elements & _ & Hrun).
  by eapply static_extract_items_dom.
Qed.

End RecordKeys.

Lemma static_record_keys_witness :
  Forall (fun r : record => dom r = {[ "url"; "label" ]})
    [ ({[ "url" := VStr "/detail/1"; "label" := VStr "first" ]} : record);
      {[ "url" := VStr ""; "label" := VStr "second" ]} ].
Proof.
  eapply Forall_impl.
  - apply (static_record_keys Sample.links Sample.link_schema). reflexivity.
  - intros r ->. simpl. set_solver.
Defined.

Lemma requests_of_app t1 t2 :
  requests_of (t1 ++ t2) = requests_of t1 ++ requests_of t2.
Proof. apply omap_app. Qed.

Lemma random_choice_in (k : nat) (l : list string) :
  l <> [] -> nth (k `mod` length l) l "" ∈ l.
Proof.
  intros Hne. apply list_elem_of_In, nth_In, Nat.mod_upper_bound.
  by destruct l.
Qed.

Section RetryInvariant.
Context {node : Type} (wait : nat -> Q) (body : M node).

(** The retry loop, with an invariant of the state the waits do not
    touch. *)
Lemma retry_loop_trace_inv (I : state -> Prop) (P : list event -> Prop) :
  P [] ->
  (forall t1 t2, P t1 -> P t2 -> P (t1 ++ t2)) ->
  (forall d, P [EvSleep Backoff d]) ->
  (forall st d, I st -> I (emit (EvSleep Backoff d) st).2) ->
  (forall st, I st ->
     I (body st).2
     /\ exists new, trace (body st).2 = trace st ++ new /\ P new) ->
  forall remaining n st,
    I st ->
    exists new,
      trace (retry_loop remaining n wait body st).2 = trace st ++ new /\ P new.
Proof.
  intros Hnil Happ Hwait Hemit Hbody.
  induction remaining as [|remaining IH]; intros n st Hst; simpl;
    destruct (Hbody st Hst) as (Hst1 & new & Hnew & HP);
    destruct (body st) as [[soup|e] st1]; simpl in *; eauto.
  match goal with
  | |- context [retry_loop remaining ?m wait body ?s] =>
      destruct (IH m s) as (new' & Hnew' & HP')
  end.
  { apply (Hemit st1 (wait n) Hst1). }
  exists (new ++ [EvSleep Backoff (wait n)] ++ new'). split.
  - rewrite Hnew'. simpl. rewrite Hnew. by rewrite <- !app_assoc.
  - auto.
Qed.

(** Attempts of at most one request each: the loop makes at most as many
    requests as it has attempts, and waits once less. *)
Lemma retry_loop_count :
  (forall st, exists new,
     trace (body st).2 = trace st ++ new
     /\ length (gets new) <= 1 /\ backoffs new = []) ->
  forall remaining n st,
    exists new,
      trace (retry_loop remaining n wait body st).2 = trace st ++ new
      /\ length (gets new) <= S remaining
      /\ length (backoffs new) <= remaining.
Proof.
  intros Hbody.
  induction remaining as [|remaining IH]; intros n st; simpl;
    destruct (Hbody st) as (new & Hnew & Hg & Hb);
    destruct (body st) as [[soup|e] st1]; simpl in *.
  1-3: exists new; rewrite Hb; simpl; split_and!; [done|lia|lia].
  match goal with
  | |- context [retry_loop remaining ?m wait body ?s] =>
      destruct (IH m s) as (new' & Hnew' & Hg' & Hb')
  end.
  exists (new ++ [EvSleep Backoff (wait n)] ++ new'). split_and!.
  - rewrite Hnew'. simpl. rewrite Hnew. by rewrite <- !app_assoc.
  - rewrite !gets_app, !length_app. simpl. lia.
  - rewrite !backoffs_app, !length_app, Hb. simpl. lia.
Qed.

End RetryInvariant.

Section Requests.
Context {node : Type} `{!Bs4 node} `{!UrlLib} (env : Env node).

(** X2. One call of [fetch_page] issues at most three requests and waits
    at most twice in between, whatever the transport answers, in the
    static and in the concurrent scraper. *)
Theorem fetch_page_at_most_three_requests (static : Static.t) (async : Async.t)
    url st :
  (exists new,
     trace (Static.fetch_page env static url st).2 = trace st ++ new
     /\ length (gets new) <= 3 /\ length (backoffs new) <= 2)
  /\ (exists new,
        trace (Async.fetch_page env async url st).2 = trace st ++ new
        /\ length (gets new) <= 3 /\ length (backoffs new) <= 2).
Proof.
  split; apply retry_loop_count; intros st0.
  - destruct (static_attempt_cases env static url st0)
      as [(e & st' & Hrun & _ & _ & Htr & _)
         |(st' & ua & d & tail & Hrun & _ & _ & Htr & Hg & Hb & _)];
      rewrite Hrun; simpl; rewrite Htr.
    + exists []. rewrite app_nil_r. simpl. split_and!; [done|lia|done].
    + exists (EvSleep RateLimit d :: EvGet url ua :: tail).
      rewrite gets_attempt, backoffs_attempt, Hg, Hb. simpl. split_and!; [done|lia|done].
  - destruct (async_attempt_cases env async url st0)
      as [(e & st' & Hrun & _ & Htr & _)
         |(st' & ua & d & tail & Hrun & _ & Htr & Hg & Hb & _)];
      rewrite Hrun; simpl; rewrite Htr.
    + exists []. rewrite app_nil_r. simpl. split_and!; [done|lia|done].
    + exists (EvSleep RateLimit d :: EvGet url ua :: tail).
      rewrite gets_attempt, backoffs_attempt, Hg, Hb. simpl. split_and!; [done|lia|done].
Qed.

Lemma static_attempt_user_agent self url st :
  (Static.user_agents self = [] ->
   session_ua (Static.fetch_page_attempt env self url st).2 = session_ua st)
  /\ exists new,
       trace (Static.fetch_page_attempt env self url st).2 = trace st ++ new
       /\ Forall (fun p => p.1 = url
                           /\ match Static.user_agents self with
                              | [] => p.2 = session_ua st
                              | l => exists a, p.2 = Some a /\ a ∈ l
                              end) (requests_of new).
Proof.
  unfold Static.fetch_page_attempt.
  destruct (Static.user_agents self) as [|ua0 uas] eqn:Huas;
    destruct (truthy (Static.jitter self));
    destruct (as_number (Static.delay_seconds self)) as [base|] eqn:Hnum;
    run_attempt; rewrite ?Hnum; cbv beta iota delta [as_number]; run_attempt.
  all: try (split; [done|]; exists []; split; [by rewrite app_nil_r|constructor]).
  all: match goal with
       | |- context [fits_time_t ?d] => destruct (fits_time_t d)
       end; run_attempt.
  all: try (split; [done|]; exists []; split; [by rewrite app_nil_r|constructor]).
  all: match goal with
       | |- context [Qle_bool 0 ?d] => destruct (Qle_bool 0 d)
       end; run_attempt.
  all: try (split; [done|]; exists []; split; [by rewrite app_nil_r|constructor]).
  all: match goal with
       | |- context [http_get _ ?n ?u ?ua] =>
           destruct (http_get env n u ua) as [soup|e];
           [|destruct (is_request_exception e)]
       end; run_attempt.
  all: split; [done|]; eexists; split; [by rewrite <- ?app_assoc|].
  all: constructor; [split; [done|]; cbn [fst snd]|constructor].
  all: try done.
  all: eexists; split; [reflexivity|]; by apply random_choice_in.
Qed.

Lemma async_attempt_user_agent self url st :
  exists new,
    trace (Async.fetch_page_attempt env self url st).2 = trace st ++ new
    /\ Forall (fun p => p.1 = url
                        /\ match Async.user_agents self with
                           | [] => p.2 = None
                           | l => exists a, p.2 = Some a /\ a ∈ l
                           end) (requests_of new).
Proof.
  unfold Async.fetch_page_attempt.
  destruct (Async.user_agents self) as [|ua0 uas] eqn:Huas;
    destruct (truthy (Async.jitter self));
    destruct (as_number (Async.delay_seconds self)) as [base|] eqn:Hnum;
    run_attempt; rewrite ?Hnum; cbv beta iota delta [as_number]; run_attempt.
  all: try (exists []; split; [by rewrite app_nil_r|constructor]).
  all: match goal with
       | |- context [http_get _ ?n ?u ?ua] =>
           destruct (http_get env n u ua) as [soup|e];
           [|destruct (is_client_error e)]
       end; run_attempt.
  all: eexists; split; [by rewrite <- ?app_assoc|].
  all: constructor; [split; [done|]; cbn [fst snd]|constructor].
  all: try done.
  all: eexists; split; [reflexivity|]; by apply random_choice_in.
Qed.

(** X3. Every request of [fetch_page] goes to the URL asked for. When
    user agents are configured, its User-Agent header is one of them, in
    both scrapers; when none is, the static scraper leaves the header of
    its session as it is and the concurrent scraper sends none. *)
Theorem fetch_page_user_agents (static : Static.t) (async : Async.t) url st :
  (exists new,
     trace (Static.fetch_page env static url st).2 = trace st ++ new
     /\ Forall (fun p => p.1 = url
                         /\ match Static.user_agents static with
                            | [] => p.2 = session_ua st
                            | l => exists a, p.2 = Some a /\ a ∈ l
                            end) (requests_of new))
  /\ (exists new,
        trace (Async.fetch_page env async url st).2 = trace st ++ new
        /\ Forall (fun p => p.1 = url
                            /\ match Async.user_agents async with
                               | [] => p.2 = None
                               | l => exists a, p.2 = Some a /\ a ∈ l
                               end) (requests_of new)).
Proof.
  split.
  - apply (retry_loop_trace_inv _ _
             (fun st0 => Static.user_agents static = [] ->
                         session_ua st0 = session_ua st)).
    + constructor.
    + intros t1 t2 H1 H2. rewrite requests_of_app. by apply Forall_app.
    + intros d. constructor.
    + done.
    + intros st0 Hst0.
      destruct (static_attempt_user_agent static url st0) as [Hua (new & Htr & Hall)].
      split.
      * intros Hnone. rewrite Hua by done. by apply Hst0.
      * exists new. split; [done|]. eapply Forall_impl; [exact Hall|].
        intros [u ua] [Hu Hagent]. split; [done|].
        destruct (Static.user_agents static); [|done].
        simpl in *. rewrite Hagent. by apply Hst0.
    + done.
  - apply retry_loop_trace.
    + constructor.
    + intros t1 t2 H1 H2. rewrite requests_of_app. by apply Forall_app.
    + intros d. constructor.
    + intros st0. apply async_attempt_user_agent.
Qed.

End Requests.

Section NextPage.
Context {node : Type} `{!Bs4 node} `{!UrlLib} (env : Env node).

(** X4. [get_next_page_url] gives a next URL only from the first match of
    the next selector: that element carries a non-empty string [href],
    and the URL is it joined to the current URL. Later matches and the
    URL template never yield one. *)
Theorem next_url_only_from_first_match (self : Static.t) soup url st next st' :
  Static.get_next_page_url self soup url st = (Ok (Some next), st') ->
  st' = st
  /\ exists css el rest href,
       as_string (Static.next_selector self) = Some css
       /\ select soup css = Ok (el :: rest)
       /\ attr_get el "href" = Some (VStr href)
       /\ href <> ""
       /\ next = urljoin url href.
Proof.
  unfold Static.get_next_page_url.
  cbv [mbind M_bind mret M_ret lift raise logger emit select_one].
  destruct (pagination_cases self) as [[d Hd]|[-> _]]; [|done].
  destruct (pagination_get_dict self d Hd) as [-> ->].
  destruct (truthy (Static.next_selector self)).
  2: { by destruct (truthy (Static.next_url_template self)). }
  destruct (Static.next_selector self) as [| | | |css| |]; try done.
  simpl. destruct (select soup css) as [[|el rest]|e] eqn:Hsel; simpl.
  1,3: by destruct (truthy (Static.next_url_template self)).
  destruct (attr_get el "href") as [[href|l|]|] eqn:Hhref; simpl.
  - destruct (String.eqb_spec href "") as [->|Hne]; simpl.
    + by destruct (truthy (Static.next_url_template self)).
    + intros [= <- <-]. split; [done|]. by exists css, el, rest, href.
  - destruct l; simpl; [|done].
    by destruct (truthy (Static.next_url_template self)).
  - by destruct (truthy (Static.next_url_template self)).
  - by destruct (truthy (Static.next_url_template self)).
Qed.

(** X5. When a page was fetched and its records extracted, but looking
    for the next link raises, the walk of the path ends there with the
    error logged, and the records of that page are kept in [all_data]. *)
Theorem records_kept_when_next_link_fails fuel (self : Static.t) sels url st
    soup st1 data css e :
  url <> "" ->
  Static.fetch_page env self url (logged INFO (Scraping url) st) = (Ok soup, st1) ->
  Static.extract_data soup sels = Ok data ->
  truthy (Static.next_selector self) = true ->
  as_string (Static.next_selector self) = Some css ->
  select soup css = Raise e ->
  exists st',
    Static.walk env (S fuel) self sels (Some url) st = (Ok Static.Failed, st')
    /\ all_data st' = all_data st ++ data
    /\ exists before, trace st' = before ++ [EvLog ERROR (ErrorScraping url e)].
Proof.
  intros Hurl Hfetch Hdata Htruthy Hcss Hsel.
  rewrite walk_step by done. rewrite Hfetch, Hdata.
  destruct (static_fetch_page_frame env self url (logged INFO (Scraping url) st))
    as [Hd1 _].
  rewrite Hfetch in Hd1. cbn [snd] in Hd1. rewrite logged_all_data in Hd1.
  destruct (next_selector_string self css Hcss) as [d Hd].
  destruct (pagination_get_dict self d Hd) as [Hget Htpl].
  unfold Static.get_next_page_url.
  cbv [mbind M_bind mret M_ret lift raise logger emit select_one].
  rewrite Hget, Htpl, Htruthy, (selector_argument_string _ _ Hcss).
  rewrite Hsel. simpl.
  eexists. split_and!; [reflexivity| |].
  - rewrite logged_all_data. simpl. by rewrite Hd1.
  - rewrite logged_trace. by eexists.
Qed.

End NextPage.

Lemma next_url_only_from_first_match_witness :
  exists css el rest href,
    as_string (Static.next_selector (Sample.scraper ["/"] Sample.title_selectors))
    = Some css
    /\ select Sample.page1 css = Ok (el :: rest)
    /\ attr_get el "href" = Some (VStr href)
    /\ href <> ""
    /\ "https://example.com/page2" = urljoin "https://example.com/" href.
Proof.
  apply (next_url_only_from_first_match
           (Sample.scraper ["/"] Sample.title_selectors) Sample.page1
           "https://example.com/" (mk_state [] 0 0 None [])
           "https://example.com/page2" (mk_state [] 0 0 None [])).
  reflexivity.
Defined.

Lemma records_kept_when_next_link_fails_witness :
  exists st',
    Static.walk Sample.world 1 Cases.bad_next_scraper Sample.title_schema
      (Some "https://example.com/page2") (mk_state [] 0 0 None [])
    = (Ok Static.Failed, st')
    /\ all_data st' = [] ++ [ {[ "title" := VStr "Two" ]} ]
    /\ exists before,
         trace st' = before ++ [EvLog ERROR
                                  (ErrorScraping "https://example.com/page2"
                                     (SelectorSyntaxError "a["))].
Proof.
  apply (records_kept_when_next_link_fails Sample.world 0 Cases.bad_next_scraper
           Sample.title_schema "https://example.com/page2"
           (mk_state [] 0 0 None []) Sample.page2
           (Static.fetch_page Sample.world Cases.bad_next_scraper
              "https://example.com/page2"
              (logged INFO (Scraping "https://example.com/page2")
                 (mk_state [] 0 0 None []))).2
           [ {[ "title" := VStr "Two" ]} ] "a[" (SelectorSyntaxError "a[")).
  - discriminate.
  - vm_compute. reflexivity.
  - reflexivity.
  - reflexivity.
  - reflexivity.
  - reflexivity.
Defined.

Section JsRecordKeys.
Context {page elem : Type} `{!WebDriver page elem}.
Implicit Types (element : elem) (d : record)
  (fs : list (string * field_selector)).

Lemma js_try_field_dom element name sel d d' :
  JS.try_field element name sel d = Ok d' ->
  dom d' = dom d ∪ list_to_set (written_fields [(name, sel)]).
Proof.
  intros Hrun. destruct sel as [css|attr css|]; simpl in Hrun.
  - apply result_bind_ok in Hrun as (els & _ & Hrun).
    destruct els as [|e0 rest]; [|destruct (1 <? _)%nat].
    + injection Hrun as <-. rewrite dom_insert_L. set_solver.
    + apply result_bind_ok in Hrun as (ts & _ & Hrun).
      injection Hrun as <-. rewrite dom_insert_L. set_solver.
    + apply result_bind_ok in Hrun as (ts & _ & Hrun).
      injection Hrun as <-. rewrite dom_insert_L. set_solver.
  - apply result_bind_ok in Hrun as (els & _ & Hrun).
    destruct els as [|e0 rest]; [|destruct (String.eqb _ _)].
    + injection Hrun as <-. rewrite dom_insert_L. set_solver.
    + apply result_bind_ok in Hrun as (ts & _ & Hrun).
      injection Hrun as <-. rewrite dom_insert_L. set_solver.
    + apply result_bind_ok in Hrun as (ts & _ & Hrun).
      injection Hrun as <-. rewrite dom_insert_L. set_solver.
  - injection Hrun as <-. set_solver.
Qed.

Lemma js_extract_field_dom element name sel d log :
  dom (JS.extract_field element name sel (d, log)).1
  = dom d ∪ list_to_set (written_fields [(name, sel)]).
Proof.
  unfold JS.extract_field.
  destruct (JS.try_field element name sel d) as [d1|e] eqn:Htry; cbn [fst].
  - by apply (js_try_field_dom element).
  - destruct sel as [css|attr css|]; [| |done]; rewrite dom_insert_L; set_solver.
Qed.

Lemma js_extract_fields_dom element fs : forall d log,
  dom (JS.extract_fields element fs (d, log)).1
  = dom d ∪ list_to_set (written_fields fs).
Proof.
  induction fs as [|[name sel] fs IH]; intros d log.
  - simpl. set_solver.
  - cbn [JS.extract_fields].
    destruct (JS.extract_field element name sel (d, log)) as [d1 log1] eqn:Hf.
    rewrite IH.
    pose proof (js_extract_field_dom element name sel d log) as Hd.
    rewrite Hf in Hd. cbn [fst] in Hd. rewrite Hd.
    rewrite (written_fields_cons name sel fs), list_to_set_app_L.
    by rewrite (assoc_L (∪)).
Qed.

Lemma js_extract_items_dom fs : forall elements items log,
  Forall (fun r : record => dom r = list_to_set (written_fields fs)) items ->
  Forall (fun r : record => dom r = list_to_set (written_fields fs))
    (JS.extract_items elements fs items log).1.
Proof.
  induction elements as [|element elements IH]; intros items log Hitems; [done|].
  simpl.
  pose proof (js_extract_fields_dom element fs ∅ log) as Hd.
  destruct (JS.extract_fields element fs (∅, log)) as [r log1].
  apply IH, Forall_app. split; [done|]. constructor; [|done].
  cbn [fst] in Hd. rewrite Hd. set_solver.
Qed.

(** X6. Every record [JSScraper.extract_data] returns has all the names
    of the schema's string and dict selectors as its keys, also those of
    fields whose extraction raised. *)
Theorem js_record_keys (pg : page) (schema : selectors) log records log' :
  JS.extract_data pg schema log = (Ok records, log') ->
  Forall (fun r : record =>
            dom r = list_to_set (written_fields (fields schema))) records.
Proof.
  unfold JS.extract_data. intros Hrun.
  destruct (wait_until_present pg (item_selector schema)) as [[]|e].
  - destruct (driver_find_elements pg (item_selector schema)) as [elements|e];
      [|done].
    assert (Hall := js_extract_items_dom (fields schema) elements [] log
                      ltac:(constructor)).
    destruct (JS.extract_items elements (fields schema) [] log) as [items log1].
    by injection Hrun as <- _.
  - destruct e; try done. injection Hrun as <- _. constructor.
Qed.

End JsRecordKeys.

Lemma js_record_keys_witness :
  Forall (fun r : record => dom r = {[ "price"; "title" ]})
    [ ({[ "price" := VStr ""; "title" := VStr "Test Title" ]} : record) ].
Proof.
  eapply Forall_impl.
  - apply (js_record_keys Sample.one_item Sample.broken_schema [] _
             [EvLog WARNING (ErrorExtractingField "price"
                               (WebDriverException "invalid selector"))]).
    reflexivity.
  - intros r ->. simpl. set_solver.
Defined.

(* ===================================================================== *)
(** * Loading the configuration *)
(* ===================================================================== *)

Lemma dict_lookup_app {A} key (d1 d2 : list (string * A)) :
  dict_lookup key (d1 ++ d2)
  = match dict_lookup key d1 with
    | Some v => Some v
    | None => dict_lookup key d2
    end.
Proof.
  induction d1 as [|[k v] d1 IH]; simpl; [done|].
  by destruct (String.eqb k key).
Qed.

Lemma setdefault_lookup key default (config : ConfigLoader.t) k :
  dict_lookup k (ConfigLoader.setdefault key default config)
  = match dict_lookup k config with
    | Some v => Some v
    | None => if String.eqb key k then Some default else None
    end.
Proof.
  unfold ConfigLoader.setdefault.
  destruct (dict_lookup key config) as [v|] eqn:Hkey.
  - destruct (dict_lookup k config) eqn:Hk; [done|].
    destruct (String.eqb_spec key k) as [->|]; [congruence|done].
  - rewrite dict_lookup_app. simpl. by destruct (dict_lookup k config).
Qed.

Lemma setdefault_prefix key default (config : ConfigLoader.t) :
  exists more, ConfigLoader.setdefault key default config = config ++ more.
Proof.
  unfold ConfigLoader.setdefault. destruct (dict_lookup key config).
  - exists []. by rewrite app_nil_r.
  - by eexists.
Qed.

Lemma check_required_dict d fields :
  ConfigLoader.check_required (JDict d) fields = None
  <-> forall f, f ∈ fields -> is_Some (dict_lookup f d).
Proof.
  induction fields as [|f fields IH]; simpl.
  - split; [|done]. intros _ f Hin. by apply elem_of_nil in Hin.
  - destruct (dict_lookup f d) as [v|] eqn:Hf.
    + rewrite IH. split.
      * intros Hall f' [->|Hin]%elem_of_cons; [by rewrite Hf|by apply Hall].
      * intros Hall f' Hin. apply Hall. by right.
    + split; [done|]. intros Hall.
      destruct (Hall f) as [v Hv]; [by left|congruence].
Qed.

Lemma load_config_required path fs config f :
  ConfigLoader.load_config path fs = ConfigLoader.Loaded config ->
  f ∈ ConfigLoader.required_fields ->
  exists d, fs path = ConfigLoader.Document (JDict d)
            /\ is_Some (dict_lookup f d).
Proof.
  unfold ConfigLoader.load_config. intros Hrun Hin.
  destruct (fs path) as [| | |j]; try done.
  destruct (ConfigLoader.check_required j _) eqn:Hcheck; [done|].
  destruct j as [| | | | | |d]; try done.
  exists d. split; [done|]. by eapply check_required_dict.
Qed.

(** X7. [load_config] returns a configuration exactly when the file holds
    a JSON object with all six required fields. Any other document fails,
    also a list or a string that contains the six names. *)
Theorem load_config_succeeds_iff path fs :
  (exists config, ConfigLoader.load_config path fs = ConfigLoader.Loaded config)
  <-> exists d, fs path = ConfigLoader.Document (JDict d)
                /\ forall f, f ∈ ConfigLoader.required_fields ->
                     is_Some (dict_lookup f d).
Proof.
  unfold ConfigLoader.load_config. split.
  - intros [config Hrun].
    destruct (fs path) as [| | |j]; try done.
    destruct (ConfigLoader.check_required j _) eqn:Hcheck; [done|].
    destruct j as [| | | | | |d]; try done.
    exists d. split; [done|]. by apply check_required_dict.
  - intros (d & -> & Hall). apply check_required_dict in Hall. rewrite Hall.
    by eexists.
Qed.

(** X8. The error of a JSON object that lacks required fields names the
    first of them, in the order name, mode, base_url, start_paths,
    selectors, storage. *)
Theorem load_config_names_first_missing path fs d before field after :
  fs path = ConfigLoader.Document (JDict d) ->
  ConfigLoader.required_fields = before ++ field :: after ->
  (forall f, f ∈ before -> is_Some (dict_lookup f d)) ->
  dict_lookup field d = None ->
  ConfigLoader.load_config path fs
  = ConfigLoader.LoadError (ConfigLoader.MissingField field).
Proof.
  intros Hfile Hfields Hbefore Hmissing.
  unfold ConfigLoader.load_config. rewrite Hfile, Hfields.
  clear Hfields. induction before as [|f before IH]; simpl.
  - by rewrite Hmissing.
  - destruct (Hbefore f) as [v ->]; [by left|].
    apply IH. intros f' Hin. apply Hbefore. by right.
Qed.

(** The entries of a loaded configuration: those of the file, then the
    defaults of the optional fields the file lacks. *)
Lemma load_config_lookup path fs config :
  ConfigLoader.load_config path fs = ConfigLoader.Loaded config ->
  exists d more,
    fs path = ConfigLoader.Document (JDict d)
    /\ config = d ++ more
    /\ forall k,
         dict_lookup k config
         = match dict_lookup k d with
           | Some v => Some v
           | None =>
               dict_lookup k
                 [("user_agents", JList []);
                  ("rate_limit",
                   JDict [("delay_seconds", JFloat 1); ("jitter", JBool false)]);
                  ("concurrency",
                   JDict [("global", JInt 5); ("per_domain", JInt 2)]);
                  ("proxies",
                   JDict [("enabled", JBool false); ("list", JList []);
                          ("validate", JBool true)]);
                  ("telegram",
                   JDict [("enabled", JBool false); ("bot_token", JStr "");
                          ("chat_id", JStr "")]);
                  ("selenium",
                   JDict [("remote_url", JStr ""); ("headless", JBool true);
                          ("screenshot_on_error", JBool true)])]
           end.
Proof.
  unfold ConfigLoader.load_config. intros Hrun.
  destruct (fs path) as [| | |j]; try done.
  destruct (ConfigLoader.check_required j _); [done|].
  destruct j as [| | | | | |d]; try done.
  injection Hrun as <-. cbv zeta.
  exists d.
  repeat match goal with
  | |- context [ConfigLoader.setdefault ?k ?v ?c] =>
      lazymatch c with
      | context [ConfigLoader.setdefault] => fail
      | _ => idtac
      end;
      let more := fresh "more" in
      let H := fresh "Hpre" in
      let c' := fresh "c" in
      destruct (setdefault_prefix k v c) as [more H];
      pose proof (setdefault_lookup k v c) as ?;
      set (c' := ConfigLoader.setdefault k v c) in *
  end.
  eexists. split_and!; [done| |].
  - repeat match goal with H : _ = _ ++ _ |- _ => rewrite H; clear H end.
    rewrite <- !app_assoc. reflexivity.
  - intros k.
    repeat match goal with
    | H : forall k, dict_lookup k _ = _ |- _ => rewrite H; clear H
    end.
    destruct (dict_lookup k d); [done|]. cbn [dict_lookup].
    repeat match goal with
    | |- context [String.eqb ?a k] => destruct (String.eqb a k)
    end; done.
Qed.

(** X9. A loaded configuration is the file's object followed by the
    defaults of the optional fields it lacks: every entry of the file keeps
    its value, the six optional fields are all present, and no other key
    appears. *)
Theorem load_config_keeps_entries path fs config :
  ConfigLoader.load_config path fs = ConfigLoader.Loaded config ->
  exists d more,
    fs path = ConfigLoader.Document (JDict d)
    /\ config = d ++ more
    /\ (forall k v, dict_lookup k d = Some v -> dict_lookup k config = Some v)
    /\ (forall k, k ∈ ["user_agents"; "rate_limit"; "concurrency"; "proxies";
                       "telegram"; "selenium"] ->
                  is_Some (dict_lookup k config))
    /\ (forall k, dict_lookup k d = None ->
                  k ∉ ["user_agents"; "rate_limit"; "concurrency"; "proxies";
                       "telegram"; "selenium"] ->
                  dict_lookup k config = None).
Proof.
  intros Hrun.
  destruct (load_config_lookup path fs config Hrun) as (d & more & Hfile & Hcfg & Hlook).
  exists d, more. split_and!; [done..| | |].
  - intros k v Hk. by rewrite Hlook, Hk.
  - intros k Hin. rewrite Hlook.
    destruct (dict_lookup k d); [done|].
    repeat (apply elem_of_cons in Hin as [->|Hin]; [done|]).
    by apply elem_of_nil in Hin.
  - intros k Hk Hnot. rewrite Hlook, Hk. cbn [dict_lookup].
    repeat match goal with
    | |- context [String.eqb ?a k] =>
        destruct (String.eqb_spec a k) as [<-|?];
        [exfalso; apply Hnot; set_solver|]
    end.
    done.
Qed.

(** X10. Loading fills in defaults that agree with the fallbacks of the
    scrapers' constructors: a scraper built from the loaded configuration
    has the delay, jitter, user agents and base URL of one built from the
    file's object as it stands. *)
Theorem loading_keeps_scraper_settings path fs d config :
  fs path = ConfigLoader.Document (JDict d) ->
  ConfigLoader.load_config path fs = ConfigLoader.Loaded config ->
  (Static.delay_seconds (Static.init config) = Static.delay_seconds (Static.init d)
   /\ Static.jitter (Static.init config) = Static.jitter (Static.init d)
   /\ Static.user_agents (Static.init config) = Static.user_agents (Static.init d)
   /\ Static.base_url (Static.init config) = Static.base_url (Static.init d))
  /\ (Async.delay_seconds (Async.init config) = Async.delay_seconds (Async.init d)
      /\ Async.jitter (Async.init config) = Async.jitter (Async.init d)
      /\ Async.user_agents (Async.init config) = Async.user_agents (Async.init d)
      /\ Async.base_url (Async.init config) = Async.base_url (Async.init d))
  /\ (JS.delay_seconds (JS.init config) = JS.delay_seconds (JS.init d)
      /\ JS.jitter (JS.init config) = JS.jitter (JS.init d)
      /\ JS.user_agents (JS.init config) = JS.user_agents (JS.init d)
      /\ JS.base_url (JS.init config) = JS.base_url (JS.init d)).
Proof.
  intros Hfile Hrun.
  destruct (load_config_lookup path fs config Hrun) as (d' & more & Hfile' & _ & Hlook).
  rewrite Hfile in Hfile'. injection Hfile' as <-.
  assert (Hbase : dict_lookup "base_url" d <> None).
  { apply load_config_required with (f := "base_url") in Hrun; [|set_solver].
    destruct Hrun as (d' & Hfile' & [v Hv]).
    rewrite Hfile in Hfile'. injection Hfile' as <-. congruence. }
  cbn [Static.init Static.delay_seconds Static.jitter Static.user_agents
       Static.base_url Async.init Async.delay_seconds Async.jitter
       Async.user_agents Async.base_url JS.init JS.delay_seconds JS.jitter
       JS.user_agents JS.base_url].
  unfold ConfigLoader.get_nested, ConfigLoader.get.
  cbn [ConfigLoader.get_nested_from].
  rewrite !Hlook.
  destruct (dict_lookup "rate_limit" d), (dict_lookup "user_agents" d),
    (dict_lookup "base_url" d); try done.
Qed.

(** X11. Nested lookup composes: looking up a path of keys is looking up
    its first part and then the rest in what was found, and a path of one
    key is [get] with the default [None]. *)
Theorem get_nested_composes (config : ConfigLoader.t) (keys1 keys2 : list string)
    (key : string) :
  ConfigLoader.get_nested config (keys1 ++ keys2)
  = ConfigLoader.get_nested_from (ConfigLoader.get_nested config keys1) keys2
  /\ ConfigLoader.get_nested config [key] = ConfigLoader.get config key JNull.
Proof.
  unfold ConfigLoader.get_nested, ConfigLoader.get. split; [|done].
  generalize (JDict config). induction keys1 as [|k keys1 IH]; intros v; [done|].
  simpl. destruct v as [| | | | | |d]; try by destruct keys2.
  destruct (dict_lookup k d); [apply IH|by destruct keys2].
Qed.

Lemma load_config_names_first_missing_witness :
  ConfigLoader.load_config "no_mode.json" Files.files
  = ConfigLoader.LoadError (ConfigLoader.MissingField "mode").
Proof.
  eapply (load_config_names_first_missing "no_mode.json" Files.files _
            ["name"] "mode" ["base_url"; "start_paths"; "selectors"; "storage"]).
  - reflexivity.
  - reflexivity.
  - intros f ->%list_elem_of_singleton. by eexists.
  - reflexivity.
Defined.

Lemma load_config_keeps_entries_witness :
  exists d more,
    Files.files "config.json" = ConfigLoader.Document (JDict d)
    /\ Files.minimal_loaded = d ++ more
    /\ (forall k v, dict_lookup k d = Some v ->
                    dict_lookup k Files.minimal_loaded = Some v)
    /\ (forall k, k ∈ ["user_agents"; "rate_limit"; "concurrency"; "proxies";
                       "telegram"; "selenium"] ->
                  is_Some (dict_lookup k Files.minimal_loaded))
    /\ (forall k, dict_lookup k d = None ->
                  k ∉ ["user_agents"; "rate_limit"; "concurrency"; "proxies";
                       "telegram"; "selenium"] ->
                  dict_lookup k Files.minimal_loaded = None).
Proof.
  apply (load_config_keeps_entries "config.json" Files.files Files.minimal_loaded).
  reflexivity.
Defined.

Lemma loading_keeps_scraper_settings_witness :
  Static.delay_seconds (Static.init Files.minimal_loaded) = JFloat 1
  /\ Static.jitter (Static.init Files.minimal_loaded) = JBool false
  /\ Static.user_agents (Static.init Files.minimal_loaded) = []
  /\ Static.base_url (Static.init Files.minimal_loaded) = "https://example.com".
Proof.
  apply (loading_keeps_scraper_settings "config.json" Files.files
           Files.minimal_config Files.minimal_loaded); reflexivity.
Defined.

(** A list of the six required names passes the check of the required
    fields and fails at the first [setdefault]; text that is not JSON and a
    path that does not exist fail before. *)
Example load_config_of_other_documents :
  ConfigLoader.load_config "names.json" Files.files
  = ConfigLoader.LoadError ConfigLoader.NoSetdefault
  /\ ConfigLoader.load_config "broken.json" Files.files
     = ConfigLoader.LoadError ConfigLoader.JSONDecodeError
  /\ ConfigLoader.load_config "nowhere.json" Files.files
     = ConfigLoader.LoadError (ConfigLoader.FileNotFoundError "nowhere.json")
  /\ ConfigLoader.load_config "config.json" Files.files
     = ConfigLoader.Loaded Files.minimal_loaded.
Proof. split_and!; reflexivity. Qed.

(* ===================================================================== *)
(** * Transformations *)
(* ===================================================================== *)

Section Transformations.
Context {V E : Type} (transformers : gmap string (@Plugins.transformer V E)).
Implicit Types (data : gmap string V) (log : list (Plugins.log_record E))
  (transformations : list (string * string)).

Lemma apply_transformation_dom field name data log :
  dom (Plugins.apply_transformation transformers field name (data, log)).1
  = dom data.
Proof.
  unfold Plugins.apply_transformation.
  destruct (data !! field) as [v|] eqn:Hv; [|done].
  destruct (transformers !! name) as [f|]; [|done].
  destruct (f v) as [e|v']; [done|]. cbn [fst].
  rewrite dom_insert_L. apply elem_of_dom_2 in Hv. set_solver.
Qed.

Lemma apply_transformation_other field name data log other :
  other <> field ->
  (Plugins.apply_transformation transformers field name (data, log)).1 !! other
  = data !! other.
Proof.
  intros Hne. unfold Plugins.apply_transformation.
  destruct (data !! field) as [v|]; [|done].
  destruct (transformers !! name) as [f|]; [|done].
  destruct (f v) as [e|v']; [done|]. cbn [fst]. by rewrite lookup_insert_ne.
Qed.

Lemma apply_transformation_log field name data log :
  exists more,
    (Plugins.apply_transformation transformers field name (data, log)).2
    = log ++ more.
Proof.
  unfold Plugins.apply_transformation.
  destruct (data !! field) as [v|]; [|by exists []; rewrite app_nil_r].
  destruct (transformers !! name) as [f|]; [|by exists []; rewrite app_nil_r].
  destruct (f v) as [e|v']; [by eexists|by exists []; rewrite app_nil_r].
Qed.

Lemma apply_all_frame transformations : forall data log,
  dom (Plugins.apply_all transformers transformations (data, log)).1 = dom data
  /\ (forall other, other ∉ transformations.*1 ->
        (Plugins.apply_all transformers transformations (data, log)).1 !! other
        = data !! other)
  /\ exists more,
       (Plugins.apply_all transformers transformations (data, log)).2
       = log ++ more.
Proof.
  induction transformations as [|[field name] transformations IH];
    intros data log.
  - split_and!; [done..|]. exists []. by rewrite app_nil_r.
  - cbn [Plugins.apply_all].
    pose proof (apply_transformation_dom field name data log) as Hdom.
    pose proof (apply_transformation_other field name data log) as Hother.
    destruct (apply_transformation_log field name data log) as [more1 Hlog].
    destruct (Plugins.apply_transformation transformers field name (data, log))
      as [data1 log1].
    cbn [fst snd] in *. subst log1.
    destruct (IH data1 (log ++ more1)) as (Hdom' & Hother' & more & Hlog').
    split_and!.
    + by rewrite Hdom'.
    + intros other Hnot. rewrite fmap_cons, not_elem_of_cons in Hnot.
      destruct Hnot as [Hne Hnot]. rewrite Hother' by done. by apply Hother.
    + exists (more1 ++ more). by rewrite Hlog', app_assoc.
Qed.

(** X12. [apply_transformations] neither adds nor removes a field, and a
    field that [transformations] does not name keeps its value. *)
Theorem apply_transformations_keeps_fields data transformations :
  dom (Plugins.apply_transformations transformers data transformations).1
  = dom data
  /\ forall field, field ∉ transformations.*1 ->
       (Plugins.apply_transformations transformers data transformations).1
         !! field
       = data !! field.
Proof.
  unfold Plugins.apply_transformations.
  destruct (apply_all_frame transformations data []) as (Hdom & Hother & _).
  by split.
Qed.

(** X13. With each field named once, a field of the data whose
    transformer is registered gets the transformer's result on its
    original value. If the transformer raises, or none is registered under
    the name, the field keeps its value; the exception is logged. *)
Theorem apply_transformations_each_field data transformations field name v :
  NoDup transformations.*1 ->
  (field, name) ∈ transformations ->
  data !! field = Some v ->
  let out := Plugins.apply_transformations transformers data transformations in
  match transformers !! name with
  | Some f =>
      match f v with
      | inr v' => out.1 !! field = Some v'
      | inl e =>
          out.1 !! field = Some v
          /\ Plugins.ErrorApplyingTransformation name field e ∈ out.2
      end
  | None => out.1 !! field = Some v
  end.
Proof.
  intros Hnodup Hin Hv. cbv zeta. unfold Plugins.apply_transformations.
  generalize (@nil (Plugins.log_record E)) as log.
  revert data Hv.
  induction transformations as [|[field0 name0] transformations IH];
    intros data Hv log.
  { by apply elem_of_nil in Hin. }
  rewrite fmap_cons in Hnodup. apply NoDup_cons in Hnodup as [Hfresh Hnodup].
  cbn [Plugins.apply_all].
  apply elem_of_cons in Hin as [[= <- <-]|Hin].
  - pose proof (apply_all_frame transformations) as Hframe.
    unfold Plugins.apply_transformation. rewrite Hv.
    destruct (transformers !! name) as [f|].
    + destruct (f v) as [e|v'].
      * destruct (Hframe data
                    (log ++ [Plugins.ErrorApplyingTransformation name field e]))
          as (_ & Hother & more & Hlog).
        rewrite Hother by done. split; [done|]. rewrite Hlog. set_solver.
      * destruct (Hframe (<[field := v']> data) log) as (_ & Hother & _).
        rewrite Hother by done. by rewrite lookup_insert_eq.
    + destruct (Hframe data log) as (_ & Hother & _). by rewrite Hother.
  - assert (Hne : field <> field0).
    { intros ->. apply Hfresh. by apply (list_elem_of_fmap_2 fst) in Hin. }
    pose proof (apply_transformation_other field0 name0 data log field Hne)
      as Hother.
    destruct (Plugins.apply_transformation transformers field0 name0 (data, log))
      as [data1 log1].
    cbn [fst] in Hother. apply IH; [done..|]. by rewrite Hother.
Qed.

End Transformations.

Lemma apply_transformations_each_field_witness :
  (Plugins.apply_transformations Registry.transformers Registry.scraped
     [("date", "date_parser"); ("tags", "date_parser"); ("title", "unknown");
      ("price", "date_parser")]).1 !! "date"
  = Some (VStr "2024-01-05").
Proof.
  apply (apply_transformations_each_field Registry.transformers Registry.scraped
           [("date", "date_parser"); ("tags", "date_parser");
            ("title", "unknown"); ("price", "date_parser")]
           "date" "date_parser" (VStr "  2024-01-05 ")).
  - compute_done.
  - compute_done.
  - reflexivity.
Defined.

(** A list is not stripped: the field keeps its value and the exception
    is logged; a field the data lacks is not created. *)
Example apply_transformations_of_a_record :
  Plugins.apply_transformations Registry.transformers Registry.scraped
    [("date", "date_parser"); ("tags", "date_parser"); ("title", "unknown");
     ("price", "date_parser")]
  = ({[ "title" := VStr "A title"; "date" := VStr "2024-01-05";
        "tags" := VList ["a"; "b"] ]},
     [Plugins.ErrorApplyingTransformation "date_parser" "tags"
        Plugins.AttributeError]).
Proof. vm_compute. reflexivity. Qed.

(* ===================================================================== *)
(** * Storage *)
(* ===================================================================== *)

Section CsvStorage.
Variable keys : record -> list string.
Implicit Types (self : Storage.t) (st : Storage.state) (data : list record)
  (csvfile : list Storage.line) (fieldnames : list string).

Lemma writerows_ok fieldnames data : forall csvfile,
  Forall (fun item : record => dom item ⊆ list_to_set fieldnames) data ->
  Storage.writerows fieldnames data csvfile
  = (Ok tt, csvfile ++ (csv_row fieldnames <$> data)).
Proof.
  induction data as [|item data IH]; intros csvfile Hall; simpl.
  - by rewrite app_nil_r.
  - apply Forall_cons in Hall as [Hitem Hall].
    unfold Storage.writerow. rewrite bool_decide_eq_true_2 by done.
    rewrite IH by done. by rewrite <- app_assoc.
Qed.

Lemma writerows_app fieldnames data1 data2 : forall csvfile,
  Storage.writerows fieldnames (data1 ++ data2) csvfile
  = match Storage.writerows fieldnames data1 csvfile with
    | (Ok _, csvfile1) => Storage.writerows fieldnames data2 csvfile1
    | failed => failed
    end.
Proof.
  induction data1 as [|item data1 IH]; intros csvfile; simpl; [done|].
  destruct (Storage.writerow fieldnames item csvfile); [apply IH|done].
Qed.

(** X14. Saving two batches of items with the same field names to a CSV
    file, one after the other, leaves the file that saving them at once
    does: the header is written by the first save into a new file only. *)
Theorem csv_batches_compose self first1 rest1 data2 st st1 :
  (forall first2, head data2 = Some first2 -> keys first2 = keys first1) ->
  Storage._save_csv keys self (first1 :: rest1) st = (Ok tt, st1) ->
  (Storage._save_csv keys self data2 st1).1
  = (Storage._save_csv keys self ((first1 :: rest1) ++ data2) st).1
  /\ Storage.files (Storage._save_csv keys self data2 st1).2
     = Storage.files (Storage._save_csv keys self ((first1 :: rest1) ++ data2) st).2.
Proof.
  intros Hkeys Hfirst.
  cbn [app]. unfold Storage._save_csv in *. cbv zeta in *.
  set (start := if bool_decide (is_Some (Storage.files st !! Storage.storage_path self))
                then default [] (Storage.files st !! Storage.storage_path self)
                else default [] (Storage.files st !! Storage.storage_path self)
                     ++ [Storage.CsvRow (VStr <$> keys first1)]) in *.
  change (first1 :: rest1 ++ data2) with ((first1 :: rest1) ++ data2).
  rewrite writerows_app.
  destruct (Storage.writerows (keys first1) (first1 :: rest1) start)
    as [[[]|e] csvfile1]; [|done].
  injection Hfirst as <-. destruct data2 as [|first2 rest2].
  - cbn [Storage.writerows fst snd Storage.files]. done.
  - rewrite (Hkeys first2 eq_refl). cbn [Storage.files].
    rewrite lookup_insert_eq. cbn [default from_option id].
    rewrite bool_decide_eq_true_2 by done.
    destruct (Storage.writerows (keys first1) (first2 :: rest2) csvfile1)
      as [[[]|e] csvfile2]; cbn [fst snd Storage.files];
      by rewrite insert_insert_eq.
Qed.

(** X15. An item with a key that the first item lacks makes [_save_csv]
    raise [ValueError] with the rows of the items before it already
    written: the file keeps the header (if it was new) and those rows, and
    nothing is logged. *)
Theorem csv_partial_write self first good bad rest st :
  Forall (fun item : record => dom item ⊆ list_to_set (keys first))
    (first :: good) ->
  ~ dom bad ⊆ list_to_set (keys first) ->
  Storage._save_csv keys self (first :: good ++ bad :: rest) st
  = (Raise ValueError,
     Storage.mk_state
       (<[Storage.storage_path self :=
            csv_start (keys first) (Storage.files st !! Storage.storage_path self)
            ++ (csv_row (keys first) <$> first :: good)]> (Storage.files st))
       (Storage.log st)).
Proof.
  intros Hgood Hbad. unfold Storage._save_csv. cbv zeta.
  change (first :: good ++ bad :: rest) with ((first :: good) ++ bad :: rest).
  rewrite writerows_app, writerows_ok by done.
  cbn [Storage.writerows]. unfold Storage.writerow.
  rewrite bool_decide_eq_false_2 by done.
  by destruct (Storage.files st !! Storage.storage_path self).
Qed.

Lemma save_csv_same_keys self first rest st :
  keys_of_dict keys ->
  Forall (fun item : record => dom item = dom first) rest ->
  Storage._save_csv keys self (first :: rest) st
  = (Ok tt,
     Storage.mk_state
       (<[Storage.storage_path self :=
            csv_start (keys first) (Storage.files st !! Storage.storage_path self)
            ++ (csv_row (keys first) <$> first :: rest)]> (Storage.files st))
       (Storage.log st
        ++ [Storage.SavedCsv (length (first :: rest)) (Storage.storage_path self)])).
Proof.
  intros Hkeys Hrest. unfold Storage._save_csv. cbv zeta.
  assert (Hfirst : dom first ⊆ list_to_set (keys first)).
  { intros k Hk. apply elem_of_list_to_set. by apply Hkeys. }
  rewrite writerows_ok.
  - by destruct (Storage.files st !! Storage.storage_path self).
  - constructor; [done|]. eapply Forall_impl; [exact Hrest|].
    intros item Hitem. by rewrite Hitem.
Qed.

End CsvStorage.

(** X16. Saving JSON Lines appends one line per item and no header,
    also to a file it has to create, so saving two batches one after the
    other leaves the file that saving them at once does. *)
Theorem jsonl_batches_compose (self : Storage.t) data1 data2 st :
  Storage.files (Storage._save_jsonl self data1 st).2
    !! Storage.storage_path self
  = Some (default [] (Storage.files st !! Storage.storage_path self)
          ++ (Storage.JsonLine <$> data1))
  /\ Storage.files
       (Storage._save_jsonl self data2 (Storage._save_jsonl self data1 st).2).2
     = Storage.files (Storage._save_jsonl self (data1 ++ data2) st).2.
Proof.
  unfold Storage._save_jsonl. cbn [snd Storage.files]. split.
  - by rewrite lookup_insert_eq.
  - rewrite lookup_insert_eq. cbn [default from_option id].
    by rewrite insert_insert_eq, fmap_app, app_assoc.
Qed.

Lemma sorted_keys_of_dict : keys_of_dict Disk.sorted_keys.
Proof.
  intros r k. unfold Disk.sorted_keys. rewrite elem_of_dom. split.
  - intros [[k' v] [-> Hin]]%list_elem_of_fmap.
    apply elem_of_map_to_list in Hin. by exists v.
  - intros [v Hv]. apply list_elem_of_fmap. exists (k, v). split; [done|].
    by apply elem_of_map_to_list.
Qed.

Section ScrapedRecords.
Context {node : Type} `{!Bs4 node} `{!UrlLib} (env : Env node).
Implicit Types (self : Static.t) (sels : selectors) (st : state).

(** What holds of the records of every page holds of [all_data]. *)
Lemma walk_records (P : record -> Prop) self sels :
  (forall soup data, Static.extract_data soup sels = Ok data -> Forall P data) ->
  forall fuel url st,
    Forall P (all_data st) ->
    Forall P (all_data (Static.walk env fuel self sels url st).2).
Proof.
  intros Hpage. induction fuel as [|fuel IH]; intros url st Hst.
  all: destruct url as [u|]; [destruct (decide (u = "")) as [->|Hne]|].
  all: try (rewrite walk_stops by auto; done).
  - simpl. by destruct (String.eqb_spec u "").
  - rewrite walk_step by done.
    destruct (static_fetch_page_frame env self u (logged INFO (Scraping u) st))
      as [Hd1 _].
    destruct (Static.fetch_page env self u _) as [[soup|e] st1];
      cbn [snd] in Hd1; rewrite logged_all_data in Hd1.
    2: { cbn [snd]. by rewrite logged_all_data, Hd1. }
    destruct (Static.extract_data soup sels) as [data|e] eqn:Hdata.
    2: { cbn [snd]. by rewrite logged_all_data, Hd1. }
    destruct (get_next_page_url_frame self soup u (extend_all_data data st1).2)
      as [Hd2 _].
    change (all_data (extend_all_data data st1).2) with (all_data st1 ++ data)
      in Hd2.
    assert (Hst3 : Forall P (all_data st1 ++ data)).
    { rewrite Hd1. apply Forall_app. split; [done|]. by eapply Hpage. }
    destruct (Static.get_next_page_url self soup u _) as [[next|e] st3];
      cbn [snd] in Hd2.
    + apply IH. by rewrite Hd2.
    + cbn [snd]. by rewrite logged_all_data, Hd2.
Qed.

Lemma for_paths_records (P : record -> Prop) self sels fuel :
  (forall soup data, Static.extract_data soup sels = Ok data -> Forall P data) ->
  forall paths st,
    Forall P (all_data st) ->
    Forall P (all_data (Static.for_paths env fuel self sels paths st).2).
Proof.
  intros Hpage. induction paths as [|path paths IH]; intros st Hst; [done|].
  cbn [Static.for_paths]. cbv [mbind M_bind mret M_ret].
  pose proof (walk_records P self sels Hpage fuel
                (Some (urljoin (Static.base_url self) path)) st Hst) as Hwalk.
  destruct (walk_total env self sels fuel
              (Some (urljoin (Static.base_url self) path)) st)
    as (status & st1 & new & Hrun & _).
  rewrite Hrun in Hwalk |- *. cbn [snd] in Hwalk.
  destruct status; cbn [snd]; try done.
  - specialize (IH st1 Hwalk).
    by destruct (Static.for_paths env fuel self sels paths st1) as [[statuses|e] st2].
  - specialize (IH st1 Hwalk).
    by destruct (Static.for_paths env fuel self sels paths st1) as [[statuses|e] st2].
Qed.

(** What holds of the records of every page holds of the records
    [scrape] returns from a fresh state. *)
Lemma scrape_records (P : record -> Prop) fuel self statuses data st' :
  (forall soup data,
     Static.extract_data soup
       (selectors_of_json
          (ConfigLoader.get (Static.config self) "selectors" (JDict [])))
     = Ok data -> Forall P data) ->
  Static.scrape env fuel self (Static.initial_state self)
  = (Ok (statuses, data), st') ->
  Forall P data.
Proof.
  intros Hpage. unfold Static.scrape. cbv zeta.
  cbv [mbind M_bind mret M_ret get_all_data].
  match goal with
  | |- context [Static.for_paths env fuel self ?sels ?paths ?st] =>
      pose proof (for_paths_records P self sels fuel Hpage paths st
                    ltac:(constructor)) as Hall;
      destruct (Static.for_paths env fuel self sels paths st) as [[sts|e] st1]
  end; [|done].
  by intros [= _ <- _].
Qed.

(** X17. Where the configuration gives [start_paths] as a list of strings
    and [selectors] with the types [extract_data] expects, every record
    [StaticScraper.scrape] returns, from whatever page and start path,
    has the names of the configured string and dict selectors as its
    keys. *)
Theorem scraped_records_have_the_schema_keys fuel self paths statuses data st' :
  start_paths_are (Static.config self) paths ->
  typed_selectors (ConfigLoader.get (Static.config self) "selectors" (JDict []))
  = true ->
  Static.scrape env fuel self (Static.initial_state self)
  = (Ok (statuses, data), st') ->
  Static.Running ∉ statuses ->
  Forall (fun r : record =>
            dom r
            = list_to_set
                (written_fields
                   (fields
                      (selectors_of_json
                         (ConfigLoader.get (Static.config self) "selectors"
                            (JDict [])))))) data.
Proof.
  intros _ _ Hrun _. eapply scrape_records; [|exact Hrun].
  intros soup data' Hdata.
  unfold Static.extract_data in Hdata.
  apply result_bind_ok in Hdata as (elements & _ & Hdata).
  by eapply static_extract_items_dom.
Qed.

(** X18. Where the configuration gives [start_paths] as a list of strings
    and [selectors] with the types [extract_data] expects, the records
    [StaticScraper.scrape] returns, transformed field by field with
    [apply_transformations] or not at all, are rows the CSV writer
    accepts: [_save_csv] does not raise on them. *)
Theorem scraped_data_saves_as_csv {E : Type} (keys : record -> list string)
    (transformers : gmap string (@Plugins.transformer value E))
    (transformations : list (string * string))
    fuel self (storage : Storage.t) (disk : Storage.state)
    paths statuses data st' :
  keys_of_dict keys ->
  start_paths_are (Static.config self) paths ->
  typed_selectors (ConfigLoader.get (Static.config self) "selectors" (JDict []))
  = true ->
  Static.scrape env fuel self (Static.initial_state self)
  = (Ok (statuses, data), st') ->
  Static.Running ∉ statuses ->
  (Storage._save_csv keys storage data disk).1 = Ok tt
  /\ (Storage._save_csv keys storage
        ((fun item =>
            (Plugins.apply_transformations transformers item transformations).1)
         <$> data) disk).1 = Ok tt.
Proof.
  intros Hkeys _ _ Hrun _.
  assert (Hall : Forall (fun r : record =>
                   dom r
                   = list_to_set
                       (written_fields
                          (fields
                             (selectors_of_json
                                (ConfigLoader.get (Static.config self) "selectors"
                                   (JDict [])))))) data).
  { eapply scrape_records; [|exact Hrun].
    intros soup data' Hdata. unfold Static.extract_data in Hdata.
    apply result_bind_ok in Hdata as (elements & _ & Hdata).
    by eapply static_extract_items_dom. }
  destruct data as [|first rest]; [done|].
  apply Forall_cons in Hall as [Hfirst Hrest]. split.
  - rewrite (save_csv_same_keys keys) ; [done|done|].
    eapply Forall_impl; [exact Hrest|]. intros item ->. by rewrite Hfirst.
  - rewrite fmap_cons, (save_csv_same_keys keys); [done|done|].
    apply Forall_fmap. eapply Forall_impl; [exact Hrest|].
    intros item Hitem. cbn [compose].
    unfold Plugins.apply_transformations.
    destruct (apply_all_frame transformers transformations item []) as [-> _].
    destruct (apply_all_frame transformers transformations first []) as [-> _].
    by rewrite Hitem, Hfirst.
Qed.

End ScrapedRecords.

Lemma csv_batches_compose_witness :
  let one : record := {[ "title" := VStr "One" ]} in
  let two : record := {[ "title" := VStr "Two" ]} in
  let saved :=
    Storage.mk_state
      {[ "data/out.csv" := [csv_header ["title"]; csv_row ["title"] one] ]}
      [Storage.SavedCsv 1 "data/out.csv"] in
  (Storage._save_csv Disk.sorted_keys Disk.csv_storage [two] saved).1
  = (Storage._save_csv Disk.sorted_keys Disk.csv_storage ([one] ++ [two])
       Disk.empty).1
  /\ Storage.files
       (Storage._save_csv Disk.sorted_keys Disk.csv_storage [two] saved).2
     = Storage.files
         (Storage._save_csv Disk.sorted_keys Disk.csv_storage ([one] ++ [two])
            Disk.empty).2.
Proof.
  cbv zeta.
  apply (csv_batches_compose Disk.sorted_keys Disk.csv_storage
           {[ "title" := VStr "One" ]} [] [ {[ "title" := VStr "Two" ]} ]
           Disk.empty).
  - intros first2 [= <-]. reflexivity.
  - vm_compute. reflexivity.
Defined.

Lemma csv_partial_write_witness :
  Storage._save_csv Disk.sorted_keys Disk.csv_storage
    ({[ "title" := VStr "One" ]}
     :: [] ++ {[ "title" := VStr "Two"; "price" := VStr "3" ]} :: [])
    Disk.empty
  = (Raise ValueError,
     Storage.mk_state
       (<["data/out.csv" :=
            csv_start ["title"] None
            ++ (csv_row ["title"] <$> [ ({[ "title" := VStr "One" ]} : record) ])]> ∅)
       []).
Proof.
  etrans.
  - apply (csv_partial_write Disk.sorted_keys Disk.csv_storage
             {[ "title" := VStr "One" ]} []
             {[ "title" := VStr "Two"; "price" := VStr "3" ]} [] Disk.empty).
    + repeat constructor. compute_done.
    + compute_done.
  - vm_compute. reflexivity.
Defined.

Lemma scraped_records_have_the_schema_keys_witness :
  Forall (fun r : record => dom r = list_to_set ["title"])
    [ ({[ "title" := VStr "One" ]} : record); {[ "title" := VStr "Two" ]} ].
Proof.
  refine (scraped_records_have_the_schema_keys Sample.world 3
            (Sample.scraper ["/"] Sample.title_selectors) ["/"]
            [Static.Done]
            [ {[ "title" := VStr "One" ]}; {[ "title" := VStr "Two" ]} ]
            (Static.scrape Sample.world 3
               (Sample.scraper ["/"] Sample.title_selectors)
               (Static.initial_state
                  (Sample.scraper ["/"] Sample.title_selectors))).2 _ _ _ _).
  - reflexivity.
  - reflexivity.
  - vm_compute. reflexivity.
  - intros Hin.
    repeat (apply elem_of_cons in Hin as [?|Hin]; [discriminate|]).
    by apply elem_of_nil in Hin.
Defined.

Lemma scraped_data_saves_as_csv_witness :
  let data : list record :=
    [ {[ "title" := VStr "One" ]}; {[ "title" := VStr "Two" ]} ] in
  (Storage._save_csv Disk.sorted_keys Disk.csv_storage data Disk.empty).1
  = Ok tt
  /\ (Storage._save_csv Disk.sorted_keys Disk.csv_storage
        ((fun item =>
            (Plugins.apply_transformations Registry.transformers item
               [("title", "date_parser")]).1) <$> data) Disk.empty).1
     = Ok tt.
Proof.
  cbv zeta.
  refine (scraped_data_saves_as_csv Sample.world Disk.sorted_keys
            Registry.transformers [("title", "date_parser")] 3
            (Sample.scraper ["/"] Sample.title_selectors)
            Disk.csv_storage Disk.empty ["/"] [Static.Done]
            [ {[ "title" := VStr "One" ]}; {[ "title" := VStr "Two" ]} ]
            (Static.scrape Sample.world 3
               (Sample.scraper ["/"] Sample.title_selectors)
               (Static.initial_state
                  (Sample.scraper ["/"] Sample.title_selectors))).2 _ _ _ _ _).
  - exact sorted_keys_of_dict.
  - reflexivity.
  - reflexivity.
  - vm_compute. reflexivity.
  - intros Hin.
    repeat (apply elem_of_cons in Hin as [?|Hin]; [discriminate|]).
    by apply elem_of_nil in Hin.
Defined.

(** The two pages of the sample site, saved to a new CSV file: the header
    and a row for each record. *)
Example scrape_and_save :
  let run := Sample.run_scrape 3 (Sample.scraper ["/"] Sample.title_selectors) in
  exists statuses data,
    run.1 = Ok (statuses, data)
    /\ Storage._save_csv Disk.sorted_keys Disk.csv_storage data Disk.empty
       = (Ok tt,
          Storage.mk_state
            {[ "data/out.csv" :=
                 [Storage.CsvRow [VStr "title"]; Storage.CsvRow [VStr "One"];
                  Storage.CsvRow [VStr "Two"]] ]}
            [Storage.SavedCsv 2 "data/out.csv"]).
Proof. cbv zeta. eexists _, _. split; vm_compute; reflexivity. Qed.

(* ===================================================================== *)
(** * The browser session *)
(* ===================================================================== *)

Lemma browser_calls_app h1 h2 :
  browser_calls (h1 ++ h2) = browser_calls h1 ++ browser_calls h2.
Proof. apply omap_app. Qed.

Lemma navigated_app h1 h2 : navigated (h1 ++ h2) = navigated h1 ++ navigated h2.
Proof. apply omap_app. Qed.

Section SessionSteps.
Context {page elem : Type} `{!WebDriver page elem} `{!UrlLib}
  (browser : JS.Browser page elem).
Variable P : list JS.session_event -> Prop.
Hypothesis P_nil : P [].
Hypothesis P_app : forall h1 h2, P h1 -> P h2 -> P (h1 ++ h2).

Lemma extends_ret {A} (a : A) : extends_history P (mret a : JS.B A).
Proof. intros s. exists []. by rewrite app_nil_r. Qed.

Lemma extends_throw {A} e : extends_history P (JS.throw e : JS.B A).
Proof. intros s. exists []. by rewrite app_nil_r. Qed.

Lemma extends_bind {A C} (m : JS.B A) (f : A -> JS.B C) :
  extends_history P m -> (forall a, extends_history P (f a)) ->
  extends_history P (m ≫= f).
Proof.
  intros Hm Hf s. unfold mbind, JS.B_bind.
  destruct (Hm s) as (new & Hnew & HP & Hd).
  destruct (m s) as [[a|e] s1]; cbn [snd] in *; [|by eauto].
  destruct (Hf a s1) as (new' & Hnew' & HP' & Hd').
  exists (new ++ new'). split_and!.
  - by rewrite Hnew', Hnew, app_assoc.
  - by apply P_app.
  - by rewrite Hd'.
Qed.

Lemma extends_try_catch {A} (body : JS.B A) handler :
  extends_history P body -> (forall e, extends_history P (handler e)) ->
  extends_history P (JS.try_catch body handler).
Proof.
  intros Hbody Hhandler s. unfold JS.try_catch.
  destruct (Hbody s) as (new & Hnew & HP & Hd).
  destruct (body s) as [[a|e] s1]; cbn [snd] in *; [by eauto|].
  destruct (Hhandler e s1) as (new' & Hnew' & HP' & Hd').
  exists (new ++ new'). split_and!.
  - by rewrite Hnew', Hnew, app_assoc.
  - by apply P_app.
  - by rewrite Hd'.
Qed.

Lemma extends_event ev : P [ev] -> extends_history P (JS.record_event ev).
Proof. intros Hev s. by exists [ev]. Qed.

Lemma extends_of_result {A} (r : result A) : extends_history P (JS.of_result r).
Proof. intros s. exists []. by rewrite app_nil_r. Qed.

Lemma extends_dict_get d key default :
  extends_history P (JS.dict_get d key default).
Proof. destruct d; first [apply extends_throw | apply extends_ret]. Qed.

Lemma extends_random_uniform : extends_history P (JS.random_uniform browser).
Proof. intros s. exists []. by rewrite app_nil_r. Qed.

Lemma extends_int_time : extends_history P (JS.int_time browser).
Proof. intros s. exists []. by rewrite app_nil_r. Qed.

Lemma extends_add_uniform delay r : extends_history P (JS.add_uniform delay r).
Proof.
  unfold JS.add_uniform.
  destruct (as_number delay); [apply extends_ret|apply extends_throw].
Qed.

Lemma extends_extend_all_data data : extends_history P (JS.extend_all_data data).
Proof. intros s. exists []. by rewrite app_nil_r. Qed.

Lemma extends_extract (pg : page) sels :
  (forall log, P (JS.Extraction <$> log)) ->
  extends_history P (JS.extract pg sels).
Proof.
  intros Hlog s. unfold JS.extract.
  destruct (JS.extract_data pg sels []) as [r log]. by exists (JS.Extraction <$> log).
Qed.

Lemma extends_get_next_page_url self (pg : page) url :
  P [JS.Log INFO JS.NextButtonNotFound] ->
  extends_history P (JS.get_next_page_url browser self pg url).
Proof.
  intros Hlog. unfold JS.get_next_page_url.
  apply extends_bind; [apply extends_dict_get|]. intros next_selector.
  destruct (truthy next_selector); [|apply extends_ret].
  apply extends_try_catch.
  - apply extends_bind; [apply extends_of_result|].
    intros el. apply extends_of_result.
  - intros [[]|]; try apply extends_throw.
    apply extends_bind; [by apply extends_event|]. intros _. apply extends_ret.
Qed.

Lemma extends_sleep delay :
  (forall d, P [JS.Sleep d]) -> extends_history P (JS.sleep delay).
Proof.
  intros Hsleep. unfold JS.sleep.
  destruct (as_number delay) as [d|]; [|apply extends_throw].
  destruct (fits_time_t d); [|apply extends_throw].
  destruct (Qle_bool 0 d); [by apply extends_event|apply extends_throw].
Qed.

Lemma extends_navigate url :
  P [JS.Call (JS.Get url)] -> extends_history P (JS.navigate browser url).
Proof. intros Hget s. by exists [JS.Call (JS.Get url)]. Qed.

Lemma extends_delayed_navigation self url {A} (k : page -> JS.B A) :
  (forall d, P [JS.Sleep d]) ->
  (forall url, P [JS.Call (JS.Get url)]) ->
  (forall pg, extends_history P (k pg)) ->
  extends_history P
    (delay ← (if truthy (JS.jitter self)
              then r ← JS.random_uniform browser;
                   JS.add_uniform (JS.delay_seconds self) r
              else mret (JS.delay_seconds self));
     _ ← JS.sleep delay;
     JS.navigate browser url ≫= k).
Proof.
  intros Hsleep Hget Hk. apply extends_bind.
  { destruct (truthy (JS.jitter self)); [|apply extends_ret].
    apply extends_bind; [apply extends_random_uniform|].
    intros r. apply extends_add_uniform. }
  intros delay. apply extends_bind; [by apply extends_sleep|]. intros _.
  apply extends_bind; [by apply extends_navigate|done].
Qed.

Lemma extends_get_driver : extends_history P JS.get_driver.
Proof. intros s. exists []. by rewrite app_nil_r. Qed.

Lemma extends_take_screenshot self filename :
  (forall path, P [JS.Call (JS.SaveScreenshot path)]) ->
  (forall lvl r, P [JS.Log lvl r]) ->
  extends_history P (JS.take_screenshot browser self filename).
Proof.
  intros Hshot Hlog. unfold JS.take_screenshot.
  apply extends_bind; [apply extends_get_driver|]. intros [|]; [|apply extends_ret].
  apply extends_bind; [apply extends_dict_get|]. intros on_error.
  destruct (truthy on_error); [|apply extends_ret].
  apply extends_try_catch.
  - apply extends_bind.
    + intros s. eexists. split_and!; [reflexivity|apply Hshot|done].
    + intros _. by apply extends_event.
  - intros e. by apply extends_event.
Qed.

(** The loop of a start path, given what holds of a sleep followed by a
    navigation. *)
Lemma extends_walk self sels :
  (forall lvl r, P [JS.Log lvl r]) ->
  (forall log, P (JS.Extraction <$> log)) ->
  (forall path, P [JS.Call (JS.SaveScreenshot path)]) ->
  (forall url A (k : page -> JS.B A),
     (forall pg, extends_history P (k pg)) ->
     extends_history P
       (delay ← (if truthy (JS.jitter self)
                 then r ← JS.random_uniform browser;
                      JS.add_uniform (JS.delay_seconds self) r
                 else mret (JS.delay_seconds self));
        _ ← JS.sleep delay;
        JS.navigate browser url ≫= k)) ->
  forall fuel url, extends_history P (JS.walk browser fuel self sels url).
Proof.
  intros Hlog Hextract Hshot Hnav.
  induction fuel as [|fuel IH]; intros url.
  all: destruct url as [u|]; [|apply extends_ret].
  all: cbn [JS.walk]; destruct (String.eqb u ""); try apply extends_ret.
  apply extends_bind; [by apply extends_event|]. intros _.
  apply extends_bind.
  2: { intros [next|]; [apply IH|apply extends_ret]. }
  apply extends_try_catch.
  - apply Hnav. intros pg.
    apply extends_bind; [by apply extends_extract|]. intros data.
    apply extends_bind; [apply extends_extend_all_data|]. intros _.
    apply extends_bind; [by apply extends_get_next_page_url|]. intros next.
    apply extends_ret.
  - intros e.
    apply extends_bind; [by apply extends_event|]. intros _.
    apply extends_bind; [apply extends_int_time|]. intros now.
    apply extends_bind; [by apply extends_take_screenshot|]. intros _.
    apply extends_ret.
Qed.

Lemma extends_for_paths self sels fuel :
  (forall lvl r, P [JS.Log lvl r]) ->
  (forall log, P (JS.Extraction <$> log)) ->
  (forall path, P [JS.Call (JS.SaveScreenshot path)]) ->
  (forall url A (k : page -> JS.B A),
     (forall pg, extends_history P (k pg)) ->
     extends_history P
       (delay ← (if truthy (JS.jitter self)
                 then r ← JS.random_uniform browser;
                      JS.add_uniform (JS.delay_seconds self) r
                 else mret (JS.delay_seconds self));
        _ ← JS.sleep delay;
        JS.navigate browser url ≫= k)) ->
  forall paths, extends_history P (JS.for_paths browser fuel self sels paths).
Proof.
  intros Hlog Hextract Hshot Hnav.
  induction paths as [|path paths IH]; [apply extends_ret|].
  cbn [JS.for_paths]. apply extends_bind; [by apply extends_walk|].
  intros status. destruct status; try apply extends_ret.
  all: apply extends_bind; [apply IH|]; intros statuses; apply extends_ret.
Qed.

End SessionSteps.

Section SessionReturns.
Context {page elem : Type} `{!WebDriver page elem} `{!UrlLib}
  (browser : JS.Browser page elem).

Lemma returns_ret {A} (a : A) : always_returns (mret a : JS.B A).
Proof. intros s. by exists a. Qed.

Lemma returns_bind {A C} (m : JS.B A) (f : A -> JS.B C) :
  always_returns m -> (forall a, always_returns (f a)) ->
  always_returns (m ≫= f).
Proof.
  intros Hm Hf s. unfold mbind, JS.B_bind.
  destruct (Hm s) as [a Ha]. destruct (m s) as [r s1]. cbn [fst] in Ha.
  subst r. apply Hf.
Qed.

Lemma returns_try_catch {A} (body : JS.B A) handler :
  (forall e, always_returns (handler e)) ->
  always_returns (JS.try_catch body handler).
Proof.
  intros Hhandler s. unfold JS.try_catch.
  destruct (body s) as [[a|e] s1]; [by exists a|apply Hhandler].
Qed.

Lemma returns_event ev : always_returns (JS.record_event ev).
Proof. intros s. by exists tt. Qed.

Lemma returns_take_screenshot self filename d :
  JS.selenium_config self = JDict d ->
  always_returns (JS.take_screenshot browser self filename).
Proof.
  intros Hdict. unfold JS.take_screenshot. rewrite Hdict. cbn [JS.dict_get].
  apply returns_bind; [intros s; by eexists|]. intros [|]; [|apply returns_ret].
  apply returns_bind; [apply returns_ret|]. intros on_error.
  destruct (truthy on_error); [|apply returns_ret].
  apply returns_try_catch. intros e. apply returns_event.
Qed.

Lemma returns_walk self sels d :
  JS.selenium_config self = JDict d ->
  forall fuel url, always_returns (JS.walk browser fuel self sels url).
Proof.
  intros Hdict. induction fuel as [|fuel IH]; intros url.
  all: destruct url as [u|]; [|apply returns_ret].
  all: cbn [JS.walk]; destruct (String.eqb u ""); try apply returns_ret.
  apply returns_bind; [apply returns_event|]. intros _.
  apply returns_bind.
  2: { intros [next|]; [apply IH|apply returns_ret]. }
  apply returns_try_catch. intros e.
  apply returns_bind; [apply returns_event|]. intros _.
  apply returns_bind; [intros s; by eexists|]. intros now.
  apply returns_bind; [by eapply returns_take_screenshot|]. intros _.
  apply returns_ret.
Qed.

Lemma returns_for_paths self sels fuel d :
  JS.selenium_config self = JDict d ->
  forall paths, always_returns (JS.for_paths browser fuel self sels paths).
Proof.
  intros Hdict. induction paths as [|path paths IH]; [apply returns_ret|].
  cbn [JS.for_paths]. apply returns_bind; [by eapply returns_walk|].
  intros status. destruct status; try apply returns_ret.
  all: apply returns_bind; [apply IH|]; intros statuses; apply returns_ret.
Qed.

(** [setup_driver] on a session without a driver: it returns with the
    driver set, or raises with none; its events are the creation of the
    driver and the record of its failure. *)
Lemma setup_driver_cases self s :
  JS.driver s = false ->
  exists new,
    JS.history (JS.setup_driver browser self s).2 = JS.history s ++ new
    /\ forallb is_setup_event new = true
    /\ JS.session_data (JS.setup_driver browser self s).2 = JS.session_data s
    /\ match (JS.setup_driver browser self s).1 with
       | JS.Returns _ =>
           JS.driver (JS.setup_driver browser self s).2 = true
           /\ exists d, JS.selenium_config self = JDict d
       | JS.Raises e => JS.driver (JS.setup_driver browser self s).2 = false
       end.
Proof.
  intros Hdriver. unfold JS.setup_driver, JS._get_chrome_options.
  destruct (JS.selenium_config self) as [| | | | | |d]; cbn [JS.dict_get].
  1-6: exists []; by rewrite app_nil_r.
  cbv [mbind mret JS.B_bind JS.B_ret JS.throw JS.try_catch JS.of_result
       JS.record_event JS.log_session JS.new_driver JS.random_choice].
  cbn [fst snd JS.history JS.driver JS.session_data JS.random_draws
       JS.navigations JS.screenshots JS.clock_reads].
  repeat match goal with
  | |- context [truthy ?v] => destruct (truthy v)
  end.
  all: destruct (JS.user_agents self) as [|ua uas].
  all: repeat match goal with
       | |- context [JS.webdriver_remote browser ?u ?o] =>
           destruct (JS.webdriver_remote browser u o)
       | |- context [JS.webdriver_chrome browser ?o] =>
           destruct (JS.webdriver_chrome browser o)
       | |- context [JS.driver_manager_install browser] =>
           destruct (JS.driver_manager_install browser)
       end.
  all: cbn [fst snd JS.history JS.driver JS.session_data].
  all: eexists; split; [by rewrite <- ?app_assoc|].
  all: split; [reflexivity|]; split; [reflexivity|]; by eauto.
Qed.

(** A run of [scrape] from a fresh session: [setup_driver] raises, and
    [scrape] raises the same after logging it; or the driver is set up,
    the start paths are walked without an exception, and the driver is
    quit. *)
Lemma scrape_cases fuel self :
  (exists e s1,
      JS.setup_driver browser self JS.new_session = (JS.Raises e, s1)
      /\ JS.driver s1 = false
      /\ forallb is_setup_event (JS.history s1) = true
      /\ JS.scrape browser fuel self JS.new_session
         = (JS.Raises e, after_setup_error e s1))
  \/ (exists s1 statuses s2,
      JS.setup_driver browser self JS.new_session = (JS.Returns tt, s1)
      /\ JS.driver s1 = true
      /\ forallb is_setup_event (JS.history s1) = true
      /\ JS.for_paths browser fuel self
           (selectors_of_json
              (ConfigLoader.get (JS.config self) "selectors" (JDict [])))
           (as_string_list
              (ConfigLoader.get (JS.config self) "start_paths" (JList [JStr "/"])))
           s1 = (JS.Returns statuses, s2)
      /\ JS.driver s2 = true
      /\ JS.history (JS.scrape browser fuel self JS.new_session).2
         = JS.history s2 ++ [JS.Call JS.Quit]
      /\ JS.driver (JS.scrape browser fuel self JS.new_session).2 = true
      /\ (JS.scrape browser fuel self JS.new_session).1
         = match JS.driver_quit browser with
           | Ok _ => JS.Returns (statuses, JS.session_data s2)
           | Raise e => JS.Raises (JS.Lib e)
           end).
Proof.
  destruct (setup_driver_cases self JS.new_session eq_refl)
    as (new & Hnew & Hsetup & _ & Hcases).
  destruct (JS.setup_driver browser self JS.new_session) as [[[]|e] s1] eqn:Hrun;
    cbn [fst snd] in *.
  - right. destruct Hcases as [Hdriver [d Hdict]].
    set (sels := selectors_of_json
                   (ConfigLoader.get (JS.config self) "selectors" (JDict []))).
    set (paths := as_string_list
                    (ConfigLoader.get (JS.config self) "start_paths"
                       (JList [JStr "/"]))).
    destruct (returns_for_paths self sels fuel d Hdict paths s1)
      as [statuses Hret].
    assert (Hext : extends_history (fun _ => True)
                     (JS.for_paths browser fuel self sels paths)).
    { apply extends_for_paths; try done.
      intros url A k Hk. by apply extends_delayed_navigation. }
    destruct (Hext s1) as (new1 & _ & _ & Hd2).
    destruct (JS.for_paths browser fuel self sels paths s1) as [r s2] eqn:Hpaths.
    cbn [fst snd] in *. subst r. rewrite Hdriver in Hd2.
    exists s1, statuses, s2.
    assert (Hscrape :
      JS.scrape browser fuel self JS.new_session
      = (match JS.driver_quit browser with
         | Ok _ => JS.Returns (statuses, JS.session_data s2)
         | Raise e => JS.Raises (JS.Lib e)
         end,
         JS.mk_session (JS.history s2 ++ [JS.Call JS.Quit]) (JS.random_draws s2)
           (JS.navigations s2) (JS.screenshots s2) (JS.clock_reads s2)
           (JS.driver s2) (JS.session_data s2))).
    { unfold JS.scrape. cbv zeta. fold sels paths.
      cbv [mbind mret JS.B_bind JS.B_ret JS.try_finally JS.try_catch
           JS.get_driver JS.quit JS.get_session_data].
      rewrite Hrun, Hpaths, Hd2. cbn [fst snd].
      destruct (JS.driver_quit browser); by rewrite ?Hd2. }
    rewrite Hscrape. cbn [fst snd JS.history JS.driver].
    split_and!; [done|done|by rewrite Hnew|done..].
  - left. exists e, s1. split_and!; [done|done|by rewrite Hnew|].
    unfold JS.scrape. cbv zeta.
    cbv [mbind mret JS.B_bind JS.B_ret JS.try_finally JS.try_catch
         JS.get_driver JS.quit JS.get_session_data JS.log_session
         JS.record_event JS.throw].
    rewrite Hrun. unfold after_setup_error. cbn [fst snd JS.driver].
    rewrite Hcases. reflexivity.
Qed.

End SessionReturns.

Lemma setup_events_calls h :
  forallb is_setup_event h = true ->
  (JS.Quit ∉ browser_calls h) /\ navigated h = [].
Proof.
  induction h as [|ev h IH]; [intros _; split; [apply not_elem_of_nil|done]|].
  cbn [forallb]. intros [Hev Hh]%andb_prop. destruct (IH Hh) as [Hquit Hnav].
  destruct ev as [d|[]|lvl r|ev]; try done; simpl; split; try done.
  all: apply not_elem_of_cons; split; [done|]; first [done | apply not_elem_of_nil].
Qed.

Lemma sleep_before_each_navigation_none admissible h :
  navigated h = [] -> sleep_before_each_navigation admissible h.
Proof.
  intros Hnone pre url post ->. rewrite navigated_app in Hnone.
  by apply app_eq_nil in Hnone as [_ ?].
Qed.

Lemma sleep_before_each_navigation_app admissible h1 h2 :
  sleep_before_each_navigation admissible h1 ->
  sleep_before_each_navigation admissible h2 ->
  sleep_before_each_navigation admissible (h1 ++ h2).
Proof.
  intros H1 H2 pre url post Heq.
  apply app_eq_inv in Heq as [(k & -> & Hk)|(k & -> & ->)].
  - destruct k as [|ev k]; simplify_eq/=.
    + destruct (H2 [] url post eq_refl) as (pre' & d & Hnil & _).
      by destruct pre'.
    + by eapply H1.
  - destruct (H2 k url post eq_refl) as (pre' & d & -> & Hd).
    exists (h1 ++ pre'), d. by rewrite app_assoc.
Qed.

Lemma sleep_before_each_navigation_step admissible d url h :
  admissible d ->
  sleep_before_each_navigation admissible h ->
  sleep_before_each_navigation admissible
    ([JS.Sleep d; JS.Call (JS.Get url)] ++ h).
Proof.
  intros Hd Hh pre url' post Heq.
  destruct pre as [|ev0 [|ev1 pre]]; simplify_eq/=.
  - by exists [], d.
  - destruct (Hh pre url' post eq_refl) as (pre' & d' & -> & Hd').
    by exists (JS.Sleep d :: JS.Call (JS.Get url) :: pre'), d'.
Qed.

Section SessionProperties.
Context {page elem : Type} `{!WebDriver page elem} `{!UrlLib}
  (browser : JS.Browser page elem).

Lemma for_paths_never_quits self sels fuel paths :
  extends_history (fun new => JS.Quit ∉ browser_calls new)
    (JS.for_paths browser fuel self sels paths).
Proof.
  apply extends_for_paths.
  - apply not_elem_of_nil.
  - intros h1 h2 H1 H2. rewrite browser_calls_app. by apply not_elem_of_app.
  - intros lvl r. apply not_elem_of_nil.
  - intros log. induction log as [|ev log IH]; [apply not_elem_of_nil|done].
  - intros path. simpl. apply not_elem_of_cons; split; [done|]; first [done | apply not_elem_of_nil].
  - intros url A k Hk. apply extends_delayed_navigation; try done.
    + apply not_elem_of_nil.
    + intros h1 h2 H1 H2. rewrite browser_calls_app. by apply not_elem_of_app.
    + intros d. apply not_elem_of_nil.
    + intros u. simpl. apply not_elem_of_cons; split; [done|]; first [done | apply not_elem_of_nil].
Qed.

Lemma for_paths_sleeps_before_navigation self sels fuel paths :
  extends_history
    (sleep_before_each_navigation
       (is_navigation_delay browser (JS.delay_seconds self) (JS.jitter self)))
    (JS.for_paths browser fuel self sels paths).
Proof.
  apply extends_for_paths.
  - by apply sleep_before_each_navigation_none.
  - apply sleep_before_each_navigation_app.
  - intros lvl r. by apply sleep_before_each_navigation_none.
  - intros log. apply sleep_before_each_navigation_none.
    induction log as [|ev log IH]; done.
  - intros path. by apply sleep_before_each_navigation_none.
  - intros url A k Hk s.
    cbv [mbind mret JS.B_bind JS.B_ret JS.random_uniform JS.add_uniform
         JS.sleep JS.throw JS.record_event JS.navigate].
    assert (Hnone : exists new,
              JS.history s = JS.history s ++ new
              /\ sleep_before_each_navigation
                   (is_navigation_delay browser (JS.delay_seconds self)
                      (JS.jitter self)) new).
    { exists []. split; [by rewrite app_nil_r|].
      by apply sleep_before_each_navigation_none. }
    destruct Hnone as (new0 & Hnew0 & HP0).
    destruct (truthy (JS.jitter self)) eqn:Hjitter;
      destruct (as_number (JS.delay_seconds self)) as [base|] eqn:Hbase;
      cbn [fst snd as_number JS.history JS.driver]; try (by exists new0).
    all: match goal with
         | |- context [fits_time_t ?d] => destruct (fits_time_t d) eqn:Hfits
         end; cbn [fst snd JS.history JS.driver]; try (by exists new0).
    all: match goal with
         | |- context [Qle_bool 0 ?d] => destruct (Qle_bool 0 d) eqn:Hle
         end; cbn [fst snd JS.history JS.driver]; try (by exists new0).
    all: match goal with
         | |- context [JS.driver_get browser ?n ?u] =>
             destruct (JS.driver_get browser n u) as [pg|e]
         end; cbn [fst snd JS.history JS.driver].
    + match goal with
      | |- context [k pg ?s1] =>
          destruct (Hk pg s1) as (newk & Hnewk & HPk & Hdk);
          cbn [JS.history JS.driver] in Hnewk, Hdk
      end.
      eexists. split_and!; [by rewrite Hnewk, <- !app_assoc| |done].
      apply sleep_before_each_navigation_step; [|done].
      exists base. split; [done|]. rewrite Hjitter.
      eexists. split; [reflexivity|]. apply JS.uniform01_range.
    + eexists. split_and!; [by rewrite <- !app_assoc| |done].
      apply (sleep_before_each_navigation_step _ _ _ []).
      * exists base. split; [done|]. rewrite Hjitter.
        eexists. split; [reflexivity|]. apply JS.uniform01_range.
      * by apply sleep_before_each_navigation_none.
    + match goal with
      | |- context [k pg ?s1] =>
          destruct (Hk pg s1) as (newk & Hnewk & HPk & Hdk);
          cbn [JS.history JS.driver] in Hnewk, Hdk
      end.
      eexists. split_and!; [by rewrite Hnewk, <- !app_assoc| |done].
      apply sleep_before_each_navigation_step; [|done].
      exists base. split; [done|]. by rewrite Hjitter.
    + eexists. split_and!; [by rewrite <- !app_assoc| |done].
      apply (sleep_before_each_navigation_step _ _ _ []).
      * exists base. split; [done|]. by rewrite Hjitter.
      * by apply sleep_before_each_navigation_none.
Qed.

(** X19. In a run of [scrape], [driver.quit()] is called exactly once
    when the driver was created, as the last call to the browser, and
    not at all when it was not. *)
Theorem driver_is_quit_once fuel self :
  let run := JS.scrape browser fuel self JS.new_session in
  if JS.driver run.2
  then exists before,
         browser_calls (JS.history run.2) = before ++ [JS.Quit]
         /\ (JS.Quit ∉ before)
  else JS.Quit ∉ browser_calls (JS.history run.2).
Proof.
  cbv zeta.
  destruct (scrape_cases browser fuel self)
    as [(e & s1 & _ & Hdriver & Hsetup & ->)
       |(s1 & statuses & s2 & _ & _ & Hsetup & Hpaths & _ & -> & -> & _)].
  - cbn [snd after_setup_error JS.driver JS.history]. rewrite Hdriver.
    rewrite browser_calls_app, app_nil_r.
    by apply setup_events_calls.
  - exists (browser_calls (JS.history s2)). split.
    + by rewrite browser_calls_app.
    + match type of Hpaths with
      | JS.for_paths _ _ _ ?sels ?paths _ = _ =>
          destruct (for_paths_never_quits self sels fuel paths s1)
            as (new & Hnew & Hquit & _)
      end.
      rewrite Hpaths in Hnew. cbn [snd] in Hnew.
      rewrite Hnew, browser_calls_app. apply not_elem_of_app. split; [|done].
      by apply setup_events_calls.
Qed.

(** X20. Every [driver.get] of a run of [scrape] comes right after a
    [time.sleep] of the configured delay, plus a draw from [0, 1) when
    jitter is on. *)
Theorem sleep_precedes_every_navigation fuel self :
  sleep_before_each_navigation
    (is_navigation_delay browser (JS.delay_seconds self) (JS.jitter self))
    (JS.history (JS.scrape browser fuel self JS.new_session).2).
Proof.
  destruct (scrape_cases browser fuel self)
    as [(e & s1 & _ & Hdriver & Hsetup & ->)
       |(s1 & statuses & s2 & _ & _ & Hsetup & Hpaths & _ & -> & _)].
  - apply sleep_before_each_navigation_none.
    cbn [snd after_setup_error JS.history].
    rewrite navigated_app, app_nil_r. by apply setup_events_calls.
  - match type of Hpaths with
    | JS.for_paths _ _ _ ?sels ?paths _ = _ =>
        destruct (for_paths_sleeps_before_navigation self sels fuel paths s1)
          as (new & Hnew & Hsleeps & _)
    end.
    rewrite Hpaths in Hnew. cbn [snd] in Hnew. rewrite Hnew.
    repeat apply sleep_before_each_navigation_app; [|done|].
    + apply sleep_before_each_navigation_none. by apply setup_events_calls.
    + by apply sleep_before_each_navigation_none.
Qed.

(** X21. When [setup_driver] raises, [scrape] logs the exception once
    more and raises it; the browser is neither sent anywhere nor quit. *)
Theorem setup_failure_is_raised fuel self e s1 :
  JS.setup_driver browser self JS.new_session = (JS.Raises e, s1) ->
  JS.scrape browser fuel self JS.new_session
  = (JS.Raises e, after_setup_error e s1)
  /\ navigated (JS.history (after_setup_error e s1)) = []
  /\ (JS.Quit ∉ browser_calls (JS.history (after_setup_error e s1))).
Proof.
  intros Hrun.
  destruct (scrape_cases browser fuel self)
    as [(e' & s1' & Hrun' & Hdriver & Hsetup & Hscrape)
       |(s1' & statuses & s2 & Hrun' & _)];
    rewrite Hrun in Hrun'; [|done].
  injection Hrun' as <- <-. split; [done|].
  cbn [after_setup_error JS.history].
  rewrite navigated_app, browser_calls_app, !app_nil_r.
  destruct (setup_events_calls _ Hsetup). by split.
Qed.


End SessionProperties.

Lemma setup_failure_is_raised_witness :
  let self := Chrome.scraper ["/"] in
  let e := JS.Lib (WebDriverException "chrome not found") in
  let s1 := (JS.setup_driver Chrome.no_chrome self JS.new_session).2 in
  JS.scrape Chrome.no_chrome 3 self JS.new_session
  = (JS.Raises e, after_setup_error e s1)
  /\ navigated (JS.history (after_setup_error e s1)) = []
  /\ (JS.Quit ∉ browser_calls (JS.history (after_setup_error e s1))).
Proof.
  cbv zeta.
  apply (setup_failure_is_raised Chrome.no_chrome 3 (Chrome.scraper ["/"])).
  vm_compute. reflexivity.
Defined.


(** The two pages of the sample site in the browser: the driver is
    created, each page is slept for and loaded, the missing next button of
    the second ends the walk, and the driver is quit. *)
Example browser_walks_two_pages :
  let run := JS.scrape Chrome.browser 3 (Chrome.scraper ["/"]) JS.new_session in
  run.1 = JS.Returns ([Static.Done],
                      [ {[ "title" := VStr "One" ]}; {[ "title" := VStr "Two" ]} ])
  /\ browser_calls (JS.history run.2)
     = [JS.Install;
        JS.Chrome ["--headless"; "--no-sandbox"; "--disable-dev-shm-usage";
                   "--disable-gpu"; "--window-size=1920,1080"];
        JS.Get "https://example.com/"; JS.Get "https://example.com/page2";
        JS.Quit].
Proof. cbv zeta. split; vm_compute; reflexivity. Qed.

(** A page that is down: the error is logged, a screenshot is taken, and
    [scrape] returns what it has. *)
Example browser_page_down :
  let run := JS.scrape Chrome.browser 3 (Chrome.scraper ["/down"]) JS.new_session in
  run.1 = JS.Returns ([Static.Failed], [])
  /\ browser_calls (JS.history run.2)
     = [JS.Install;
        JS.Chrome ["--headless"; "--no-sandbox"; "--disable-dev-shm-usage";
                   "--disable-gpu"; "--window-size=1920,1080"];
        JS.Get "https://example.com/down";
        JS.SaveScreenshot "logs/screenshots/error_1700000000.png";
        JS.Quit].
Proof. cbv zeta. split; vm_compute; reflexivity. Qed.

Section SessionPaths.
Context {page elem : Type} `{!WebDriver page elem} `{!UrlLib}
  (browser : JS.Browser page elem).

(** The walk of a path starts with its "Scraping" record, and the
    history only grows. *)
Lemma js_walk_history self sels fuel url s :
  exists new,
    JS.history (JS.walk browser fuel self sels url s).2 = JS.history s ++ new
    /\ (forall u, url = Some u -> u <> "" -> 0 < fuel ->
          exists rest, new = JS.Log INFO (JS.ScrapingPage u) :: rest).
Proof.
  assert (Hwalk : forall fuel url,
            extends_history (fun _ => True) (JS.walk browser fuel self sels url)).
  { apply extends_walk; try done.
    intros u A k Hk. by apply extends_delayed_navigation. }
  destruct fuel as [|fuel].
  { destruct (Hwalk 0 url s) as (new & Hnew & _). exists new. split; [done|].
    intros; lia. }
  destruct url as [u|].
  2: { exists []. split; [by rewrite app_nil_r|]. by intros. }
  destruct (decide (u = "")) as [->|Hne].
  { exists []. split; [by rewrite app_nil_r|]. by intros u [= <-]. }
  assert (Hstep : exists rest : JS.B Static.walk_status,
            JS.walk browser (S fuel) self sels (Some u)
            = (_ ← JS.log_session INFO (JS.ScrapingPage u); rest)
            /\ extends_history (fun _ => True) rest).
  { cbn [JS.walk]. destruct (String.eqb_spec u ""); [done|].
    eexists. split; [reflexivity|].
    apply extends_bind; try done.
    2: { intros [next|]; [apply Hwalk|by apply extends_ret]. }
    apply extends_try_catch; try done.
    - apply extends_delayed_navigation; try done. intros pg.
      apply extends_bind; try done; [by apply extends_extract|]. intros data.
      apply extends_bind; try done; [by apply extends_extend_all_data|].
      intros _.
      apply extends_bind; try done; [by apply extends_get_next_page_url|].
      intros next. by apply extends_ret.
    - intros e.
      apply extends_bind; try done; [by apply extends_event|]. intros _.
      apply extends_bind; try done; [by apply extends_int_time|]. intros now.
      apply extends_bind; try done; [by apply extends_take_screenshot|].
      intros _. by apply extends_ret. }
  destruct Hstep as (rest & -> & Hrest).
  unfold mbind, JS.B_bind, JS.log_session, JS.record_event.
  match goal with
  | |- context [rest ?s0] => destruct (Hrest s0) as (new & Hnew & _)
  end.
  cbn [JS.history] in Hnew.
  exists (JS.Log INFO (JS.ScrapingPage u) :: new). split.
  - rewrite Hnew. by rewrite <- app_assoc.
  - intros u' [= <-] _ _. by eexists.
Qed.

Lemma js_for_paths_visits self sels fuel :
  0 < fuel ->
  forall paths s statuses s',
    JS.for_paths browser fuel self sels paths s = (JS.Returns statuses, s') ->
    Static.Running ∉ statuses ->
    (exists new, JS.history s' = JS.history s ++ new)
    /\ forall path, path ∈ paths ->
         urljoin (JS.base_url self) path <> "" ->
         JS.Log INFO (JS.ScrapingPage (urljoin (JS.base_url self) path))
           ∈ JS.history s'.
Proof.
  intros Hfuel.
  induction paths as [|path paths IH]; intros s statuses s' Hrun Hdone.
  { injection Hrun as <- <-. split; [exists []; by rewrite app_nil_r|].
    intros path Hin. by apply elem_of_nil in Hin. }
  cbn [JS.for_paths] in Hrun. unfold mbind, JS.B_bind in Hrun.
  destruct (js_walk_history self sels fuel
              (Some (urljoin (JS.base_url self) path)) s)
    as (new1 & Hnew1 & Hfirst).
  destruct (JS.walk browser fuel self sels _ s) as [[status|e] s1]; [|done].
  cbn [snd] in Hnew1.
  assert (Hrest : exists statuses', statuses = status :: statuses'
            /\ JS.for_paths browser fuel self sels paths s1
               = (JS.Returns statuses', s')).
  { destruct status.
    - destruct (JS.for_paths browser fuel self sels paths s1) as [[sts|e] s2];
        [|done].
      injection Hrun as <- <-. by eexists.
    - destruct (JS.for_paths browser fuel self sels paths s1) as [[sts|e] s2];
        [|done].
      injection Hrun as <- <-. by eexists.
    - injection Hrun as <- <-. exfalso. apply Hdone. by left. }
  destruct Hrest as (statuses' & -> & Hrest).
  apply not_elem_of_cons in Hdone as [_ Hdone].
  destruct (IH s1 statuses' s' Hrest Hdone) as [[new2 Hnew2] Hvisits].
  split.
  - exists (new1 ++ new2). by rewrite Hnew2, Hnew1, app_assoc.
  - intros path' [->|Hin]%elem_of_cons Hne; [|by apply Hvisits].
    destruct (Hfirst _ eq_refl Hne Hfuel) as [rest ->].
    rewrite Hnew2, Hnew1. set_solver.
Qed.

(** X23. A page that fails ends the walk of its start path only: when
    [scrape] returns and no path ran out of fuel, every start path (with a
    non-empty URL) was set out for, whatever became of the paths before
    it. *)
Theorem every_start_path_is_set_out_for fuel self statuses data s' :
  JS.scrape browser fuel self JS.new_session
  = (JS.Returns (statuses, data), s') ->
  Static.Running ∉ statuses ->
  0 < fuel ->
  forall path,
    path ∈ as_string_list
             (ConfigLoader.get (JS.config self) "start_paths" (JList [JStr "/"])) ->
    urljoin (JS.base_url self) path <> "" ->
    JS.Log INFO (JS.ScrapingPage (urljoin (JS.base_url self) path))
      ∈ JS.history s'.
Proof.
  intros Hscrape Hdone Hfuel path Hin Hne.
  destruct (scrape_cases browser fuel self)
    as [(e & s1 & _ & _ & _ & Hraises)
       |(s1 & statuses' & s2 & Hsetup & _ & _ & Hpaths & _ & Hhistory & _ & Hresult)].
  { by rewrite Hraises in Hscrape. }
  rewrite Hscrape in Hhistory, Hresult. cbn [fst snd] in Hhistory, Hresult.
  destruct (JS.driver_quit browser); [|done]. injection Hresult as -> _.
  destruct (js_for_paths_visits self _ fuel Hfuel _ _ _ _ Hpaths Hdone)
    as [_ Hvisits].
  rewrite Hhistory. apply elem_of_app. left. by apply Hvisits.
Qed.

End SessionPaths.

Lemma every_start_path_is_set_out_for_witness :
  JS.Log INFO (JS.ScrapingPage "https://example.com/page2")
    ∈ JS.history
        (JS.scrape Chrome.browser 3 (Chrome.scraper ["/down"; "/page2"])
           JS.new_session).2.
Proof.
  refine (every_start_path_is_set_out_for Chrome.browser 3
            (Chrome.scraper ["/down"; "/page2"])
            [Static.Failed; Static.Done] [ {[ "title" := VStr "Two" ]} ]
            (JS.scrape Chrome.browser 3 (Chrome.scraper ["/down"; "/page2"])
               JS.new_session).2 _ _ _ "/page2" _ _).
  - vm_compute. reflexivity.
  - intros Hin.
    repeat (apply elem_of_cons in Hin as [?|Hin]; [discriminate|]).
    by apply elem_of_nil in Hin.
  - lia.
  - compute_done.
  - discriminate.
Defined.
